(** * Traffic accident analysis: a shallow embedding of
      [traffic_accident_analysis.py]

    The script is a straight-line pandas pipeline: load a table from a zip
    archive, derive time features from [Start_Time], aggregate, save up to six
    charts and write a text report.

    Modelling conventions.
    - A table is a list of column names and a list of rows.  A row carries the
      cells the script computes with: the [Start_Time] cell as it stands after
      [pd.to_datetime(..., errors='coerce')] ([None] is [NaT]), the [Severity]
      cell and the [Weather_Condition] cell ([None] is a missing value, NaN).
      The other columns are only handed to the plotting library; for them the
      model keeps the column name.
    - A [Series] is an association list from labels to values, in index
      order.  [value_counts], [sort_index], [reindex], [idxmax], [idxmin],
      [max], [min] and the grouped mean follow pandas: missing values are
      dropped from counts, from group keys and from reductions.
    - Numbers that pandas holds in float64 (percentages, means) are float64
      here as well ([PrimFloat]); counts and hours are integers.
    - The script's effects are the files it writes and the exception that
      ends it.  The exceptions modelled are those of the script's own table
      operations.  Calls into the plotting library are taken to return, as
      they do on every run that reaches the end.  They do not return on a
      table without rows (the weekend bars of Step 3), on a table without a
      parsed timestamp (the heat map of Step 3) or on a Weather_Condition
      column that holds no value (the pie of Step 4): the script stops at
      that call, where the model goes on to the exception of Step 9.  Which
      charts a run writes is therefore stated for the runs that reach the
      end. *)

From Stdlib Require Import ZArith QArith List String Ascii Bool Lia.
From Stdlib Require Import Permutation Sorted DecimalString Floats Uint63.
Import ListNotations.

Local Open Scope string_scope.
Local Open Scope Z_scope.

(* ===================================================================== *)
(** ** Python values and helpers *)

(** [str.endswith]. *)
Definition endswith (s suffix : string) : bool :=
  (String.length suffix <=? String.length s)%nat
  && String.eqb
       (substring (String.length s - String.length suffix)
                  (String.length suffix) s)
       suffix.

(** [str(n)] for a Python or numpy integer. *)
Definition str_of_int (z : Z) : string := NilZero.string_of_int (Z.to_int z).

(** The float64 nearest to an integer (exact below 2^53). *)
Definition float_of_Z (z : Z) : float :=
  if z <? 0 then PrimFloat.opp (PrimFloat.of_uint63 (Uint63.of_Z (- z)))
  else PrimFloat.of_uint63 (Uint63.of_Z z).

(** The dtype of an integer-valued column: pandas keeps int64 while no value
    is missing and switches to float64 as soon as one is. *)
Inductive dtype := int64 | float64.

(** [str(x)] (and an f-string slot without a format) for a number with an
    integral value [z] held in a column of dtype [dt]: [7] or [7.0]. *)
Definition str_of_num (dt : dtype) (z : Z) : string :=
  match dt with
  | int64 => str_of_int z
  | float64 => str_of_int z ++ ".0"
  end.

(** Number of tenths nearest to [m * 2^e], ties to even: the digits that
    the format [.1f] prints for a positive float with mantissa [m] and
    exponent [e]. *)
Definition tenths_half_even (m : positive) (e : Z) : Z :=
  let num := Z.pos m * 10 in
  if 0 <=? e then num * 2 ^ e
  else
    let d := 2 ^ (- e) in
    let q := num / d in
    let r := num mod d in
    if 2 * r <? d then q
    else if d <? 2 * r then q + 1
    else if Z.even q then q else q + 1.

(** [f"{x:.1f}"]. *)
Definition format_1f (x : float) : string :=
  match Prim2SF x with
  | S754_zero s => (if s then "-" else "") ++ "0.0"
  | S754_finite s m e =>
      let t := tenths_half_even m e in
      (if s then "-" else "") ++ str_of_int (t / 10) ++ "." ++ str_of_int (t mod 10)
  | S754_infinity s => (if s then "-" else "") ++ "inf"
  | S754_nan => "nan"
  end.

(** The value the format [.1f] prints, counted in tenths. *)
Definition printed_tenths (x : float) : option Z :=
  match Prim2SF x with
  | S754_zero _ => Some 0
  | S754_finite s m e =>
      Some (if s then - tenths_half_even m e else tenths_half_even m e)
  | _ => None
  end.

(** [sub in s]. *)
Fixpoint contains (sub s : string) : bool :=
  if String.prefix sub s then true
  else match s with
       | EmptyString => false
       | String _ s' => contains sub s'
       end.

(* ===================================================================== *)
(** ** Timestamps *)

(** A parsed timestamp: nanoseconds since 1970-01-01T00:00:00, as in
    datetime64[ns]. *)
Definition Timestamp := Z.

Definition ns_per_hour : Z := 3600 * 1000000000.
Definition ns_per_day : Z := 24 * ns_per_hour.

(** [.dt.hour] *)
Definition ts_hour (t : Timestamp) : Z := (t / ns_per_hour) mod 24.

(** [.dt.dayofweek]: Monday is 0; 1970-01-01 was a Thursday. *)
Definition ts_dayofweek (t : Timestamp) : Z := (t / ns_per_day + 3) mod 7.

Definition day_order : list string :=
  ["Monday"; "Tuesday"; "Wednesday"; "Thursday"; "Friday"; "Saturday"; "Sunday"].

(** [.dt.day_name()] *)
Definition ts_day_name (t : Timestamp) : string :=
  nth (Z.to_nat (ts_dayofweek t)) day_order "".

(* ===================================================================== *)
(** ** Tables *)

Record Row := mkRow {
  Start_Time : option Timestamp;
  Severity : option Z;
  Weather_Condition : option string
}.

Record DataFrame := mkDF {
  columns : list string;
  rows : list Row
}.

(** [col in df.columns] *)
Definition has_column (df : DataFrame) (col : string) : bool :=
  existsb (String.eqb col) (columns df).

(** [len(df)] *)
Definition len (df : DataFrame) : Z := Z.of_nat (List.length (rows df)).

(* ===================================================================== *)
(** ** Step 2: derived features *)

(** [df['Hour'] = df['Start_Time'].dt.hour] *)
Definition Hour (r : Row) : option Z := option_map ts_hour (Start_Time r).

(** [df['Day_of_Week'] = df['Start_Time'].dt.day_name()] *)
Definition Day_of_Week (r : Row) : option string :=
  option_map ts_day_name (Start_Time r).

(** [isin([5, 6])] on one cell; a missing value is in no list. *)
Definition isin_5_6 (c : option Z) : bool :=
  match c with
  | Some d => (d =? 5) || (d =? 6)
  | None => false
  end.

(** [df['Is_Weekend'] = df['Start_Time'].dt.dayofweek.isin([5, 6]).astype(int)] *)
Definition Is_Weekend (r : Row) : Z :=
  if isin_5_6 (option_map ts_dayofweek (Start_Time r)) then 1 else 0.

(** The Hour column is int while every timestamp parsed and float64 (with
    NaN) otherwise. *)
Definition hour_dtype (df : DataFrame) : dtype :=
  if forallb (fun r => match Start_Time r with Some _ => true | None => false end)
             (rows df)
  then int64 else float64.

(** What [get_time_period] needs of its argument: the two comparisons with
    integer constants that the chained tests [a <= hour < b] perform. *)
Class HourLike (A : Type) := {
  int_le : Z -> A -> bool;   (* c <= hour *)
  lt_int : A -> Z -> bool    (* hour < c *)
}.

#[export] Instance HourLike_int : HourLike Z := {
  int_le c h := c <=? h;
  lt_int h c := h <? c
}.

(** A cell of a float64 Hour column: NaN or a float with an integral value.
    Every comparison with NaN is false. *)
#[export] Instance HourLike_cell : HourLike (option Z) := {
  int_le c h := match h with Some z => c <=? z | None => false end;
  lt_int h c := match h with Some z => z <? c | None => false end
}.

(** Any float64, NaN and the infinities included. *)
#[export] Instance HourLike_float : HourLike float := {
  int_le c h := PrimFloat.leb (float_of_Z c) h;
  lt_int h c := PrimFloat.ltb h (float_of_Z c)
}.

Definition get_time_period {A : Type} `{HourLike A} (hour : A) : string :=
  if int_le 5 hour && lt_int hour 12 then "Morning"
  else if int_le 12 hour && lt_int hour 17 then "Afternoon"
  else if int_le 17 hour && lt_int hour 21 then "Evening"
  else "Night".

(** [df['Time_Period'] = df['Hour'].apply(get_time_period)] *)
Definition Time_Period (r : Row) : string := get_time_period (Hour r).

Definition period_order : list string :=
  ["Morning"; "Afternoon"; "Evening"; "Night"].

(* ===================================================================== *)
(** ** Series *)

(** [s.dropna()] on the cells of a column. *)
Fixpoint dropna {A : Type} (l : list (option A)) : list A :=
  match l with
  | [] => []
  | Some x :: t => x :: dropna t
  | None :: t => dropna t
  end.

Section Sorting.
Context {X : Type} (le : X -> X -> bool).

Fixpoint insert_sorted (x : X) (l : list X) : list X :=
  match l with
  | [] => [x]
  | y :: t => if le x y then x :: y :: t else y :: insert_sorted x t
  end.

(** A stable sort; entries that compare equal keep their order. *)
Definition sort_by (l : list X) : list X := fold_right insert_sorted [] l.
End Sorting.

Section SeriesOps.
Context {A : Type} (eqb : A -> A -> bool).

(** [s.get(k)]: the value at the first entry labelled [k]. *)
Fixpoint lookup {V : Type} (k : A) (s : list (A * V)) : option V :=
  match s with
  | [] => None
  | (k', v) :: t => if eqb k' k then Some v else lookup k t
  end.

(** One step of the counting pass: bump the counter of [x], or open one. *)
Fixpoint incr (x : A) (tbl : list (A * Z)) : list (A * Z) :=
  match tbl with
  | [] => [(x, 1)]
  | (k, c) :: t => if eqb k x then (k, c + 1) :: t else (k, c) :: incr x t
  end.

(** Counters of the distinct values, in order of first appearance. *)
Definition tally (vals : list A) : list (A * Z) :=
  fold_left (fun tbl x => incr x tbl) vals [].

(** [col.value_counts()]: missing values dropped, most frequent first. *)
Definition value_counts (col : list (option A)) : list (A * Z) :=
  sort_by (fun a b => snd b <=? snd a) (tally (dropna col)).

(** [s.sort_index()] for an order [leb] on the labels. *)
Definition sort_index {V : Type} (leb : A -> A -> bool) (s : list (A * V))
  : list (A * V) :=
  sort_by (fun a b => leb (fst a) (fst b)) s.

(** [s.reindex(order)]: a label that [s] lacks gets a missing value. *)
Definition reindex {V : Type} (order : list A) (s : list (A * V))
  : list (A * option V) :=
  map (fun k => (k, lookup k s)) order.

(** The entries whose value is present: what a reduction with
    [skipna=True] looks at. *)
Fixpoint skipna {V : Type} (s : list (A * option V)) : list (A * V) :=
  match s with
  | [] => []
  | (k, Some v) :: t => (k, v) :: skipna t
  | (_, None) :: t => skipna t
  end.

Fixpoint argmax_from (best : A * Z) (s : list (A * Z)) : A * Z :=
  match s with
  | [] => best
  | kv :: t => if snd best <? snd kv then argmax_from kv t
               else argmax_from best t
  end.

Fixpoint argmin_from (best : A * Z) (s : list (A * Z)) : A * Z :=
  match s with
  | [] => best
  | kv :: t => if snd kv <? snd best then argmin_from kv t
               else argmin_from best t
  end.

(** [s.idxmax()]: the label of the first maximal value; [None] stands for
    the ValueError on an empty series. *)
Definition idxmax (s : list (A * Z)) : option A :=
  match s with
  | [] => None
  | kv :: t => Some (fst (argmax_from kv t))
  end.

(** [s.idxmin()] *)
Definition idxmin (s : list (A * Z)) : option A :=
  match s with
  | [] => None
  | kv :: t => Some (fst (argmin_from kv t))
  end.

(** [s.max()] *)
Definition smax (s : list (A * Z)) : option Z :=
  match s with
  | [] => None
  | kv :: t => Some (fold_left Z.max (map snd t) (snd kv))
  end.

(** [s.min()] *)
Definition smin (s : list (A * Z)) : option Z :=
  match s with
  | [] => None
  | kv :: t => Some (fold_left Z.min (map snd t) (snd kv))
  end.

(** One step of the grouping pass of [groupby(key)[val]]: the group of
    [k] accumulates the sum and the number of its values present. *)
Fixpoint add_to_group (k : A) (v : option Z) (g : list (A * (Z * Z)))
  : list (A * (Z * Z)) :=
  match g with
  | [] => [(k, match v with Some x => (x, 1) | None => (0, 0) end)]
  | (k', (s, c)) :: t =>
      if eqb k' k
      then (k', match v with Some x => (s + x, c + 1) | None => (s, c) end) :: t
      else (k', (s, c)) :: add_to_group k v t
  end.

(** The groups of the rows [(key, value)]; a row with a missing key
    belongs to no group. *)
Definition group_step (g : list (A * (Z * Z))) (kv : option A * option Z)
  : list (A * (Z * Z)) :=
  match fst kv with
  | Some k => add_to_group k (snd kv) g
  | None => g
  end.

Definition groups (kvs : list (option A * option Z)) : list (A * (Z * Z)) :=
  fold_left group_step kvs [].
End SeriesOps.

(** The mean of a group with sum [s] over [c] values present; [0/0] is NaN,
    the mean pandas gives a group whose values are all missing.  The sum is
    exact here and in pandas while it stays below 2^53, as it does for
    severity codes over any table that can be loaded. *)
Definition fmean (sc : Z * Z) : float :=
  PrimFloat.div (float_of_Z (fst sc)) (float_of_Z (snd sc)).

(** [df.groupby(key)[val].mean()]: one entry per group, labels ascending. *)
Definition groupby_mean (kvs : list (option string * option Z))
  : list (string * float) :=
  map (fun g => (fst g, fmean (snd g)))
      (sort_index String.leb (groups String.eqb kvs)).

(** Descending order of float64 values with NaN last. *)
Definition desc_nan_last (a b : float) : bool :=
  if PrimFloat.is_nan b then true
  else if PrimFloat.is_nan a then false
  else PrimFloat.leb b a.

(** [s.sort_values(ascending=False)].  The order pandas gives to equal
    values is unspecified (its default sort is not stable); here they keep
    their order, and nothing below depends on it. *)
Definition sort_values_desc {A : Type} (s : list (A * float)) : list (A * float) :=
  sort_by (fun a b => desc_nan_last (snd a) (snd b)) s.

(** [s.head(n)] *)
Definition head {X : Type} (n : nat) (s : list X) : list X := firstn n s.

(** [count / len(df) * 100] *)
Definition percentage (count total : Z) : float :=
  PrimFloat.mul (PrimFloat.div (float_of_Z count) (float_of_Z total))
                (float_of_Z 100).

(* ===================================================================== *)
(** ** Steps 3 to 8: aggregates *)

Definition col_Hour (df : DataFrame) : list (option Z) := map Hour (rows df).
Definition col_Day_of_Week (df : DataFrame) : list (option string) :=
  map Day_of_Week (rows df).
Definition col_Time_Period (df : DataFrame) : list (option string) :=
  map (fun r => Some (Time_Period r)) (rows df).
Definition col_Is_Weekend (df : DataFrame) : list (option Z) :=
  map (fun r => Some (Is_Weekend r)) (rows df).

(** [hour_counts = df['Hour'].value_counts().sort_index()] *)
Definition hour_counts (df : DataFrame) : list (Z * Z) :=
  sort_index Z.leb (value_counts Z.eqb (col_Hour df)).

(** [day_counts = df['Day_of_Week'].value_counts().reindex(day_order)] *)
Definition day_counts (df : DataFrame) : list (string * option Z) :=
  reindex String.eqb day_order (value_counts String.eqb (col_Day_of_Week df)).

(** [period_counts = df['Time_Period'].value_counts().reindex(period_order)] *)
Definition period_counts (df : DataFrame) : list (string * option Z) :=
  reindex String.eqb period_order (value_counts String.eqb (col_Time_Period df)).

(** [weekend_counts = df['Is_Weekend'].value_counts().sort_index()] *)
Definition weekend_counts (df : DataFrame) : list (Z * Z) :=
  sort_index Z.leb (value_counts Z.eqb (col_Is_Weekend df)).

(** [top_weather = df['Weather_Condition'].value_counts().head(10)] *)
Definition top_weather (df : DataFrame) : list (string * Z) :=
  head 10 (value_counts String.eqb (map Weather_Condition (rows df))).

(** [df.groupby('Weather_Condition')['Severity'].mean()] *)
Definition weather_mean (df : DataFrame) : list (string * float) :=
  groupby_mean (map (fun r => (Weather_Condition r, Severity r)) (rows df)).

(** [weather_severity = ....mean().sort_values(ascending=False).head(10)] *)
Definition weather_severity (df : DataFrame) : list (string * float) :=
  head 10 (sort_values_desc (weather_mean df)).

(** [severity_counts = df['Severity'].value_counts().sort_index()] *)
Definition severity_counts (df : DataFrame) : list (Z * Z) :=
  sort_index Z.leb (value_counts Z.eqb (map Severity (rows df))).

Definition env_cols : list string :=
  ["Temperature(F)"; "Humidity(%)"; "Visibility(mi)"; "Wind_Speed(mph)";
   "Pressure(in)"].

(** [available_env = [col for col in env_cols if col in df.columns]] *)
Definition available_env (df : DataFrame) : list string :=
  filter (has_column df) env_cols.

Definition numeric_cols : list string :=
  ["Severity"; "Temperature(F)"; "Humidity(%)"; "Visibility(mi)";
   "Wind_Speed(mph)"; "Pressure(in)"].

(** [available_numeric = [col for col in numeric_cols if col in df.columns]] *)
Definition available_numeric (df : DataFrame) : list string :=
  filter (has_column df) numeric_cols.

(** The columns of [df[available_numeric].corr()], when Step 8 computes it. *)
Definition correlation_columns (df : DataFrame) : option (list string) :=
  if (2 <=? List.length (available_numeric df))%nat
  then Some (available_numeric df) else None.

(* ===================================================================== *)
(** ** The script as a program: files written, exceptions *)

Inductive exn :=
| SystemExit                   (* exit() *)
| KeyError (key : string)      (* a column the table lacks *)
| ValueError (msg : string)    (* idxmax / idxmin of an empty series *)
| IndexError (msg : string).   (* iloc[0] of an empty series *)

(** A computation takes the names of the files written so far (oldest first)
    and ends with an exception or a value.  Files written before an
    exception stay written. *)
Definition M (A : Type) : Type := list string -> (exn + A) * list string.

Definition ret {A : Type} (a : A) : M A := fun w => (inr a, w).

Definition bind {A B : Type} (m : M A) (k : A -> M B) : M B :=
  fun w => match m w with
           | (inl e, w') => (inl e, w')
           | (inr a, w') => k a w'
           end.

Definition raise {A : Type} (e : exn) : M A := fun w => (inl e, w).

Definition write_file (name : string) : M unit :=
  fun w => (inr tt, (w ++ [name])%list).

Declare Scope py_scope.
Delimit Scope py_scope with py.
Notation "x <- m ;; k" := (bind m (fun x => k))
  (at level 61, m at next level, right associativity) : py_scope.
Notation "m ;; k" := (bind m (fun _ => k))
  (at level 61, right associativity) : py_scope.
Local Open Scope py_scope.

(** [df[col]] used for its side condition: KeyError when the column is
    absent. *)
Definition require_column (df : DataFrame) (col : string) : M unit :=
  if has_column df col then ret tt else raise (KeyError col).

Definition from_option {A : Type} (e : exn) (o : option A) : M A :=
  match o with
  | Some a => ret a
  | None => raise e
  end.

(* --------------------------------------------------------------------- *)
(** *** Step 1: extract and load *)

(** An open archive: the listing [namelist()] and, per member name, the
    table its CSV text parses to (header and every data row). *)
Record ZipFile := mkZip {
  namelist : list string;
  member : string -> DataFrame
}.

(** [pd.read_csv(path, nrows=n)] applied to the parsed content of the file. *)
Definition read_csv (file : DataFrame) (nrows : Z) : DataFrame :=
  mkDF (columns file) (firstn (Z.to_nat nrows) (rows file)).

(** [csv_files = [f for f in file_list if f.endswith('.csv')]] *)
Definition csv_files (file_list : list string) : list string :=
  filter (fun f => endswith f ".csv") file_list.

(** [archive] is [None] when [archive.zip] does not exist.  The result is
    the name read and the table loaded. *)
Definition step1 (archive : option ZipFile) : M (string * DataFrame) :=
  match archive with
  | Some zip_ref =>
      let file_list := namelist zip_ref in
      match csv_files file_list with
      | csv_file :: _ =>
          write_file csv_file ;;                    (* zip_ref.extract(csv_file) *)
          ret (csv_file, read_csv (member zip_ref csv_file) 50000)
      | [] => raise SystemExit
      end
  | None => raise SystemExit
  end.

(* --------------------------------------------------------------------- *)
(** *** Step 2: preprocessing *)

(** [df[col] = ...]: a new column goes last, an existing one is replaced. *)
Definition set_column (col : string) (df : DataFrame) : DataFrame :=
  if has_column df col then df
  else mkDF (columns df ++ [col])%list (rows df).

Definition time_features : list string :=
  ["Hour"; "Day_of_Week"; "Month"; "Month_Name"; "Year"; "Is_Weekend";
   "Time_Period"].

(** The table with the derived columns.  Their cells are the functions
    [Hour], [Day_of_Week], [Is_Weekend] and [Time_Period] of the row; Month,
    Month_Name and Year only feed a chart and are kept as names. *)
Definition with_time_features (df : DataFrame) : DataFrame :=
  fold_left (fun d c => set_column c d) time_features df.

(** [df['Start_Time']] raises KeyError when the table has no such column. *)
Definition step2 (df : DataFrame) : M DataFrame :=
  require_column df "Start_Time" ;;
  ret (with_time_features df).

(* --------------------------------------------------------------------- *)
(** *** Steps 3 to 8: charts *)

Record TimeAggregates := mkTimeAgg {
  agg_hour_counts : list (Z * Z);
  agg_day_counts : list (string * option Z);
  agg_period_counts : list (string * option Z);
  agg_weekend_counts : list (Z * Z)
}.

(** The five count series are computed first; the heat map's
    [pivot_table(values='Severity', ...)] needs the Severity column.  The
    bar and heat map calls themselves are taken to return. *)
Definition step3 (df : DataFrame) : M TimeAggregates :=
  let agg := mkTimeAgg (hour_counts df) (day_counts df) (period_counts df)
                       (weekend_counts df) in
  require_column df "Severity" ;;
  write_file "time_pattern_analysis.png" ;;
  ret agg.

Definition step4 (df : DataFrame)
  : M (option (list (string * Z) * option (list (string * float)))) :=
  if has_column df "Weather_Condition" then
    let top := top_weather df in
    let sev := if has_column df "Severity" then Some (weather_severity df)
               else None in
    write_file "weather_analysis.png" ;;
    ret (Some (top, sev))
  else ret None.

Definition step5 (df : DataFrame) : M (option (list (Z * Z))) :=
  if has_column df "Severity" then
    write_file "severity_analysis.png" ;;
    ret (Some (severity_counts df))
  else ret None.

Definition step6 (df : DataFrame) : M bool :=
  if has_column df "Start_Lat" && has_column df "Start_Lng" then
    write_file "geographic_hotspots.png" ;;
    ret true
  else ret false.

(** The histograms drawn: [available_env[:4]]. *)
Definition step7 (df : DataFrame) : M (option (list string)) :=
  if (2 <=? List.length (available_env df))%nat then
    write_file "environmental_factors.png" ;;
    ret (Some (firstn 4 (available_env df)))
  else ret None.

Definition step8 (df : DataFrame) : M (option (list string)) :=
  match correlation_columns df with
  | Some cols =>
      write_file "correlation_matrix.png" ;;
      ret (Some cols)
  | None => ret None
  end.

(* --------------------------------------------------------------------- *)
(** *** Step 9: summary report *)

(** [(df[col] == v).sum()] for a column given by its cell function. *)
Definition count_eq (cell : Row -> Z) (v : Z) (df : DataFrame) : Z :=
  Z.of_nat (List.length (filter (fun r => cell r =? v) (rows df))).

(** [count / len(df) * 100] where the count comes from [max()] or [min()],
    which give NaN on a series without values. *)
Definition pct_of (count : option Z) (total : Z) : float :=
  match count with
  | Some c => percentage c total
  | None => PrimFloat.nan
  end.

(** The values substituted into the report template, sections TIME PATTERN
    ANALYSIS and WEATHER CONDITIONS. *)
Record Report := mkReport {
  total_accidents : Z;
  hours_dtype : dtype;
  peak_hour : Z;
  peak_hour_count : option Z;
  peak_hour_pct : float;
  lowest_hour : Z;
  lowest_hour_count : option Z;
  lowest_hour_pct : float;
  peak_day : string;
  peak_day_count : option Z;
  peak_day_pct : float;
  safest_day : string;
  safest_day_count : option Z;
  safest_day_pct : float;
  peak_period : string;
  peak_period_count : option Z;
  peak_period_pct : float;
  weekday_accidents : Z;
  weekday_pct : float;
  weekend_accidents : Z;
  weekend_pct : float;
  most_common_weather : option (string * Z)
}.

(** [f"Peak Hour: {peak_hour}:00"] *)
Definition peak_hour_text (r : Report) : string :=
  "Peak Hour: " ++ str_of_num (hours_dtype r) (peak_hour r) ++ ":00".

(** The first recommendation:
    [f"   • Deploy additional officers during peak hours ({peak_hour-1}:00-{peak_hour+2}:00)"] *)
Definition officers_line (r : Report) : string :=
  "   • Deploy additional officers during peak hours ("
  ++ str_of_num (hours_dtype r) (peak_hour r - 1) ++ ":00-"
  ++ str_of_num (hours_dtype r) (peak_hour r + 2) ++ ":00)".

(** [f"  • Weekday Accidents: ... ({pct:.1f}%)"]: the percentage printed. *)
Definition weekday_pct_text (r : Report) : string := format_1f (weekday_pct r).
Definition weekend_pct_text (r : Report) : string := format_1f (weekend_pct r).

Definition empty_argmax : exn :=
  ValueError "attempt to get argmax of an empty sequence".
Definition empty_argmin : exn :=
  ValueError "attempt to get argmin of an empty sequence".

Definition step9 (df : DataFrame) (agg : TimeAggregates) : M Report :=
  let hour_counts := agg_hour_counts agg in
  let day_counts := skipna (agg_day_counts agg) in
  let period_counts := skipna (agg_period_counts agg) in
  peak_hour <- from_option empty_argmax (idxmax hour_counts) ;;
  let peak_hour_count := smax hour_counts in
  lowest_hour <- from_option empty_argmin (idxmin hour_counts) ;;
  let lowest_hour_count := smin hour_counts in
  peak_day <- from_option empty_argmax (idxmax day_counts) ;;
  let peak_day_count := smax day_counts in
  safest_day <- from_option empty_argmin (idxmin day_counts) ;;
  let safest_day_count := smin day_counts in
  peak_period <- from_option empty_argmax (idxmax period_counts) ;;
  let peak_period_count := smax period_counts in
  let weekday := count_eq Is_Weekend 0 df in
  let weekend := count_eq Is_Weekend 1 df in
  weather <-
    (if has_column df "Weather_Condition" then
       match value_counts String.eqb (map Weather_Condition (rows df)) with
       | top :: _ => ret (Some top)
       | [] => raise (IndexError "single positional indexer is out-of-bounds")
       end
     else ret None) ;;
  write_file "analysis_summary.txt" ;;
  ret {| total_accidents := len df;
         hours_dtype := hour_dtype df;
         peak_hour := peak_hour;
         peak_hour_count := peak_hour_count;
         peak_hour_pct := pct_of peak_hour_count (len df);
         lowest_hour := lowest_hour;
         lowest_hour_count := lowest_hour_count;
         lowest_hour_pct := pct_of lowest_hour_count (len df);
         peak_day := peak_day;
         peak_day_count := peak_day_count;
         peak_day_pct := pct_of peak_day_count (len df);
         safest_day := safest_day;
         safest_day_count := safest_day_count;
         safest_day_pct := pct_of safest_day_count (len df);
         peak_period := peak_period;
         peak_period_count := peak_period_count;
         peak_period_pct := pct_of peak_period_count (len df);
         weekday_accidents := weekday;
         weekday_pct := percentage weekday (len df);
         weekend_accidents := weekend;
         weekend_pct := percentage weekend (len df);
         most_common_weather := weather |}.

(* --------------------------------------------------------------------- *)
(** *** The whole script *)

Record Analysis := mkAnalysis {
  loaded_from : string;
  table : DataFrame;
  time_aggregates : TimeAggregates;
  weather_step : option (list (string * Z) * option (list (string * float)));
  severity_step : option (list (Z * Z));
  geographic_step : bool;
  environmental_step : option (list string);
  correlation_step : option (list string);
  report : Report
}.

(** Steps 2 to 9 on the table loaded from [csv_file]. *)
Definition analyse (csv_file : string) (df0 : DataFrame) : M Analysis :=
  df <- step2 df0 ;;
  agg <- step3 df ;;
  s4 <- step4 df ;;
  s5 <- step5 df ;;
  s6 <- step6 df ;;
  s7 <- step7 df ;;
  s8 <- step8 df ;;
  rep <- step9 df agg ;;
  ret (mkAnalysis csv_file df agg s4 s5 s6 s7 s8 rep).

Definition main (archive : option ZipFile) : M Analysis :=
  loaded <- step1 archive ;;
  analyse (fst loaded) (snd loaded).

(** A run starts with nothing written. *)
Definition run (archive : option ZipFile) : (exn + Analysis) * list string :=
  main archive [].

Definition outcome (archive : option ZipFile) : exn + Analysis :=
  fst (run archive).

Definition files_written (archive : option ZipFile) : list string :=
  snd (run archive).

(** The chart files among the files written. *)
Definition charts_written (archive : option ZipFile) : list string :=
  filter (fun f => endswith f ".png") (files_written archive).

Definition chart_files : list string :=
  ["time_pattern_analysis.png"; "weather_analysis.png"; "severity_analysis.png";
   "geographic_hotspots.png"; "environmental_factors.png";
   "correlation_matrix.png"].

(* ===================================================================== *)
(** ** Reference definitions *)

(** Occurrences of [x] in a list of values. *)
Definition occ {A : Type} (eqb : A -> A -> bool) (x : A) (l : list A) : Z :=
  Z.of_nat (List.length (filter (fun y => eqb y x) l)).

(** The values present in the rows [(key, value)] whose key is [k]. *)
Definition group_values {A : Type} (eqb : A -> A -> bool) (k : A)
  (kvs : list (option A * option Z)) : list Z :=
  dropna (map snd (filter (fun kv => match fst kv with
                                     | Some x => eqb x k
                                     | None => false
                                     end) kvs)).

(** Whether some row has the key [k]. *)
Definition has_key {A : Type} (eqb : A -> A -> bool) (k : A)
  (kvs : list (option A * option Z)) : bool :=
  existsb (fun kv => match fst kv with
                     | Some x => eqb x k
                     | None => false
                     end) kvs.

Definition sum (l : list Z) : Z := fold_right Z.add 0 l.

(** Number of rows whose cell [field] holds the value [v]. *)
Definition count_rows {A : Type} (eqb : A -> A -> bool)
  (field : Row -> option A) (v : A) (df : DataFrame) : Z :=
  Z.of_nat (List.length
    (filter (fun r => match field r with
                      | Some x => eqb x v
                      | None => false
                      end) (rows df))).

Definition rows_with_hour (df : DataFrame) (h : Z) : Z :=
  count_rows Z.eqb Hour h df.

Definition rows_with_day (df : DataFrame) (d : string) : Z :=
  count_rows String.eqb Day_of_Week d df.

Definition rows_with_period (df : DataFrame) (p : string) : Z :=
  count_rows String.eqb (fun r => Some (Time_Period r)) p df.

(** The rows whose Weather_Condition is [w]. *)
Definition rows_with_weather (df : DataFrame) (w : string) : list Row :=
  filter (fun r => match Weather_Condition r with
                   | Some x => String.eqb x w
                   | None => false
                   end) (rows df).

(** Sum divided by number, in float64. *)
Definition arithmetic_mean (l : list Z) : float :=
  PrimFloat.div (float_of_Z (sum l))
                (float_of_Z (Z.of_nat (List.length l))).

(** Rows whose timestamp did not parse. *)
Definition unparsed_rows (df : DataFrame) : Z :=
  Z.of_nat (List.length
    (filter (fun r => match Start_Time r with Some _ => false | None => true end)
            (rows df))).

(** [count / total * 100] in exact arithmetic. *)
Definition exact_percentage (count total : Z) : Q :=
  (inject_Z count / inject_Z total * 100)%Q.

(** The charts the guards of Steps 3 to 8 let through, in the order the
    steps run. *)
Definition guarded_charts (df : DataFrame) : list string :=
  (["time_pattern_analysis.png"]
   ++ (if has_column df "Weather_Condition" then ["weather_analysis.png"] else [])
   ++ (if has_column df "Severity" then ["severity_analysis.png"] else [])
   ++ (if has_column df "Start_Lat" && has_column df "Start_Lng"
       then ["geographic_hotspots.png"] else [])
   ++ (if (2 <=? List.length (available_env df))%nat
       then ["environmental_factors.png"] else [])
   ++ (if (2 <=? List.length (available_numeric df))%nat
       then ["correlation_matrix.png"] else []))%list.

(* ===================================================================== *)
(** ** Sample inputs *)

(** The timestamp [hour] hours into day [day], counting days from Thursday
    1970-01-01: day 2 is a Saturday, day 4 a Monday. *)
Definition at_day_hour (day hour : Z) : option Timestamp :=
  Some ((day * 24 + hour) * ns_per_hour).

Definition all_columns : list string :=
  ["ID"; "Severity"; "Start_Time"; "Start_Lat"; "Start_Lng";
   "Temperature(F)"; "Humidity(%)"; "Visibility(mi)"; "Wind_Speed(mph)";
   "Pressure(in)"; "Weather_Condition"].

Definition monday_midnight : Row := mkRow (at_day_hour 4 0) (Some 2) (Some "Rain").
Definition tuesday_23h : Row := mkRow (at_day_hour 5 23) (Some 3) (Some "Clear").
Definition saturday_8h : Row := mkRow (at_day_hour 2 8) None None.
Definition unparsed_row : Row := mkRow None (Some 4) (Some "Rain").

(** Five accidents, every timestamp parsed. *)
Definition sample : DataFrame :=
  mkDF all_columns
       [monday_midnight; tuesday_23h; saturday_8h; monday_midnight; tuesday_23h;
        monday_midnight].

(** A single accident, on a Monday. *)
Definition one_monday : DataFrame :=
  mkDF all_columns [monday_midnight].

(** Two accidents, one with a timestamp that did not parse. *)
Definition with_unparsed : DataFrame :=
  mkDF all_columns [monday_midnight; unparsed_row].

(** An archive whose only member is a CSV file with the given content. *)
Definition archive_of (df : DataFrame) : option ZipFile :=
  Some (mkZip ["US_Accidents.csv"] (fun _ => df)).

(** Eighty accidents, 57 on a Monday and 23 on a Saturday. *)
Definition skewed_week : DataFrame :=
  mkDF all_columns (repeat monday_midnight 57 ++ repeat saturday_8h 23)%list.

(** An archive with a text file and two CSV files. *)
Definition mixed_archive : ZipFile :=
  mkZip ["README.txt"; "accidents_2016.csv"; "accidents_2017.csv"]
        (fun name => if String.eqb name "accidents_2016.csv" then sample
                     else one_monday).

(** A table with the two columns Steps 2 and 3 read and two of the
    environmental columns. *)
Definition two_env_columns : DataFrame :=
  mkDF ["Start_Time"; "Severity"; "Temperature(F)"; "Humidity(%)"]
       [monday_midnight; tuesday_23h].

(** A table with timestamps and weather but no Severity column. *)
Definition no_severity : DataFrame :=
  mkDF ["Start_Time"; "Weather_Condition"] [monday_midnight; tuesday_23h].

(** A table with the two columns Steps 2 and 3 read and nothing else. *)
Definition bare_table : DataFrame :=
  mkDF ["Start_Time"; "Severity"] [monday_midnight; tuesday_23h].

(** Three accidents, two of them at 23h; every timestamp parsed. *)
Definition late_evening : DataFrame :=
  mkDF all_columns [tuesday_23h; monday_midnight; tuesday_23h].

(* ===================================================================== *)
(** ** Further reference definitions *)

(** Whether some row has a parsed timestamp. *)
Definition some_parsed (df : DataFrame) : bool :=
  existsb (fun r => match Start_Time r with Some _ => true | None => false end)
          (rows df).

(** Whether some row has a Weather_Condition value. *)
Definition some_weather (df : DataFrame) : bool :=
  existsb (fun r => match Weather_Condition r with
                    | Some _ => true
                    | None => false
                    end) (rows df).

(** Rows whose timestamp parsed. *)
Definition parsed_rows (df : DataFrame) : Z :=
  Z.of_nat (List.length
    (filter (fun r => match Start_Time r with Some _ => true | None => false end)
            (rows df))).

(** [s.sum()] of a series of counts. *)
Definition total {A : Type} (s : list (A * Z)) : Z := sum (map snd s).

(** [s.sum()] of a series with missing values, which are skipped. *)
Definition nansum {A : Type} (s : list (A * option Z)) : Z := total (skipna s).

Definition rows_with_severity (df : DataFrame) (level : Z) : Z :=
  count_rows Z.eqb Severity level df.

Definition rows_with_weather_count (df : DataFrame) (w : string) : Z :=
  count_rows String.eqb Weather_Condition w df.


(** A table without the Start_Time column. *)
Definition no_start_time : DataFrame :=
  mkDF ["ID"; "Severity"; "Weather_Condition"] [monday_midnight].

(** A table that already has a column named Hour. *)
Definition with_hour_column : DataFrame :=
  mkDF ["Hour"; "Start_Time"; "Severity"] [monday_midnight].

(** Rows whose cell [field] holds a value. *)
Definition present_rows {A : Type} (field : Row -> option A) (df : DataFrame) : Z :=
  Z.of_nat (List.length
    (filter (fun r => match field r with Some _ => true | None => false end)
            (rows df))).

(** Two accidents in fog, neither with a Severity value. *)
Definition fog_without_severity : DataFrame :=
  mkDF all_columns
       [mkRow (at_day_hour 4 7) None (Some "Fog");
        mkRow (at_day_hour 5 9) None (Some "Fog");
        monday_midnight].

(* ===================================================================== *)
(** ** Sorting and lookup *)

Section SortingFacts.
Context {X : Type} (le : X -> X -> bool).

Lemma insert_sorted_perm (x : X) (l : list X) :
  Permutation (insert_sorted le x l) (x :: l).
Proof.
  induction l as [|y t IH]; simpl.
  - apply Permutation_refl.
  - destruct (le x y).
    + apply Permutation_refl.
    + eapply perm_trans; [apply perm_skip, IH | apply perm_swap].
Qed.

Lemma sort_by_perm (l : list X) : Permutation (sort_by le l) l.
Proof.
  induction l as [|x t IH]; simpl.
  - constructor.
  - eapply perm_trans; [apply insert_sorted_perm | now apply perm_skip].
Qed.

Lemma sort_by_In (x : X) (l : list X) : In x (sort_by le l) <-> In x l.
Proof.
  split; apply Permutation_in;
    [apply sort_by_perm | apply Permutation_sym, sort_by_perm].
Qed.

Lemma sort_by_nil (l : list X) : sort_by le l = [] <-> l = [].
Proof.
  split; intros E.
  - pose proof (sort_by_perm l) as P. rewrite E in P.
    now apply Permutation_nil in P.
  - now subst.
Qed.
End SortingFacts.

Section LookupFacts.
Context {A : Type} (eqb : A -> A -> bool).
Hypothesis eqb_spec : forall x y, reflect (x = y) (eqb x y).

Lemma eqb_refl' (x : A) : eqb x x = true.
Proof. now destruct (eqb_spec x x). Qed.

Lemma lookup_In {V : Type} (k : A) (v : V) (s : list (A * V)) :
  lookup eqb k s = Some v -> In (k, v) s.
Proof.
  induction s as [|[k' v'] t IH]; simpl; [discriminate|].
  destruct (eqb_spec k' k) as [->|N]; intros E.
  - injection E as ->. now left.
  - right. now apply IH.
Qed.

Lemma lookup_None {V : Type} (k : A) (s : list (A * V)) :
  lookup eqb k s = None <-> ~ In k (map fst s).
Proof.
  induction s as [|[k' v'] t IH]; simpl.
  - tauto.
  - destruct (eqb_spec k' k) as [->|N].
    + split; [discriminate | intros H; exfalso; apply H; now left].
    + rewrite IH. tauto.
Qed.

Lemma In_lookup {V : Type} (k : A) (v : V) (s : list (A * V)) :
  NoDup (map fst s) -> In (k, v) s -> lookup eqb k s = Some v.
Proof.
  induction s as [|[k' v'] t IH]; simpl; [tauto|].
  intros ND [E|I].
  - injection E as -> ->. now rewrite eqb_refl'.
  - inversion ND as [|? ? NI ND']; subst.
    destruct (eqb_spec k' k) as [->|N].
    + exfalso. apply NI. change k with (fst (k, v)). now apply in_map.
    + now apply IH.
Qed.

Lemma lookup_perm {V : Type} (k : A) (s s' : list (A * V)) :
  NoDup (map fst s) -> Permutation s s' ->
  lookup eqb k s' = lookup eqb k s.
Proof.
  intros ND P.
  assert (ND' : NoDup (map fst s'))
    by (eapply Permutation_NoDup; [apply Permutation_map, P | exact ND]).
  destruct (lookup eqb k s) as [v|] eqn:E.
  - apply In_lookup; [exact ND'|].
    eapply Permutation_in; [exact P | now apply lookup_In].
  - apply lookup_None. rewrite lookup_None in E. intros I. apply E.
    eapply Permutation_in; [apply Permutation_map, Permutation_sym, P | exact I].
Qed.

Lemma occ_nonneg (x : A) (l : list A) : 0 <= occ eqb x l.
Proof. unfold occ. lia. Qed.

Lemma occ_cons (x y : A) (l : list A) :
  occ eqb x (y :: l) = (if eqb y x then 1 else 0) + occ eqb x l.
Proof. unfold occ. cbn [filter]. destruct (eqb y x); cbn [List.length]; lia. Qed.

Lemma lookup_incr (k x : A) (tbl : list (A * Z)) :
  lookup eqb k (incr eqb x tbl) =
  if eqb x k
  then Some (match lookup eqb k tbl with Some c => c + 1 | None => 1 end)
  else lookup eqb k tbl.
Proof.
  induction tbl as [|[k' c] t IH]; simpl.
  - destruct (eqb x k); reflexivity.
  - destruct (eqb_spec k' x) as [->|N]; simpl.
    + destruct (eqb x k); reflexivity.
    + destruct (eqb_spec k' k) as [->|N'].
      * destruct (eqb_spec x k) as [->|_]; [congruence | reflexivity].
      * exact IH.
Qed.

Lemma keys_incr (k x : A) (tbl : list (A * Z)) :
  In k (map fst (incr eqb x tbl)) <-> k = x \/ In k (map fst tbl).
Proof.
  induction tbl as [|[k' c] t IH]; simpl.
  - intuition.
  - destruct (eqb_spec k' x) as [->|N]; simpl.
    + intuition.
    + rewrite IH. intuition.
Qed.

Lemma NoDup_incr (x : A) (tbl : list (A * Z)) :
  NoDup (map fst tbl) -> NoDup (map fst (incr eqb x tbl)).
Proof.
  induction tbl as [|[k' c] t IH]; simpl; intros ND.
  - constructor; [tauto | constructor].
  - inversion ND as [|? ? NI ND']; subst.
    destruct (eqb_spec k' x) as [->|N]; simpl.
    + now constructor.
    + constructor; [|now apply IH].
      rewrite keys_incr. intros [->|I]; [congruence | contradiction].
Qed.

Lemma fold_incr_NoDup (l : list A) (tbl : list (A * Z)) :
  NoDup (map fst tbl) ->
  NoDup (map fst (fold_left (fun t x => incr eqb x t) l tbl)).
Proof.
  revert tbl. induction l as [|x l IH]; simpl; intros tbl ND; [exact ND|].
  now apply IH, NoDup_incr.
Qed.

Lemma fold_incr_lookup (k : A) (l : list A) (tbl : list (A * Z)) :
  lookup eqb k (fold_left (fun t x => incr eqb x t) l tbl) =
  match lookup eqb k tbl with
  | Some c => Some (c + occ eqb k l)
  | None => if occ eqb k l =? 0 then None else Some (occ eqb k l)
  end.
Proof.
  revert tbl. induction l as [|x l IH]; intros tbl; simpl.
  - unfold occ; simpl. destruct (lookup eqb k tbl); [f_equal; lia | reflexivity].
  - rewrite IH, lookup_incr, occ_cons.
    pose proof (occ_nonneg k l) as P.
    destruct (eqb x k); destruct (lookup eqb k tbl) as [c|];
      rewrite ?Z.add_0_l; try reflexivity.
    + f_equal. lia.
    + destruct (Z.eqb_spec (1 + occ eqb k l) 0); [lia | f_equal; lia].
Qed.

Lemma tally_NoDup (l : list A) : NoDup (map fst (tally eqb l)).
Proof. apply fold_incr_NoDup. constructor. Qed.

Lemma tally_lookup (k : A) (l : list A) :
  lookup eqb k (tally eqb l) = if occ eqb k l =? 0 then None else Some (occ eqb k l).
Proof. unfold tally. now rewrite fold_incr_lookup. Qed.

Lemma value_counts_NoDup (col : list (option A)) :
  NoDup (map fst (value_counts eqb col)).
Proof.
  unfold value_counts.
  eapply Permutation_NoDup;
    [apply Permutation_map, Permutation_sym, sort_by_perm | apply tally_NoDup].
Qed.

Lemma value_counts_lookup (k : A) (col : list (option A)) :
  lookup eqb k (value_counts eqb col) =
  if occ eqb k (dropna col) =? 0 then None else Some (occ eqb k (dropna col)).
Proof.
  unfold value_counts. rewrite <- tally_lookup.
  apply lookup_perm; [apply tally_NoDup | apply Permutation_sym, sort_by_perm].
Qed.

Lemma sort_index_lookup {V : Type} (leb : A -> A -> bool) (k : A)
  (s : list (A * V)) :
  NoDup (map fst s) -> lookup eqb k (sort_index leb s) = lookup eqb k s.
Proof.
  intros ND. apply lookup_perm; [exact ND | apply Permutation_sym, sort_by_perm].
Qed.

Lemma reindex_lookup {V : Type} (k : A) (order : list A) (s : list (A * V)) :
  In k order -> lookup eqb k (reindex eqb order s) = Some (lookup eqb k s).
Proof.
  unfold reindex. induction order as [|k' t IH]; simpl; [tauto|].
  intros [->|I].
  - now rewrite eqb_refl'.
  - destruct (eqb_spec k' k) as [->|N]; [reflexivity | now apply IH].
Qed.

Lemma skipna_In {V : Type} (k : A) (v : V) (s : list (A * option V)) :
  In (k, v) (skipna s) <-> In (k, Some v) s.
Proof.
  induction s as [|[k' [v'|]] t IH]; simpl.
  - tauto.
  - rewrite IH. split; intros [E|I]; auto; left; congruence.
  - rewrite IH. split; [auto | intros [E|I]; [discriminate | exact I]].
Qed.

Lemma reindex_In {V : Type} (k : A) (o : option V) (order : list A)
  (s : list (A * V)) :
  In (k, o) (reindex eqb order s) <-> In k order /\ o = lookup eqb k s.
Proof.
  unfold reindex. rewrite in_map_iff. split.
  - intros [k' [E I]]. injection E as -> ->. now split.
  - intros [I ->]. now exists k.
Qed.

(** Counting the cells of a column equal to [k] counts rows. *)
Lemma occ_dropna_map (field : Row -> option A) (k : A) (df : DataFrame) :
  occ eqb k (dropna (map field (rows df))) = count_rows eqb field k df.
Proof.
  unfold count_rows, occ. f_equal. f_equal.
  induction (rows df) as [|r t IH]; cbn [map dropna filter]; [reflexivity|].
  destruct (field r) as [x|]; cbn [dropna filter]; [|exact IH].
  destruct (eqb x k); cbn [List.length]; now rewrite IH.
Qed.
End LookupFacts.

Section GroupFacts.
Context {A : Type} (eqb : A -> A -> bool).
Hypothesis eqb_spec : forall x y, reflect (x = y) (eqb x y).

Lemma lookup_add_to_group (k x : A) (v : option Z) (g : list (A * (Z * Z))) :
  lookup eqb k (add_to_group eqb x v g) =
  if eqb x k
  then Some (match lookup eqb k g, v with
             | Some (s, c), Some y => (s + y, c + 1)
             | Some (s, c), None => (s, c)
             | None, Some y => (y, 1)
             | None, None => (0, 0)
             end)
  else lookup eqb k g.
Proof.
  induction g as [|[k' [s c]] t IH]; simpl.
  - destruct (eqb x k); reflexivity.
  - destruct (eqb_spec k' x) as [->|N]; simpl.
    + destruct (eqb x k); [destruct v|]; reflexivity.
    + destruct (eqb_spec k' k) as [->|N'].
      * destruct (eqb_spec x k) as [->|_]; [congruence | reflexivity].
      * exact IH.
Qed.

Lemma keys_add_to_group (k x : A) (v : option Z) (g : list (A * (Z * Z))) :
  In k (map fst (add_to_group eqb x v g)) <-> k = x \/ In k (map fst g).
Proof.
  induction g as [|[k' [s c]] t IH]; simpl.
  - intuition.
  - destruct (eqb_spec k' x) as [->|N]; simpl.
    + intuition.
    + rewrite IH. intuition.
Qed.

Lemma NoDup_add_to_group (x : A) (v : option Z) (g : list (A * (Z * Z))) :
  NoDup (map fst g) -> NoDup (map fst (add_to_group eqb x v g)).
Proof.
  induction g as [|[k' [s c]] t IH]; simpl; intros ND.
  - constructor; [tauto | constructor].
  - inversion ND as [|? ? NI ND']; subst.
    destruct (eqb_spec k' x) as [->|N]; simpl.
    + now constructor.
    + constructor; [|now apply IH].
      rewrite keys_add_to_group. intros [->|I]; [congruence | contradiction].
Qed.

Lemma fold_groups_NoDup (kvs : list (option A * option Z))
  (g : list (A * (Z * Z))) :
  NoDup (map fst g) -> NoDup (map fst (fold_left (group_step eqb) kvs g)).
Proof.
  revert g. induction kvs as [|[[x|] v] t IH]; simpl; intros g ND;
    [exact ND | | now apply IH].
  apply IH. unfold group_step; simpl. now apply NoDup_add_to_group.
Qed.

Lemma fold_groups_lookup (k : A) (kvs : list (option A * option Z))
  (g : list (A * (Z * Z))) :
  lookup eqb k (fold_left (group_step eqb) kvs g) =
  let vs := group_values eqb k kvs in
  match lookup eqb k g with
  | Some (s, c) => Some (s + sum vs, c + Z.of_nat (List.length vs))
  | None => if has_key eqb k kvs
            then Some (sum vs, Z.of_nat (List.length vs))
            else None
  end.
Proof.
  revert g. induction kvs as [|[[x|] v] t IH]; intros g.
  - cbn. destruct (lookup eqb k g) as [[s c]|]; [|reflexivity].
    f_equal. f_equal; lia.
  - cbn [fold_left]. rewrite IH. unfold group_step. cbn [fst snd].
    rewrite lookup_add_to_group.
    unfold group_values, has_key. cbn [filter existsb fst].
    destruct (eqb x k); cbn [map snd orb].
    + destruct (lookup eqb k g) as [[s c]|]; destruct v as [y|];
        unfold sum; cbn [dropna fold_right List.length]; f_equal; f_equal; lia.
    + reflexivity.
  - cbn [fold_left]. rewrite IH. unfold group_step. cbn [fst].
    unfold group_values, has_key. cbn [filter existsb fst orb]. reflexivity.
Qed.

Lemma groups_NoDup (kvs : list (option A * option Z)) :
  NoDup (map fst (groups eqb kvs)).
Proof. apply fold_groups_NoDup. constructor. Qed.

Lemma groups_lookup (k : A) (kvs : list (option A * option Z)) :
  lookup eqb k (groups eqb kvs) =
  if has_key eqb k kvs
  then Some (sum (group_values eqb k kvs),
             Z.of_nat (List.length (group_values eqb k kvs)))
  else None.
Proof. unfold groups. apply (fold_groups_lookup k kvs []). Qed.

Lemma lookup_map_values {V W : Type} (f : V -> W) (k : A) (s : list (A * V)) :
  lookup eqb k (map (fun e => (fst e, f (snd e))) s) =
  option_map f (lookup eqb k s).
Proof.
  induction s as [|[k' v] t IH]; simpl; [reflexivity|].
  destruct (eqb k' k); [reflexivity | exact IH].
Qed.
End GroupFacts.

(* ===================================================================== *)
(** ** The count series against the reference counts *)

Lemma hour_counts_lookup (df : DataFrame) (h : Z) :
  lookup Z.eqb h (hour_counts df) =
  if rows_with_hour df h =? 0 then None else Some (rows_with_hour df h).
Proof.
  unfold hour_counts, rows_with_hour, col_Hour.
  rewrite (sort_index_lookup Z.eqb Z.eqb_spec)
    by apply (value_counts_NoDup Z.eqb Z.eqb_spec).
  rewrite (value_counts_lookup Z.eqb Z.eqb_spec).
  now rewrite occ_dropna_map.
Qed.

Lemma value_counts_rows {A : Type} (eqb : A -> A -> bool)
  (eqb_spec : forall x y, reflect (x = y) (eqb x y))
  (field : Row -> option A) (df : DataFrame) (k : A) :
  lookup eqb k (value_counts eqb (map field (rows df))) =
  if count_rows eqb field k df =? 0 then None
  else Some (count_rows eqb field k df).
Proof.
  rewrite (value_counts_lookup eqb eqb_spec). now rewrite occ_dropna_map.
Qed.

Lemma day_counts_lookup (df : DataFrame) (d : string) :
  In d day_order ->
  lookup String.eqb d (day_counts df) =
  Some (if rows_with_day df d =? 0 then None else Some (rows_with_day df d)).
Proof.
  intros I. unfold day_counts, rows_with_day, col_Day_of_Week.
  rewrite (reindex_lookup String.eqb String.eqb_spec) by exact I.
  now rewrite (value_counts_rows String.eqb String.eqb_spec).
Qed.

Lemma period_counts_lookup (df : DataFrame) (p : string) :
  In p period_order ->
  lookup String.eqb p (period_counts df) =
  Some (if rows_with_period df p =? 0 then None
        else Some (rows_with_period df p)).
Proof.
  intros I. unfold period_counts, rows_with_period, col_Time_Period.
  rewrite (reindex_lookup String.eqb String.eqb_spec) by exact I.
  now rewrite (value_counts_rows String.eqb String.eqb_spec
                 (fun r => Some (Time_Period r))).
Qed.

(* --------------------------------------------------------------------- *)
(** *** The grouped mean *)

Lemma weather_group_values (df : DataFrame) (w : string) :
  group_values String.eqb w
    (map (fun r => (Weather_Condition r, Severity r)) (rows df)) =
  dropna (map Severity (rows_with_weather df w)).
Proof.
  unfold group_values, rows_with_weather.
  induction (rows df) as [|r t IH]; cbn [map filter fst]; [reflexivity|].
  destruct (Weather_Condition r) as [x|]; [|exact IH].
  destruct (String.eqb x w); [|exact IH].
  cbn [map snd dropna]. destruct (Severity r); now rewrite IH.
Qed.

Lemma weather_has_key (df : DataFrame) (w : string) :
  has_key String.eqb w
    (map (fun r => (Weather_Condition r, Severity r)) (rows df)) = true
  <-> rows_with_weather df w <> [].
Proof.
  unfold has_key, rows_with_weather.
  induction (rows df) as [|r t IH]; cbn [map filter existsb fst].
  - split; [discriminate | congruence].
  - destruct (Weather_Condition r) as [x|]; [|exact IH].
    destruct (String.eqb x w); [|exact IH].
    split; [discriminate | reflexivity].
Qed.

Lemma weather_mean_NoDup (df : DataFrame) : NoDup (map fst (weather_mean df)).
Proof.
  unfold weather_mean, groupby_mean. rewrite map_map. cbn [fst].
  eapply Permutation_NoDup;
    [apply Permutation_map, Permutation_sym, sort_by_perm
    | apply (groups_NoDup String.eqb String.eqb_spec)].
Qed.

Lemma weather_mean_lookup (df : DataFrame) (w : string) :
  lookup String.eqb w (weather_mean df) =
  if has_key String.eqb w
       (map (fun r => (Weather_Condition r, Severity r)) (rows df))
  then Some (arithmetic_mean (dropna (map Severity (rows_with_weather df w))))
  else None.
Proof.
  unfold weather_mean, groupby_mean.
  rewrite lookup_map_values.
  rewrite (sort_index_lookup String.eqb String.eqb_spec)
    by apply (groups_NoDup String.eqb String.eqb_spec).
  rewrite (groups_lookup String.eqb String.eqb_spec).
  destruct (has_key _ _ _); [|reflexivity].
  cbn [option_map]. now rewrite weather_group_values.
Qed.

Lemma head_incl {X : Type} (n : nat) (l : list X) (x : X) :
  In x (head n l) -> In x l.
Proof.
  unfold head. intros I. rewrite <- (firstn_skipn n l).
  apply in_or_app. now left.
Qed.

Lemma weather_severity_incl (df : DataFrame) (e : string * float) :
  In e (weather_severity df) -> In e (weather_mean df).
Proof.
  unfold weather_severity, sort_values_desc. intros I.
  apply head_incl in I. now apply sort_by_In in I.
Qed.

(* ===================================================================== *)
(** ** C1: the aggregates against their reference definitions *)

(** C1 (as the code has it).  For every table: the hourly count series has
    an entry exactly for the hours with at least one row, and the entry is
    the number of rows whose Hour is that hour; the daily count of a day
    name is the number of rows whose Day_of_Week is that day when there is
    such a row, and a missing value (NaN), not 0, when there is none; the
    same for the four time periods; and for every weather condition with at
    least one row the grouped mean is the float64 arithmetic mean of the
    Severity values present in the rows with that Weather_Condition, which
    also holds of each of the (at most ten) entries kept in
    [weather_severity]. *)
Theorem C1_aggregates_match_reference (df : DataFrame) :
  (forall h : Z,
      lookup Z.eqb h (hour_counts df) =
      if rows_with_hour df h =? 0 then None else Some (rows_with_hour df h))
  /\ (forall d : string, In d day_order ->
      lookup String.eqb d (day_counts df) =
      Some (if rows_with_day df d =? 0 then None
            else Some (rows_with_day df d)))
  /\ (forall p : string, In p period_order ->
      lookup String.eqb p (period_counts df) =
      Some (if rows_with_period df p =? 0 then None
            else Some (rows_with_period df p)))
  /\ (forall w : string, rows_with_weather df w <> [] ->
      lookup String.eqb w (weather_mean df) =
      Some (arithmetic_mean (dropna (map Severity (rows_with_weather df w)))))
  /\ (forall (w : string) (m : float), In (w, m) (weather_severity df) ->
      rows_with_weather df w <> [] /\
      m = arithmetic_mean (dropna (map Severity (rows_with_weather df w)))).
Proof.
  split; [|split; [|split; [|split]]].
  - apply hour_counts_lookup.
  - apply day_counts_lookup.
  - apply period_counts_lookup.
  - intros w NE. rewrite weather_mean_lookup.
    apply weather_has_key in NE. now rewrite NE.
  - intros w m H. apply weather_severity_incl in H.
    apply (In_lookup String.eqb String.eqb_spec) in H;
      [|apply weather_mean_NoDup].
    rewrite weather_mean_lookup in H.
    destruct (has_key _ _ _) eqn:K; [|discriminate].
    split; [now apply weather_has_key | congruence].
Qed.

Lemma C1_aggregates_witness :
  lookup String.eqb "Monday" (day_counts sample) = Some (Some 3)
  /\ lookup String.eqb "Night" (period_counts sample) = Some (Some 5)
  /\ lookup String.eqb "Rain" (weather_mean sample) = Some 2%float
  /\ (rows_with_weather sample "Clear" <> [] /\
      3%float =
      arithmetic_mean (dropna (map Severity (rows_with_weather sample "Clear")))).
Proof.
  destruct (C1_aggregates_match_reference sample) as (_ & Hd & Hp & Hw & Hs).
  split; [|split; [|split]].
  - apply (Hd "Monday"). vm_compute. tauto.
  - apply (Hp "Night"). vm_compute. tauto.
  - apply (Hw "Rain"). vm_compute. discriminate.
  - apply (Hs "Clear" 3%float). vm_compute. tauto.
Defined.

(** On a table with a single accident, on a Monday at midnight, the entry
    of Tuesday is a missing value while the number of Tuesday rows is 0;
    so is the entry of 'Morning'; and the hourly counts have no entry for
    hour 5. *)
Lemma C1_absent_day_is_missing :
  (rows_with_day one_monday "Tuesday" = 0
   /\ lookup String.eqb "Tuesday" (day_counts one_monday) = Some None
   /\ lookup String.eqb "Tuesday" (day_counts one_monday)
      <> Some (Some (rows_with_day one_monday "Tuesday")))
  /\ (rows_with_period one_monday "Morning" = 0
      /\ lookup String.eqb "Morning" (period_counts one_monday) = Some None)
  /\ (rows_with_hour one_monday 5 = 0
      /\ lookup Z.eqb 5 (hour_counts one_monday) = None).
Proof. vm_compute. repeat split. discriminate. Qed.

(* ===================================================================== *)
(** ** C2, C8: the time period of an hour *)

Lemma get_time_period_cases {A : Type} `{HourLike A} (hour : A) :
  (int_le 5 hour && lt_int hour 12 = true /\ get_time_period hour = "Morning")
  \/ (int_le 5 hour && lt_int hour 12 = false
      /\ int_le 12 hour && lt_int hour 17 = true
      /\ get_time_period hour = "Afternoon")
  \/ (int_le 5 hour && lt_int hour 12 = false
      /\ int_le 12 hour && lt_int hour 17 = false
      /\ int_le 17 hour && lt_int hour 21 = true
      /\ get_time_period hour = "Evening")
  \/ (int_le 5 hour && lt_int hour 12 = false
      /\ int_le 12 hour && lt_int hour 17 = false
      /\ int_le 17 hour && lt_int hour 21 = false
      /\ get_time_period hour = "Night").
Proof.
  unfold get_time_period.
  destruct (int_le 5 hour && lt_int hour 12); [now left|].
  destruct (int_le 12 hour && lt_int hour 17); [right; now left|].
  destruct (int_le 17 hour && lt_int hour 21).
  - right; right; now left.
  - right; right; now right.
Qed.

(** On an integer the chained tests are the arithmetic ones. *)
Lemma get_time_period_int (h : Z) :
  (get_time_period h = "Morning" <-> 5 <= h < 12)
  /\ (get_time_period h = "Afternoon" <-> 12 <= h < 17)
  /\ (get_time_period h = "Evening" <-> 17 <= h < 21)
  /\ (get_time_period h = "Night" <-> h < 5 \/ 21 <= h).
Proof.
  unfold get_time_period; cbn [int_le lt_int HourLike_int].
  destruct (Z.leb_spec 5 h), (Z.ltb_spec h 12), (Z.leb_spec 12 h),
    (Z.ltb_spec h 17), (Z.leb_spec 17 h), (Z.ltb_spec h 21); cbn [andb];
    repeat split; intros; try discriminate; try lia.
Qed.

(** A cell with a value behaves as the integer it holds, a missing cell
    fails every test. *)
Lemma get_time_period_cell (c : option Z) :
  get_time_period c = match c with
                      | Some h => get_time_period h
                      | None => "Night"
                      end.
Proof. destruct c; reflexivity. Qed.

Lemma filter_length_mono {X : Type} (p q : X -> bool) (l : list X) :
  (forall x, p x = true -> q x = true) ->
  (List.length (filter p l) <= List.length (filter q l))%nat.
Proof.
  intros PQ. induction l as [|x t IH]; cbn [filter]; [lia|].
  destruct (p x) eqn:P.
  - rewrite (PQ x P). cbn [List.length]. lia.
  - destruct (q x); cbn [List.length]; lia.
Qed.

Lemma unparsed_is_night (r : Row) : Start_Time r = None -> Time_Period r = "Night".
Proof. unfold Time_Period, Hour. now intros ->. Qed.

Lemma unparsed_le_night (df : DataFrame) :
  unparsed_rows df <= rows_with_period df "Night".
Proof.
  unfold unparsed_rows, rows_with_period, count_rows.
  apply inj_le, filter_length_mono. intros r.
  destruct (Start_Time r) eqn:E; [discriminate|]. intros _.
  now rewrite (unparsed_is_night r E).
Qed.

(** C2 (as the code has it).  For every row the time period is one of the
    four buckets: 'Morning' exactly when the hour is a number with
    5 <= hour < 12, 'Afternoon' exactly when 12 <= hour < 17, 'Evening'
    exactly when 17 <= hour < 21, and 'Night' otherwise, which is: the hour
    is a number with hour < 5 or hour >= 21, or the hour is missing (NaN,
    the timestamp did not parse). *)
Theorem C2_time_period_buckets (r : Row) :
  In (Time_Period r) period_order
  /\ (Time_Period r = "Morning" <-> exists h, Hour r = Some h /\ 5 <= h < 12)
  /\ (Time_Period r = "Afternoon" <-> exists h, Hour r = Some h /\ 12 <= h < 17)
  /\ (Time_Period r = "Evening" <-> exists h, Hour r = Some h /\ 17 <= h < 21)
  /\ (Time_Period r = "Night" <->
      Hour r = None \/ exists h, Hour r = Some h /\ (h < 5 \/ 21 <= h)).
Proof.
  unfold Time_Period. rewrite get_time_period_cell.
  destruct (Hour r) as [h|].
  - destruct (get_time_period_int h) as (M & A & E & N).
    split; [|split; [|split; [|split]]].
    + destruct (get_time_period_cases h) as [[_ ->]|[(_ & _ & ->)|
        [(_ & _ & _ & ->)|(_ & _ & _ & ->)]]]; cbn; tauto.
    + rewrite M. split; [intros; now exists h | intros (h' & [= <-] & ?); lia].
    + rewrite A. split; [intros; now exists h | intros (h' & [= <-] & ?); lia].
    + rewrite E. split; [intros; now exists h | intros (h' & [= <-] & ?); lia].
    + rewrite N. split.
      * intros; right; now exists h.
      * intros [?|(h' & [= <-] & ?)]; [discriminate | lia].
  - split; [cbn; tauto|].
    repeat split; try discriminate; try (intros (h & ? & _); discriminate).
    intros _. now left.
Qed.

Lemma C2_time_period_witness :
  Time_Period saturday_8h = "Morning"
  /\ Time_Period unparsed_row = "Night".
Proof.
  split.
  - apply (proj1 (proj2 (C2_time_period_buckets saturday_8h))).
    exists 8. split; [reflexivity | lia].
  - apply (proj2 (proj2 (proj2 (proj2 (C2_time_period_buckets unparsed_row))))).
    left. reflexivity.
Defined.

(** A row whose timestamp did not parse has a NaN hour: it is put in
    'Night' although both [hour < 5] and [hour >= 21] are false, for the
    column cell as for the float64 NaN itself. *)
Lemma C2_night_without_a_night_hour :
  Time_Period unparsed_row = "Night"
  /\ lt_int (Hour unparsed_row) 5 || int_le 21 (Hour unparsed_row) = false
  /\ get_time_period PrimFloat.nan = "Night"
  /\ lt_int PrimFloat.nan 5 || int_le 21 PrimFloat.nan = false.
Proof. vm_compute. repeat split. Qed.

(** C8.  [get_time_period] returns one of the four labels on every input
    that supports the comparisons (integers of any size, float64 values
    with NaN and the infinities, column cells); an input that fails the
    three range tests is mapped to 'Night'; NaN fails them; so every row
    whose timestamp did not parse has period 'Night' and is counted in the
    'Night' entry of the period counts. *)
Theorem C8_get_time_period_total :
  (forall (A : Type) (HL : HourLike A) (hour : A),
      In (get_time_period hour) period_order
      /\ (int_le 5 hour && lt_int hour 12 = false ->
          int_le 12 hour && lt_int hour 17 = false ->
          int_le 17 hour && lt_int hour 21 = false ->
          get_time_period hour = "Night"))
  /\ get_time_period PrimFloat.nan = "Night"
  /\ (forall r : Row, Start_Time r = None ->
      Hour r = None /\ Time_Period r = "Night")
  /\ (forall df : DataFrame,
      unparsed_rows df <= rows_with_period df "Night"
      /\ (0 < unparsed_rows df ->
          lookup String.eqb "Night" (period_counts df) =
          Some (Some (rows_with_period df "Night")))).
Proof.
  split; [|split; [|split]].
  - intros A HL hour. split.
    + destruct (get_time_period_cases hour) as [[_ ->]|[(_ & _ & ->)|
        [(_ & _ & _ & ->)|(_ & _ & _ & ->)]]]; cbn; tauto.
    + intros M Af E. unfold get_time_period. now rewrite M, Af, E.
  - reflexivity.
  - intros r E. split; [unfold Hour; now rewrite E | now apply unparsed_is_night].
  - intros df. pose proof (unparsed_le_night df) as L. split; [exact L|].
    intros P. rewrite period_counts_lookup by (cbn; tauto).
    destruct (Z.eqb_spec (rows_with_period df "Night") 0); [lia | reflexivity].
Qed.

Lemma C8_get_time_period_witness :
  get_time_period PrimFloat.infinity = "Night"
  /\ (Hour unparsed_row = None /\ Time_Period unparsed_row = "Night")
  /\ lookup String.eqb "Night" (period_counts with_unparsed) =
     Some (Some (rows_with_period with_unparsed "Night")).
Proof.
  destruct C8_get_time_period_total as (Hg & _ & Hr & Hd).
  split; [|split].
  - apply (Hg float HourLike_float PrimFloat.infinity); reflexivity.
  - apply (Hr unparsed_row). reflexivity.
  - apply (Hd with_unparsed). reflexivity.
Defined.

(* ===================================================================== *)
(** ** Running the script: inversion of successful runs *)

Lemma bind_inr {A B : Type} (m : M A) (k : A -> M B) (w w' : list string) (b : B) :
  bind m k w = (inr b, w') ->
  exists a w1, m w = (inr a, w1) /\ k a w1 = (inr b, w').
Proof.
  unfold bind. destruct (m w) as [[e|a] w1]; [discriminate|].
  intros E. now exists a, w1.
Qed.

Lemma from_option_inr {A : Type} (e : exn) (o : option A) (w w' : list string)
  (a : A) :
  from_option e o w = (inr a, w') -> o = Some a /\ w' = w.
Proof. destruct o; cbn; [intros [= -> ->]; now split | discriminate]. Qed.

Lemma require_column_inr (df : DataFrame) (col : string) (w w' : list string)
  (u : unit) :
  require_column df col w = (inr u, w') -> has_column df col = true /\ w' = w.
Proof.
  unfold require_column. destruct (has_column df col); cbn;
    [intros [= _ ->]; now split | discriminate].
Qed.

Lemma set_column_rows (c : string) (df : DataFrame) :
  rows (set_column c df) = rows df.
Proof. unfold set_column. now destruct (has_column df c). Qed.

Lemma has_column_set_column (c x : string) (df : DataFrame) :
  has_column (set_column c df) x = has_column df x || String.eqb x c.
Proof.
  unfold set_column. destruct (has_column df c) eqn:E.
  - destruct (String.eqb_spec x c) as [->|]; [|now rewrite orb_false_r].
    now rewrite E.
  - unfold has_column; cbn [columns]. rewrite existsb_app. cbn.
    now rewrite orb_false_r.
Qed.

Lemma with_time_features_rows (df : DataFrame) :
  rows (with_time_features df) = rows df.
Proof.
  unfold with_time_features, time_features. cbn [fold_left].
  now rewrite !set_column_rows.
Qed.

Lemma has_column_with_time_features (df : DataFrame) (x : string) :
  has_column (with_time_features df) x =
  has_column df x || existsb (String.eqb x) time_features.
Proof.
  unfold with_time_features, time_features. cbn [fold_left existsb].
  rewrite !has_column_set_column. rewrite orb_false_r, <- !orb_assoc.
  reflexivity.
Qed.

(* ===================================================================== *)
(** ** Reductions: idxmax, idxmin, max, min *)

Section ReductionFacts.
Context {A : Type}.

Lemma argmax_from_spec (s : list (A * Z)) (best : A * Z) :
  In (argmax_from best s) (best :: s)
  /\ (forall kv, In kv (best :: s) -> snd kv <= snd (argmax_from best s))
  /\ fold_left Z.max (map snd s) (snd best) = snd (argmax_from best s).
Proof.
  revert best. induction s as [|kv t IH]; intros best; cbn [argmax_from map fold_left].
  - split; [now left | split; [|reflexivity]].
    intros kv [<-|[]]. lia.
  - destruct (Z.ltb_spec (snd best) (snd kv)) as [L|L].
    + destruct (IH kv) as (I & M & F). split; [|split].
      * right. exact I.
      * intros x [<-|X]; [|now apply M].
        specialize (M kv (or_introl eq_refl)). lia.
      * rewrite Z.max_r by lia. exact F.
    + destruct (IH best) as (I & M & F). split; [|split].
      * destruct I as [I|I]; [now left | right; now right].
      * intros x [<-|[<-|X]].
        -- apply M. now left.
        -- specialize (M best (or_introl eq_refl)). lia.
        -- apply M. now right.
      * rewrite Z.max_l by lia. exact F.
Qed.

Lemma argmin_from_spec (s : list (A * Z)) (best : A * Z) :
  In (argmin_from best s) (best :: s)
  /\ (forall kv, In kv (best :: s) -> snd (argmin_from best s) <= snd kv)
  /\ fold_left Z.min (map snd s) (snd best) = snd (argmin_from best s).
Proof.
  revert best. induction s as [|kv t IH]; intros best; cbn [argmin_from map fold_left].
  - split; [now left | split; [|reflexivity]].
    intros kv [<-|[]]. lia.
  - destruct (Z.ltb_spec (snd kv) (snd best)) as [L|L].
    + destruct (IH kv) as (I & M & F). split; [|split].
      * right. exact I.
      * intros x [<-|X]; [|now apply M].
        specialize (M kv (or_introl eq_refl)). lia.
      * rewrite Z.min_r by lia. exact F.
    + destruct (IH best) as (I & M & F). split; [|split].
      * destruct I as [I|I]; [now left | right; now right].
      * intros x [<-|[<-|X]].
        -- apply M. now left.
        -- specialize (M best (or_introl eq_refl)). lia.
        -- apply M. now right.
      * rewrite Z.min_l by lia. exact F.
Qed.

(** [idxmax] names an entry whose value is [max()] and bounds all values. *)
Lemma idxmax_spec (s : list (A * Z)) (k : A) :
  idxmax s = Some k ->
  exists v, In (k, v) s /\ smax s = Some v
            /\ forall k' v', In (k', v') s -> v' <= v.
Proof.
  destruct s as [|kv t]; cbn [idxmax smax]; [discriminate|].
  intros [= <-]. destruct (argmax_from_spec t kv) as (I & M & F).
  exists (snd (argmax_from kv t)). split; [|split].
  - now rewrite <- surjective_pairing.
  - now rewrite F.
  - intros k' v' X. apply (M (k', v') X).
Qed.

Lemma idxmin_spec (s : list (A * Z)) (k : A) :
  idxmin s = Some k ->
  exists v, In (k, v) s /\ smin s = Some v
            /\ forall k' v', In (k', v') s -> v <= v'.
Proof.
  destruct s as [|kv t]; cbn [idxmin smin]; [discriminate|].
  intros [= <-]. destruct (argmin_from_spec t kv) as (I & M & F).
  exists (snd (argmin_from kv t)). split; [|split].
  - now rewrite <- surjective_pairing.
  - now rewrite F.
  - intros k' v' X. apply (M (k', v') X).
Qed.
End ReductionFacts.

(* --------------------------------------------------------------------- *)
(** *** The entries of the three count series *)

Lemma hour_counts_NoDup (df : DataFrame) : NoDup (map fst (hour_counts df)).
Proof.
  unfold hour_counts, sort_index.
  eapply Permutation_NoDup;
    [apply Permutation_map, Permutation_sym, sort_by_perm
    | apply (value_counts_NoDup Z.eqb Z.eqb_spec)].
Qed.

Lemma hour_counts_In (df : DataFrame) (h v : Z) :
  In (h, v) (hour_counts df) <-> v = rows_with_hour df h /\ 0 < v.
Proof.
  pose proof (hour_counts_lookup df h) as L.
  assert (P : 0 <= rows_with_hour df h)
    by (unfold rows_with_hour, count_rows; lia).
  split.
  - intros I. apply (In_lookup Z.eqb Z.eqb_spec) in I;
      [|apply hour_counts_NoDup].
    rewrite I in L. destruct (Z.eqb_spec (rows_with_hour df h) 0);
      [discriminate|]. injection L as ->. lia.
  - intros [-> Pos]. apply (lookup_In Z.eqb Z.eqb_spec). rewrite L.
    destruct (Z.eqb_spec (rows_with_hour df h) 0); [lia | reflexivity].
Qed.

Lemma day_counts_In (df : DataFrame) (d : string) (v : Z) :
  In (d, v) (skipna (day_counts df)) <->
  In d day_order /\ v = rows_with_day df d /\ 0 < v.
Proof.
  assert (P : 0 <= rows_with_day df d)
    by (unfold rows_with_day, count_rows; lia).
  rewrite skipna_In. unfold day_counts. rewrite reindex_In.
  fold (col_Day_of_Week df). unfold col_Day_of_Week.
  rewrite (value_counts_rows String.eqb String.eqb_spec).
  fold (rows_with_day df d).
  destruct (Z.eqb_spec (rows_with_day df d) 0) as [E|E].
  - split; [intros [_ [=]] | lia].
  - split; [intros [I [= ->]]; repeat split; [exact I | lia]
           | intros (I & -> & _); now split].
Qed.

Lemma period_counts_In (df : DataFrame) (p : string) (v : Z) :
  In (p, v) (skipna (period_counts df)) <->
  In p period_order /\ v = rows_with_period df p /\ 0 < v.
Proof.
  assert (P : 0 <= rows_with_period df p)
    by (unfold rows_with_period, count_rows; lia).
  rewrite skipna_In. unfold period_counts. rewrite reindex_In.
  unfold col_Time_Period.
  rewrite (value_counts_rows String.eqb String.eqb_spec
             (fun r => Some (Time_Period r))).
  fold (rows_with_period df p).
  destruct (Z.eqb_spec (rows_with_period df p) 0) as [E|E].
  - split; [intros [_ [=]] | lia].
  - split; [intros [I [= ->]]; repeat split; [exact I | lia]
           | intros (I & -> & _); now split].
Qed.

Lemma dayofweek_range (t : Timestamp) : 0 <= ts_dayofweek t < 7.
Proof. unfold ts_dayofweek. apply Z.mod_pos_bound. lia. Qed.

Lemma hour_range (t : Timestamp) : 0 <= ts_hour t < 24.
Proof. unfold ts_hour. apply Z.mod_pos_bound. lia. Qed.

(** The day name and the day number of a timestamp go together. *)
Lemma day_name_of_dayofweek (t : Timestamp) :
  nth_error day_order (Z.to_nat (ts_dayofweek t)) = Some (ts_day_name t).
Proof.
  unfold ts_day_name. pose proof (dayofweek_range t) as R.
  assert (C : ts_dayofweek t = 0 \/ ts_dayofweek t = 1 \/ ts_dayofweek t = 2
              \/ ts_dayofweek t = 3 \/ ts_dayofweek t = 4
              \/ ts_dayofweek t = 5 \/ ts_dayofweek t = 6) by lia.
  destruct C as [-> | [-> | [-> | [-> | [-> | [-> | ->]]]]]]; reflexivity.
Qed.

Lemma day_name_in_order (t : Timestamp) : In (ts_day_name t) day_order.
Proof. eapply nth_error_In, day_name_of_dayofweek. Qed.

Lemma time_period_in_order (r : Row) : In (Time_Period r) period_order.
Proof.
  unfold Time_Period.
  destruct (get_time_period_cases (Hour r)) as [[_ ->]|[(_ & _ & ->)|
    [(_ & _ & _ & ->)|(_ & _ & _ & ->)]]]; cbn; tauto.
Qed.

Lemma count_rows_zero {A : Type} (eqb : A -> A -> bool)
  (eqb_spec : forall x y, reflect (x = y) (eqb x y))
  (field : Row -> option A) (v : A) (df : DataFrame) :
  (forall r, field r <> Some v) -> count_rows eqb field v df = 0.
Proof.
  intros N. unfold count_rows.
  induction (rows df) as [|r t IH]; cbn [filter]; [reflexivity|].
  destruct (field r) as [x|] eqn:E; [|exact IH].
  destruct (eqb_spec x v) as [->|_]; [|exact IH].
  now elim (N r).
Qed.

Lemma rows_with_day_outside (df : DataFrame) (d : string) :
  ~ In d day_order -> rows_with_day df d = 0.
Proof.
  intros N. apply (count_rows_zero String.eqb String.eqb_spec).
  intros r E. unfold Day_of_Week in E.
  destruct (Start_Time r) as [t|]; [|discriminate].
  injection E as <-. apply N, day_name_in_order.
Qed.

Lemma rows_with_period_outside (df : DataFrame) (p : string) :
  ~ In p period_order -> rows_with_period df p = 0.
Proof.
  intros N. apply (count_rows_zero String.eqb String.eqb_spec).
  intros r [= <-]. apply N, time_period_in_order.
Qed.

Lemma in_dec_string (x : string) (l : list string) : In x l \/ ~ In x l.
Proof. destruct (in_dec string_dec x l); [now left | now right]. Qed.

(* --------------------------------------------------------------------- *)
(** *** What a completed Step 9 has computed *)

Lemma step9_inr (df : DataFrame) (agg : TimeAggregates) (w w' : list string)
  (r : Report) :
  step9 df agg w = (inr r, w') ->
  idxmax (agg_hour_counts agg) = Some (peak_hour r)
  /\ peak_hour_count r = smax (agg_hour_counts agg)
  /\ idxmin (agg_hour_counts agg) = Some (lowest_hour r)
  /\ lowest_hour_count r = smin (agg_hour_counts agg)
  /\ idxmax (skipna (agg_day_counts agg)) = Some (peak_day r)
  /\ peak_day_count r = smax (skipna (agg_day_counts agg))
  /\ idxmin (skipna (agg_day_counts agg)) = Some (safest_day r)
  /\ safest_day_count r = smin (skipna (agg_day_counts agg))
  /\ idxmax (skipna (agg_period_counts agg)) = Some (peak_period r)
  /\ peak_period_count r = smax (skipna (agg_period_counts agg))
  /\ total_accidents r = len df
  /\ hours_dtype r = hour_dtype df
  /\ weekday_accidents r = count_eq Is_Weekend 0 df
  /\ weekend_accidents r = count_eq Is_Weekend 1 df
  /\ peak_hour_pct r = pct_of (peak_hour_count r) (len df)
  /\ lowest_hour_pct r = pct_of (lowest_hour_count r) (len df)
  /\ peak_day_pct r = pct_of (peak_day_count r) (len df)
  /\ safest_day_pct r = pct_of (safest_day_count r) (len df)
  /\ peak_period_pct r = pct_of (peak_period_count r) (len df)
  /\ weekday_pct r = percentage (weekday_accidents r) (len df)
  /\ weekend_pct r = percentage (weekend_accidents r) (len df)
  /\ w' = (w ++ ["analysis_summary.txt"])%list.
Proof.
  unfold step9. intros H.
  apply bind_inr in H. destruct H as (ph & w1 & H1 & H).
  apply from_option_inr in H1. destruct H1 as [E1 ->].
  apply bind_inr in H. destruct H as (lh & w2 & H2 & H).
  apply from_option_inr in H2. destruct H2 as [E2 ->].
  apply bind_inr in H. destruct H as (pd & w3 & H3 & H).
  apply from_option_inr in H3. destruct H3 as [E3 ->].
  apply bind_inr in H. destruct H as (sd & w4 & H4 & H).
  apply from_option_inr in H4. destruct H4 as [E4 ->].
  apply bind_inr in H. destruct H as (pp & w5 & H5 & H).
  apply from_option_inr in H5. destruct H5 as [E5 ->].
  apply bind_inr in H. destruct H as (we & w6 & H6 & H).
  assert (w6 = w) as ->.
  { destruct (has_column df "Weather_Condition");
      [destruct (value_counts _ _); [discriminate|] |]; now inversion H6. }
  apply bind_inr in H. destruct H as (u & w7 & H7 & H).
  unfold write_file in H7. injection H7 as _ <-.
  unfold ret in H. injection H as <- <-. cbn.
  repeat split; assumption.
Qed.

Lemma step1_inr (archive : option ZipFile) (w w' : list string)
  (loaded : string * DataFrame) :
  step1 archive w = (inr loaded, w') ->
  exists zip_ref rest,
    archive = Some zip_ref
    /\ csv_files (namelist zip_ref) = fst loaded :: rest
    /\ snd loaded = read_csv (member zip_ref (fst loaded)) 50000
    /\ w' = (w ++ [fst loaded])%list.
Proof.
  unfold step1. destruct archive as [zip_ref|]; [|discriminate].
  destruct (csv_files (namelist zip_ref)) as [|csv_file rest] eqn:E;
    [discriminate|].
  cbn. intros [= <- <-]. exists zip_ref, rest. now repeat split.
Qed.

Lemma analyse_inr (csv_file : string) (df0 : DataFrame) (w w' : list string)
  (a : Analysis) :
  analyse csv_file df0 w = (inr a, w') ->
  has_column df0 "Start_Time" = true
  /\ has_column df0 "Severity" = true
  /\ table a = with_time_features df0
  /\ loaded_from a = csv_file
  /\ time_aggregates a =
     mkTimeAgg (hour_counts (table a)) (day_counts (table a))
               (period_counts (table a)) (weekend_counts (table a))
  /\ correlation_step a = correlation_columns (table a)
  /\ exists w1, step9 (table a) (time_aggregates a) w1 = (inr (report a), w').
Proof.
  unfold analyse. intros H.
  apply bind_inr in H. destruct H as (df & w1 & H1 & H).
  unfold step2 in H1. apply bind_inr in H1. destruct H1 as (u & w1' & R & H1).
  apply require_column_inr in R. destruct R as [ST ->].
  unfold ret in H1. injection H1 as <- <-.
  apply bind_inr in H. destruct H as (agg & w2 & H2 & H).
  unfold step3 in H2. apply bind_inr in H2. destruct H2 as (u2 & w2' & R & H2).
  apply require_column_inr in R. destruct R as [SV ->].
  apply bind_inr in H2. destruct H2 as (u3 & w2'' & _ & H2).
  unfold ret in H2. injection H2 as <- _.
  apply bind_inr in H. destruct H as (s4 & w4 & _ & H).
  apply bind_inr in H. destruct H as (s5 & w5 & _ & H).
  apply bind_inr in H. destruct H as (s6 & w6 & _ & H).
  apply bind_inr in H. destruct H as (s7 & w7 & _ & H).
  apply bind_inr in H. destruct H as (s8 & w8 & H8 & H).
  apply bind_inr in H. destruct H as (rep & w9 & H9 & H).
  unfold ret in H. injection H as <- <-. cbn.
  rewrite has_column_with_time_features in SV. cbn in SV.
  rewrite orb_false_r in SV.
  repeat split; try assumption; try reflexivity.
  - unfold step8 in H8. destruct (correlation_columns _);
      cbn in H8; now injection H8 as <- _.
  - now exists w8.
Qed.

Lemma main_inr (archive : option ZipFile) (w w' : list string) (a : Analysis) :
  main archive w = (inr a, w') ->
  exists zip_ref csv_file rest,
    archive = Some zip_ref
    /\ csv_files (namelist zip_ref) = csv_file :: rest
    /\ analyse csv_file (read_csv (member zip_ref csv_file) 50000)
               (w ++ [csv_file])%list = (inr a, w').
Proof.
  unfold main. intros H.
  apply bind_inr in H. destruct H as (loaded & w1 & H1 & H).
  apply step1_inr in H1. destruct H1 as (zip_ref & rest & -> & C & L & ->).
  exists zip_ref, (fst loaded), rest. rewrite <- L. now repeat split.
Qed.

(** A completed run: the report slots in terms of the table analysed. *)
Lemma outcome_inr (archive : option ZipFile) (a : Analysis) :
  outcome archive = inr a ->
  exists w1 w',
    step9 (table a)
          (mkTimeAgg (hour_counts (table a)) (day_counts (table a))
                     (period_counts (table a)) (weekend_counts (table a)))
          w1 = (inr (report a), w').
Proof.
  unfold outcome, run. destruct (main archive []) as [o w'] eqn:E.
  cbn. intros ->. apply main_inr in E.
  destruct E as (zip_ref & csv_file & rest & _ & _ & E).
  apply analyse_inr in E. destruct E as (_ & _ & _ & _ & T & _ & w1 & S).
  rewrite T in S. now exists w1, w'.
Qed.

Lemma count_rows_le_len {A : Type} (eqb : A -> A -> bool)
  (field : Row -> option A) (v : A) (df : DataFrame) :
  count_rows eqb field v df <= len df.
Proof.
  unfold count_rows, len. apply inj_le.
  induction (rows df) as [|r t IH]; cbn [filter List.length]; [lia|].
  destruct (match field r with Some x => eqb x v | None => false end);
    cbn [List.length]; lia.
Qed.

(** The report is only produced for a table with at least one row. *)
Lemma report_needs_rows (archive : option ZipFile) (a : Analysis) :
  outcome archive = inr a -> 0 < len (table a).
Proof.
  intros O. apply outcome_inr in O. destruct O as (w1 & w' & S).
  apply step9_inr in S. cbn [agg_hour_counts] in S. destruct S as (PH & _).
  apply idxmax_spec in PH. destruct PH as (v & I & _).
  apply hour_counts_In in I. destruct I as [-> P].
  pose proof (count_rows_le_len Z.eqb Hour (peak_hour (report a)) (table a)) as L.
  unfold rows_with_hour in P. lia.
Qed.

(** Evaluate a run on a concrete archive and record its result as [Hrun]. *)
Ltac run_concretely arch :=
  match eval vm_compute in (outcome arch) with
  | inr ?a0 =>
      assert (Hrun : outcome arch = inr a0)
        by (vm_cast_no_check (@eq_refl (exn + Analysis) (inr a0)))
  end.

(* ===================================================================== *)
(** ** C3: the statistics of the summary report *)

(** C3 (as the code has it).  Whenever the report is produced: the peak
    hour has at least one row and its count, the number of rows with that
    hour, is maximal over all hours; the lowest hour has at least one row
    and its count is minimal over the hours that have at least one row; the
    most dangerous day maximizes the day-of-week counts; the safest day has
    at least one row and minimizes the counts of the days that have at
    least one row (a day without rows has a missing count and is never
    reported); the most dangerous period maximizes the period counts; and
    every percentage is the corresponding count divided by the number of
    rows times 100, in float64. *)
Theorem C3_summary_statistics (archive : option ZipFile) (a : Analysis) :
  outcome archive = inr a ->
  let df := table a in
  let r := report a in
  (0 < rows_with_hour df (peak_hour r)
   /\ peak_hour_count r = Some (rows_with_hour df (peak_hour r))
   /\ forall h, rows_with_hour df h <= rows_with_hour df (peak_hour r))
  /\ (0 < rows_with_hour df (lowest_hour r)
      /\ lowest_hour_count r = Some (rows_with_hour df (lowest_hour r))
      /\ forall h, 0 < rows_with_hour df h ->
                   rows_with_hour df (lowest_hour r) <= rows_with_hour df h)
  /\ (0 < rows_with_day df (peak_day r)
      /\ peak_day_count r = Some (rows_with_day df (peak_day r))
      /\ forall d, rows_with_day df d <= rows_with_day df (peak_day r))
  /\ (0 < rows_with_day df (safest_day r)
      /\ safest_day_count r = Some (rows_with_day df (safest_day r))
      /\ forall d, 0 < rows_with_day df d ->
                   rows_with_day df (safest_day r) <= rows_with_day df d)
  /\ (0 < rows_with_period df (peak_period r)
      /\ peak_period_count r = Some (rows_with_period df (peak_period r))
      /\ forall p, rows_with_period df p <= rows_with_period df (peak_period r))
  /\ (total_accidents r = len df
      /\ peak_hour_pct r = percentage (rows_with_hour df (peak_hour r)) (len df)
      /\ lowest_hour_pct r = percentage (rows_with_hour df (lowest_hour r)) (len df)
      /\ peak_day_pct r = percentage (rows_with_day df (peak_day r)) (len df)
      /\ safest_day_pct r = percentage (rows_with_day df (safest_day r)) (len df)
      /\ peak_period_pct r =
         percentage (rows_with_period df (peak_period r)) (len df)
      /\ weekday_pct r = percentage (count_eq Is_Weekend 0 df) (len df)
      /\ weekend_pct r = percentage (count_eq Is_Weekend 1 df) (len df)).
Proof.
  intros O df r. apply outcome_inr in O. destruct O as (w1 & w' & S).
  apply step9_inr in S. cbn [agg_hour_counts agg_day_counts agg_period_counts] in S.
  fold df in S. fold r in S.
  destruct S as (PH & PHc & LH & LHc & PD & PDc & SD & SDc & PP & PPc & Tot & _
                 & Wd & We & PHp & LHp & PDp & SDp & PPp & Wdp & Wep & _).
  apply idxmax_spec in PH. destruct PH as (v1 & I1 & M1 & B1).
  apply idxmin_spec in LH. destruct LH as (v2 & I2 & M2 & B2).
  apply idxmax_spec in PD. destruct PD as (v3 & I3 & M3 & B3).
  apply idxmin_spec in SD. destruct SD as (v4 & I4 & M4 & B4).
  apply idxmax_spec in PP. destruct PP as (v5 & I5 & M5 & B5).
  apply hour_counts_In in I1. destruct I1 as [-> P1].
  apply hour_counts_In in I2. destruct I2 as [-> P2].
  apply day_counts_In in I3. destruct I3 as (_ & -> & P3).
  apply day_counts_In in I4. destruct I4 as (_ & -> & P4).
  apply period_counts_In in I5. destruct I5 as (_ & -> & P5).
  rewrite M1 in PHc. rewrite M2 in LHc. rewrite M3 in PDc. rewrite M4 in SDc.
  rewrite M5 in PPc.
  split; [|split; [|split; [|split; [|split]]]].
  - repeat split; try assumption. intros h.
    assert (N : 0 <= rows_with_hour df h)
      by (unfold rows_with_hour, count_rows; lia).
    destruct (Z.eq_dec (rows_with_hour df h) 0) as [->|NZ]; [lia|].
    apply (B1 h). apply hour_counts_In. split; [reflexivity | lia].
  - repeat split; try assumption. intros h Pos.
    apply (B2 h). apply hour_counts_In. now split.
  - repeat split; try assumption. intros d.
    assert (N : 0 <= rows_with_day df d)
      by (unfold rows_with_day, count_rows; lia).
    destruct (Z.eq_dec (rows_with_day df d) 0) as [->|NZ]; [lia|].
    apply (B3 d). apply day_counts_In.
    destruct (in_dec_string d day_order) as [I|NI];
      [|now rewrite (rows_with_day_outside df d NI) in NZ].
    repeat split; [exact I | lia].
  - repeat split; try assumption. intros d Pos.
    apply (B4 d). apply day_counts_In.
    destruct (in_dec_string d day_order) as [I|NI];
      [|rewrite (rows_with_day_outside df d NI) in Pos; lia].
    now repeat split.
  - repeat split; try assumption. intros p.
    assert (N : 0 <= rows_with_period df p)
      by (unfold rows_with_period, count_rows; lia).
    destruct (Z.eq_dec (rows_with_period df p) 0) as [->|NZ]; [lia|].
    apply (B5 p). apply period_counts_In.
    destruct (in_dec_string p period_order) as [I|NI];
      [|now rewrite (rows_with_period_outside df p NI) in NZ].
    repeat split; [exact I | lia].
  - rewrite PHc in PHp. rewrite LHc in LHp. rewrite PDc in PDp.
    rewrite SDc in SDp. rewrite PPc in PPp. rewrite Wd in Wdp. rewrite We in Wep.
    repeat split; assumption.
Qed.

Lemma C3_summary_statistics_witness :
  match outcome (archive_of sample) with
  | inr a =>
      rows_with_hour (table a) 23 <= rows_with_hour (table a) (peak_hour (report a))
      /\ rows_with_day (table a) (safest_day (report a))
         <= rows_with_day (table a) "Tuesday"
      /\ rows_with_hour (table a) (lowest_hour (report a))
         <= rows_with_hour (table a) 23
  | inl _ => False
  end.
Proof.
  run_concretely (archive_of sample). rewrite Hrun.
  destruct (C3_summary_statistics (archive_of sample) _ Hrun)
    as ((_ & _ & Hh) & (_ & _ & Hl) & _ & (_ & _ & Hs) & _).
  split; [apply Hh | split; [apply Hs | apply Hl]];
    vm_compute; reflexivity.
Defined.

(** With a single accident, on a Monday, the report names Monday the safest
    day with one accident, while no row falls on a Tuesday. *)
Lemma C3_safest_day_skips_empty_days :
  match outcome (archive_of one_monday) with
  | inr a =>
      safest_day (report a) = "Monday"
      /\ safest_day_count (report a) = Some 1
      /\ rows_with_day (table a) "Tuesday" = 0
      /\ ~ (forall d, In d day_order ->
             rows_with_day (table a) (safest_day (report a))
             <= rows_with_day (table a) d)
  | inl _ => False
  end.
Proof.
  vm_compute. repeat split. intros H.
  specialize (H "Tuesday" (or_intror (or_introl eq_refl))). now apply H.
Qed.

(* ===================================================================== *)
(** ** C9: weekday and weekend *)

Lemma Is_Weekend_spec (r : Row) :
  (Is_Weekend r = 0 \/ Is_Weekend r = 1)
  /\ (Is_Weekend r = 1 <->
      Day_of_Week r = Some "Saturday" \/ Day_of_Week r = Some "Sunday")
  /\ (Start_Time r = None -> Is_Weekend r = 0).
Proof.
  unfold Is_Weekend, Day_of_Week, ts_day_name.
  destruct (Start_Time r) as [t|]; cbn [option_map isin_5_6].
  - pose proof (dayofweek_range t) as R.
    assert (C : ts_dayofweek t = 0 \/ ts_dayofweek t = 1 \/ ts_dayofweek t = 2
                \/ ts_dayofweek t = 3 \/ ts_dayofweek t = 4
                \/ ts_dayofweek t = 5 \/ ts_dayofweek t = 6) by lia.
    destruct C as [-> | [-> | [-> | [-> | [-> | [-> | ->]]]]]]; cbn;
      (split; [tauto | split; [|discriminate]]);
      (split; [intros; try discriminate; tauto
              | intros [E|E]; try discriminate E; reflexivity]).
  - split; [now left | split; [|reflexivity]].
    split; [discriminate | intros [E|E]; discriminate E].
Qed.

Lemma weekend_partition (df : DataFrame) :
  count_eq Is_Weekend 0 df + count_eq Is_Weekend 1 df = len df.
Proof.
  unfold count_eq, len.
  induction (rows df) as [|r t IH]; cbn [filter List.length]; [reflexivity|].
  destruct (Is_Weekend_spec r) as ([-> | ->] & _); cbn [Z.eqb Pos.eqb];
    cbn [List.length]; lia.
Qed.

Lemma exact_percentages_sum (a b n : Z) :
  0 < n -> a + b = n ->
  (exact_percentage a n + exact_percentage b n == 100)%Q.
Proof.
  intros P <-. unfold exact_percentage. rewrite inject_Z_plus.
  field. rewrite <- inject_Z_plus. unfold Qeq, inject_Z. cbn. lia.
Qed.

(** C9 (as the code has it).  Whenever the report is produced: every row
    has Is_Weekend 0 or 1, it is 1 exactly when the day of the week is
    Saturday or Sunday, and a row whose timestamp did not parse has 0; the
    weekday count plus the weekend count is the number of rows, which is
    positive; each of the two percentages is its count divided by the number
    of rows times 100 in float64, and in exact arithmetic the two add up
    to 100.  (The report prints them rounded to one decimal, and the
    printed values need not add up to 100.0.) *)
Theorem C9_weekend_partition (archive : option ZipFile) (a : Analysis) :
  outcome archive = inr a ->
  let df := table a in
  let r := report a in
  (forall row : Row, In row (rows df) ->
      (Is_Weekend row = 0 \/ Is_Weekend row = 1)
      /\ (Is_Weekend row = 1 <->
          Day_of_Week row = Some "Saturday" \/ Day_of_Week row = Some "Sunday")
      /\ (Start_Time row = None -> Is_Weekend row = 0))
  /\ weekday_accidents r = count_eq Is_Weekend 0 df
  /\ weekend_accidents r = count_eq Is_Weekend 1 df
  /\ total_accidents r = len df
  /\ 0 < total_accidents r
  /\ weekday_accidents r + weekend_accidents r = total_accidents r
  /\ weekday_pct r = percentage (weekday_accidents r) (total_accidents r)
  /\ weekend_pct r = percentage (weekend_accidents r) (total_accidents r)
  /\ (exact_percentage (weekday_accidents r) (total_accidents r)
      + exact_percentage (weekend_accidents r) (total_accidents r) == 100)%Q.
Proof.
  intros O df r.
  pose proof (report_needs_rows archive a O) as Pos. fold df in Pos.
  apply outcome_inr in O. destruct O as (w1 & w' & S).
  apply step9_inr in S. fold df in S. fold r in S.
  destruct S as (_ & _ & _ & _ & _ & _ & _ & _ & _ & _ & Tot & _
                 & Wd & We & _ & _ & _ & _ & _ & Wdp & Wep & _).
  assert (Sum : weekday_accidents r + weekend_accidents r = total_accidents r)
    by (rewrite Wd, We, Tot; apply weekend_partition).
  split; [intros row _; apply Is_Weekend_spec|].
  rewrite Tot. repeat split; try assumption.
  - now rewrite <- Tot.
  - apply exact_percentages_sum; [exact Pos | now rewrite <- Tot].
Qed.

Lemma C9_weekend_partition_witness :
  match outcome (archive_of with_unparsed) with
  | inr a =>
      Is_Weekend unparsed_row = 0
      /\ weekday_accidents (report a) + weekend_accidents (report a)
         = total_accidents (report a)
  | inl _ => False
  end.
Proof.
  run_concretely (archive_of with_unparsed). rewrite Hrun.
  destruct (C9_weekend_partition (archive_of with_unparsed) _ Hrun)
    as (Hrow & _ & _ & _ & _ & Hsum & _).
  split; [|exact Hsum].
  apply (Hrow unparsed_row); [|reflexivity].
  right; left; reflexivity.
Defined.

(** With 57 weekday and 23 weekend accidents the two float64 percentages
    are 71.25 and 28.749999999999996; the report prints them as 71.2 and
    28.7, which add up to 99.9. *)
Lemma C9_printed_percentages_miss_100 :
  match outcome (archive_of skewed_week) with
  | inr a =>
      weekday_accidents (report a) = 57
      /\ weekend_accidents (report a) = 23
      /\ weekday_pct_text (report a) = "71.2"
      /\ weekend_pct_text (report a) = "28.7"
      /\ printed_tenths (weekday_pct (report a)) = Some 712
      /\ printed_tenths (weekend_pct (report a)) = Some 287
      /\ 712 + 287 <> 1000
  | inl _ => False
  end.
Proof. vm_compute. repeat split. discriminate. Qed.

(* ===================================================================== *)
(** ** C4: the loader *)

Lemma filter_first {X : Type} (p : X -> bool) (l : list X) (x : X) (rest : list X) :
  filter p l = x :: rest ->
  exists pre post,
    l = (pre ++ x :: post)%list /\ p x = true
    /\ (forall g, In g pre -> p g = false).
Proof.
  induction l as [|y t IH]; cbn [filter]; [discriminate|].
  destruct (p y) eqn:P.
  - intros [= -> _]. exists [], t. repeat split; [exact P | intros g []].
  - intros E. destruct (IH E) as (pre & post & -> & Px & N).
    exists (y :: pre), post. repeat split; [exact Px|].
    intros g [<-|I]; [exact P | now apply N].
Qed.

Lemma filter_nonempty {X : Type} (p : X -> bool) (l : list X) (x : X) :
  In x l -> p x = true -> filter p l <> [].
Proof.
  intros I P E. assert (F : In x (filter p l)) by (apply filter_In; now split).
  now rewrite E in F.
Qed.

Lemma read_csv_bounded (file : DataFrame) (nrows : Z) :
  0 <= nrows -> len (read_csv file nrows) <= nrows.
Proof.
  intros P. unfold len, read_csv; cbn [rows].
  pose proof (firstn_le_length (Z.to_nat nrows) (rows file)) as L. lia.
Qed.

(** C4.  For every archive with at least one entry ending in [.csv], the
    loader reads the first such entry of the listing: every entry before it
    does not end in [.csv].  The table loaded consists of the first 50,000
    rows of that file, so it has at most 50,000 rows, whatever the CSV
    file; the same holds of the table of every completed run. *)
Theorem C4_loader_first_csv_bounded (zip_ref : ZipFile) :
  (exists f, In f (namelist zip_ref) /\ endswith f ".csv" = true) ->
  (exists csv_file pre post,
      namelist zip_ref = (pre ++ csv_file :: post)%list
      /\ endswith csv_file ".csv" = true
      /\ (forall g, In g pre -> endswith g ".csv" = false)
      /\ step1 (Some zip_ref) [] =
         (inr (csv_file, read_csv (member zip_ref csv_file) 50000), [csv_file])
      /\ rows (read_csv (member zip_ref csv_file) 50000) =
         firstn (Z.to_nat 50000) (rows (member zip_ref csv_file))
      /\ (forall a, outcome (Some zip_ref) = inr a ->
                    loaded_from a = csv_file
                    /\ rows (table a) =
                       firstn (Z.to_nat 50000) (rows (member zip_ref csv_file))))
  /\ (forall file : DataFrame, len (read_csv file 50000) <= 50000)
  /\ (forall a, outcome (Some zip_ref) = inr a -> len (table a) <= 50000).
Proof.
  intros (f & I & P).
  destruct (csv_files (namelist zip_ref)) as [|csv_file rest] eqn:E.
  { now elim (filter_nonempty (fun g => endswith g ".csv") (namelist zip_ref)
                f I P). }
  assert (R : forall a, outcome (Some zip_ref) = inr a ->
                loaded_from a = csv_file
                /\ rows (table a) =
                   firstn (Z.to_nat 50000) (rows (member zip_ref csv_file))).
  { intros a O. unfold outcome, run in O.
    destruct (main (Some zip_ref) []) as [o w'] eqn:M. cbn in O. subst o.
    apply main_inr in M. destruct M as (z & c & rest' & [= <-] & C & An).
    rewrite E in C. injection C as <- <-.
    apply analyse_inr in An. destruct An as (_ & _ & T & L & _).
    split; [exact L|]. rewrite T, with_time_features_rows. reflexivity. }
  split; [|split].
  - destruct (filter_first (fun g => endswith g ".csv") _ _ _ E)
      as (pre & post & N & Px & B).
    exists csv_file, pre, post. repeat split; try assumption.
    + unfold step1. now rewrite E.
    + now apply R.
    + now apply R.
  - intros file. now apply read_csv_bounded.
  - intros a O. destruct (R a O) as [_ Rw]. unfold len. rewrite Rw.
    pose proof (firstn_le_length (Z.to_nat 50000)
                  (rows (member zip_ref csv_file))) as L. lia.
Qed.

Lemma C4_loader_witness :
  (exists f, In f (namelist mixed_archive) /\ endswith f ".csv" = true)
  /\ (exists csv_file pre post,
         namelist mixed_archive = (pre ++ csv_file :: post)%list
         /\ endswith csv_file ".csv" = true
         /\ (forall g, In g pre -> endswith g ".csv" = false)
         /\ step1 (Some mixed_archive) [] =
            (inr (csv_file, read_csv (member mixed_archive csv_file) 50000),
             [csv_file]))
  /\ len (read_csv sample 50000) <= 50000.
Proof.
  assert (H : exists f, In f (namelist mixed_archive) /\ endswith f ".csv" = true).
  { exists "accidents_2017.csv". split; [cbn; tauto | reflexivity]. }
  destruct (C4_loader_first_csv_bounded mixed_archive H)
    as ((csv_file & pre & post & N & P & B & S & _) & L & _).
  split; [exact H | split; [|apply L]].
  exists csv_file, pre, post. now repeat split.
Defined.

(* ===================================================================== *)
(** ** The files a run writes *)

Lemma bind_eq {A B : Type} (m : M A) (k : A -> M B) (w w1 : list string) (a : A) :
  m w = (inr a, w1) -> bind m k w = k a w1.
Proof. unfold bind. now intros ->. Qed.

Lemma bind_raise {A B : Type} (m : M A) (k : A -> M B) (w w1 : list string)
  (e : exn) :
  m w = (inl e, w1) -> bind m k w = (inl e, w1).
Proof. unfold bind. now intros ->. Qed.

Lemma has_column_In (df : DataFrame) (c : string) :
  has_column df c = true <-> In c (columns df).
Proof.
  unfold has_column. rewrite existsb_exists. split.
  - intros (x & I & E). apply String.eqb_eq in E. now subst.
  - intros I. exists c. split; [exact I | apply String.eqb_refl].
Qed.

Lemma has_column_kept (df : DataFrame) (x : string) :
  existsb (String.eqb x) time_features = false ->
  has_column (with_time_features df) x = has_column df x.
Proof.
  intros E. rewrite has_column_with_time_features, E. apply orb_false_r.
Qed.

Lemma available_env_kept (df : DataFrame) :
  available_env (with_time_features df) = available_env df.
Proof.
  unfold available_env, env_cols. cbn [filter].
  now rewrite !has_column_kept by reflexivity.
Qed.

Lemma available_numeric_kept (df : DataFrame) :
  available_numeric (with_time_features df) = available_numeric df.
Proof.
  unfold available_numeric, numeric_cols. cbn [filter].
  now rewrite !has_column_kept by reflexivity.
Qed.

Lemma guarded_charts_kept (df : DataFrame) :
  guarded_charts (with_time_features df) = guarded_charts df.
Proof.
  unfold guarded_charts.
  rewrite available_env_kept, available_numeric_kept.
  now rewrite !has_column_kept by reflexivity.
Qed.

(** Step 9 writes the report as its last action or nothing at all. *)
Lemma step9_files (df : DataFrame) (agg : TimeAggregates) (w : list string) :
  snd (step9 df agg w) = w
  \/ snd (step9 df agg w) = (w ++ ["analysis_summary.txt"])%list.
Proof.
  destruct (step9 df agg w) as [[e|r] w'] eqn:E.
  - left. unfold step9 in E.
    repeat match type of E with
      | bind (from_option ?e ?o) _ _ = _ =>
          destruct o; cbn [bind from_option raise ret] in E;
          [|now injection E as _ <-]
      end.
    unfold bind in E.
    destruct (has_column df "Weather_Condition");
      [destruct (value_counts _ _)|]; cbn [ret raise write_file] in E;
      first [discriminate E | now injection E as _ <-].
  - right. apply step9_inr in E. cbn. apply E.
Qed.

(** The files written by Steps 2 to 9 on a table that has the Start_Time
    and Severity columns: the guarded charts, then possibly the report. *)
Lemma analyse_files (csv_file : string) (df0 : DataFrame) (w : list string) :
  has_column df0 "Start_Time" = true ->
  has_column df0 "Severity" = true ->
  snd (analyse csv_file df0 w) = (w ++ guarded_charts df0)%list
  \/ snd (analyse csv_file df0 w) =
     (w ++ guarded_charts df0 ++ ["analysis_summary.txt"])%list.
Proof.
  intros ST SV. unfold analyse.
  erewrite bind_eq;
    [|unfold step2, require_column; rewrite ST; reflexivity].
  set (df := with_time_features df0).
  assert (SV' : has_column df "Severity" = true)
    by (unfold df; now rewrite has_column_kept).
  erewrite bind_eq;
    [|unfold step3, require_column; rewrite SV'; reflexivity].
  rewrite <- (guarded_charts_kept df0). fold df. unfold guarded_charts.
  unfold step4, step5, step6, step7, step8, correlation_columns.
  rewrite SV'.
  destruct (has_column df "Weather_Condition");
    destruct (has_column df "Start_Lat" && has_column df "Start_Lng");
    destruct (2 <=? Datatypes.length (available_env df))%nat;
    destruct (2 <=? Datatypes.length (available_numeric df))%nat;
    repeat (erewrite bind_eq; [|reflexivity]);
    unfold bind;
    match goal with
    | |- context [step9 df ?agg ?w9] =>
        destruct (step9_files df agg w9) as [F|F];
        destruct (step9 df agg w9) as [[e|r] w']; cbn [snd] in F; subst w';
        cbn [snd ret]; rewrite <- ?app_assoc; cbn [app]; auto
    end.
Qed.

Lemma endswith_csv_not_png (f : string) :
  endswith f ".csv" = true -> endswith f ".png" = false.
Proof.
  unfold endswith. cbn [String.length].
  destruct (4 <=? String.length f)%nat; cbn [andb]; [|discriminate].
  intros E. apply String.eqb_eq in E. now rewrite E.
Qed.

Lemma csv_files_head (file_list : list string) (csv_file : string)
  (rest : list string) :
  csv_files file_list = csv_file :: rest -> endswith csv_file ".csv" = true.
Proof.
  intros E.
  assert (I : In csv_file (csv_files file_list)) by (rewrite E; now left).
  unfold csv_files in I. now apply filter_In in I.
Qed.

Lemma guarded_charts_are_charts (df : DataFrame) :
  filter (fun f => endswith f ".png") (guarded_charts df) = guarded_charts df.
Proof.
  unfold guarded_charts.
  destruct (has_column df "Weather_Condition");
    destruct (has_column df "Severity");
    destruct (has_column df "Start_Lat" && has_column df "Start_Lng");
    destruct (2 <=? Datatypes.length (available_env df))%nat;
    destruct (2 <=? Datatypes.length (available_numeric df))%nat;
    reflexivity.
Qed.

Lemma available_numeric_split (df : DataFrame) :
  available_numeric df =
  ((if has_column df "Severity" then ["Severity"] else [])
   ++ available_env df)%list.
Proof.
  unfold available_numeric, available_env, numeric_cols, env_cols.
  cbn [filter]. now destruct (has_column df "Severity").
Qed.

(** A run whose load succeeded continues with Steps 2 to 9 on the table
    loaded. *)
Lemma run_after_load (archive : option ZipFile) (csv_file : string)
  (df0 : DataFrame) (w : list string) :
  step1 archive [] = (inr (csv_file, df0), w) ->
  w = [csv_file]
  /\ endswith csv_file ".csv" = true
  /\ run archive = analyse csv_file df0 [csv_file].
Proof.
  intros S. pose proof S as S'. apply step1_inr in S'.
  destruct S' as (z & rest & _ & C & _ & ->). cbn [fst] in C.
  apply csv_files_head in C. repeat split; [exact C|].
  unfold run, main. now rewrite (bind_eq _ _ _ _ _ S).
Qed.

Lemma charts_of_run (archive : option ZipFile) (csv_file : string)
  (df0 : DataFrame) (w : list string) :
  step1 archive [] = (inr (csv_file, df0), w) ->
  has_column df0 "Start_Time" = true ->
  has_column df0 "Severity" = true ->
  charts_written archive = guarded_charts df0.
Proof.
  intros S ST SV. destruct (run_after_load _ _ _ _ S) as (_ & C & R).
  unfold charts_written, files_written. rewrite R.
  destruct (analyse_files csv_file df0 [csv_file] ST SV) as [-> | ->];
    cbn [app filter]; rewrite (endswith_csv_not_png _ C);
    rewrite ?filter_app, guarded_charts_are_charts; cbn; now rewrite ?app_nil_r.
Qed.

(** Without the Severity column the heat map of Step 3 raises KeyError
    before the first chart is saved. *)
Lemma missing_severity_raises (archive : option ZipFile) (csv_file : string)
  (df0 : DataFrame) (w : list string) :
  step1 archive [] = (inr (csv_file, df0), w) ->
  has_column df0 "Start_Time" = true ->
  has_column df0 "Severity" = false ->
  run archive = (inl (KeyError "Severity"), [csv_file]).
Proof.
  intros S ST SV. destruct (run_after_load _ _ _ _ S) as (_ & _ & ->).
  unfold analyse.
  erewrite bind_eq;
    [|unfold step2, require_column; rewrite ST; reflexivity].
  apply bind_raise. unfold step3, require_column.
  rewrite has_column_kept by reflexivity. now rewrite SV.
Qed.

Lemma missing_start_time_raises (archive : option ZipFile) (csv_file : string)
  (df0 : DataFrame) (w : list string) :
  step1 archive [] = (inr (csv_file, df0), w) ->
  has_column df0 "Start_Time" = false ->
  run archive = (inl (KeyError "Start_Time"), [csv_file]).
Proof.
  intros S ST. destruct (run_after_load _ _ _ _ S) as (_ & _ & ->).
  unfold analyse. apply bind_raise. unfold step2, require_column.
  now rewrite ST.
Qed.

(** When [archive.zip] is missing or lists no CSV entry the script exits in
    Step 1 and has written nothing. *)
Lemma step1_exits (archive : option ZipFile) :
  match archive with
  | None => True
  | Some zip_ref => csv_files (namelist zip_ref) = []
  end ->
  run archive = (inl SystemExit, []).
Proof.
  destruct archive as [zip_ref|]; [|reflexivity].
  intros E. unfold run, main, bind, step1. now rewrite E.
Qed.

(* ===================================================================== *)
(** ** C6, C7: which charts are written, and when the run stops *)

(** C6 (as the code has it).  For every loaded table on which the run
    reaches the end, the charts written are those that the column guards
    let through, in the order of the steps: time_pattern_analysis.png and
    severity_analysis.png always, weather_analysis.png exactly when
    Weather_Condition exists, geographic_hotspots.png exactly when Start_Lat
    and Start_Lng exist, environmental_factors.png exactly when at least two
    of the five environmental columns exist and correlation_matrix.png
    exactly when at least one does.  All six are written exactly when
    Weather_Condition, Start_Lat and Start_Lng exist together with at least
    two of the environmental columns, and no other chart is written. *)
Theorem C6_charts_follow_the_guards (archive : option ZipFile)
  (csv_file : string) (df0 : DataFrame) (w : list string) (a : Analysis) :
  step1 archive [] = (inr (csv_file, df0), w) ->
  outcome archive = inr a ->
  charts_written archive = guarded_charts df0
  /\ In "time_pattern_analysis.png" (charts_written archive)
  /\ In "severity_analysis.png" (charts_written archive)
  /\ (In "weather_analysis.png" (charts_written archive) <->
      has_column df0 "Weather_Condition" = true)
  /\ (In "geographic_hotspots.png" (charts_written archive) <->
      has_column df0 "Start_Lat" = true /\ has_column df0 "Start_Lng" = true)
  /\ (In "environmental_factors.png" (charts_written archive) <->
      (2 <= List.length (available_env df0))%nat)
  /\ (In "correlation_matrix.png" (charts_written archive) <->
      (1 <= List.length (available_env df0))%nat)
  /\ (charts_written archive = chart_files <->
      has_column df0 "Weather_Condition" = true
      /\ has_column df0 "Start_Lat" = true
      /\ has_column df0 "Start_Lng" = true
      /\ (2 <= List.length (available_env df0))%nat)
  /\ incl (charts_written archive) chart_files.
Proof.
  intros L1 Done.
  assert (Cols : has_column df0 "Start_Time" = true
                 /\ has_column df0 "Severity" = true).
  { destruct (run_after_load _ _ _ _ L1) as (_ & _ & R).
    unfold outcome in Done. rewrite R in Done.
    destruct (analyse csv_file df0 [csv_file]) as [o w'] eqn:An.
    cbn [fst] in Done. subst o. apply analyse_inr in An.
    destruct An as (ST & SV & _). now split. }
  destruct Cols as [ST SV]. rewrite (charts_of_run _ _ _ _ L1 ST SV).
  split; [reflexivity|].
  unfold guarded_charts, chart_files, incl.
  rewrite available_numeric_split, SV. cbn [app List.length].
  change (2 <=? S (Datatypes.length (available_env df0)))%nat
    with (1 <=? Datatypes.length (available_env df0))%nat.
  destruct (has_column df0 "Weather_Condition");
    destruct (has_column df0 "Start_Lat");
    destruct (has_column df0 "Start_Lng");
    destruct (Nat.leb_spec 2 (Datatypes.length (available_env df0)));
    destruct (Nat.leb_spec 1 (Datatypes.length (available_env df0)));
    try lia; cbn [andb app In];
    repeat split; intros;
    repeat match goal with
      | H : _ /\ _ |- _ => destruct H
      | H : _ \/ _ |- _ => destruct H
      | H : False |- _ => destruct H
      end;
    subst; try discriminate; try lia; try congruence; tauto.
Qed.

Lemma C6_charts_witness :
  charts_written (archive_of sample) = chart_files.
Proof.
  assert (L : step1 (archive_of sample) [] =
              (inr ("US_Accidents.csv", read_csv sample 50000),
               ["US_Accidents.csv"])) by (vm_compute; reflexivity).
  run_concretely (archive_of sample).
  destruct (C6_charts_follow_the_guards _ _ _ _ _ L Hrun)
    as (_ & _ & _ & _ & _ & _ & _ & All & _).
  apply All. repeat split; try reflexivity. vm_compute. lia.
Defined.

(** A table with only the Start_Time and Severity columns loads and is
    analysed to the end, and two charts are written, not six. *)
Lemma C6_two_charts_for_a_bare_table :
  match outcome (archive_of bare_table) with
  | inr _ =>
      charts_written (archive_of bare_table) =
      ["time_pattern_analysis.png"; "severity_analysis.png"]
      /\ charts_written (archive_of bare_table) <> chart_files
  | inl _ => False
  end.
Proof. vm_compute. split; [reflexivity | discriminate]. Qed.

(** C7, the case the script misses.  Steps 4, 5 and 9 test for the
    Severity column before they use it; the heat map of Step 3 does not.
    So on a loaded table without Severity (and with Start_Time) the run
    ends in Step 3 with KeyError: the only file written is the extracted
    CSV, no chart and no report, and Steps 4 to 9 never start. *)
Theorem C7_missing_severity_stops_the_run (archive : option ZipFile)
  (csv_file : string) (df0 : DataFrame) (w : list string) :
  step1 archive [] = (inr (csv_file, df0), w) ->
  has_column df0 "Start_Time" = true ->
  has_column df0 "Severity" = false ->
  run archive = (inl (KeyError "Severity"), [csv_file])
  /\ charts_written archive = []
  /\ ~ In "analysis_summary.txt" (files_written archive).
Proof.
  intros L ST SV. pose proof (missing_severity_raises _ _ _ _ L ST SV) as R.
  destruct (run_after_load _ _ _ _ L) as (_ & C & _).
  unfold charts_written, files_written. rewrite R. cbn [snd filter].
  rewrite (endswith_csv_not_png _ C). repeat split.
  intros [E|[]]. subst csv_file. discriminate C.
Qed.

Lemma C7_missing_severity_witness :
  has_column no_severity "Weather_Condition" = true
  /\ run (archive_of no_severity) =
     (inl (KeyError "Severity"), ["US_Accidents.csv"])
  /\ charts_written (archive_of no_severity) = []
  /\ ~ In "analysis_summary.txt" (files_written (archive_of no_severity)).
Proof.
  split; [reflexivity|].
  apply (C7_missing_severity_stops_the_run (archive_of no_severity)
           "US_Accidents.csv" (read_csv no_severity 50000)
           ["US_Accidents.csv"]); vm_compute; reflexivity.
Defined.

(* ===================================================================== *)
(** ** C5: the columns of the correlation matrix *)

(** C5 (as the code has it).  The columns that enter the correlation are
    those of Severity, Temperature(F), Humidity(%), Visibility(mi),
    Wind_Speed(mph), Pressure(in) that the table has: Severity, when
    present, followed by the environmental columns present.  The matrix is
    computed only when there are at least two such columns, and Step 8 of
    a completed run computes it over exactly these. *)
Theorem C5_correlation_columns (df : DataFrame) :
  available_numeric df =
    ((if has_column df "Severity" then ["Severity"] else [])
     ++ available_env df)%list
  /\ (forall c, In c (available_numeric df) <->
                (c = "Severity" \/ In c env_cols) /\ In c (columns df))
  /\ (forall c, In c (available_env df) <-> In c env_cols /\ In c (columns df))
  /\ (forall cols, correlation_columns df = Some cols ->
                   cols = available_numeric df
                   /\ (2 <= List.length cols)%nat)
  /\ (correlation_columns df = None <->
      (List.length (available_numeric df) < 2)%nat)
  /\ (forall archive a, outcome archive = inr a -> table a = df ->
      correlation_step a = correlation_columns df).
Proof.
  split; [apply available_numeric_split|].
  split; [|split; [|split; [|split]]].
  - intros c. unfold available_numeric. rewrite filter_In, has_column_In.
    cbn [numeric_cols env_cols In]. intuition.
  - intros c. unfold available_env. rewrite filter_In, has_column_In. tauto.
  - intros cols. unfold correlation_columns.
    destruct (Nat.leb_spec 2 (Datatypes.length (available_numeric df)));
      [|discriminate].
    intros [= <-]. now split.
  - unfold correlation_columns.
    destruct (Nat.leb_spec 2 (Datatypes.length (available_numeric df)));
      split; try discriminate; try lia; reflexivity.
  - intros archive a O T. unfold outcome, run in O.
    destruct (main archive []) as [o w'] eqn:E. cbn in O. subst o.
    apply main_inr in E. destruct E as (z & csv & rest & _ & _ & E).
    apply analyse_inr in E. destruct E as (_ & _ & _ & _ & _ & Cs & _).
    now rewrite T in Cs.
Qed.

Lemma C5_correlation_columns_witness :
  "Severity" :: "Temperature(F)" :: "Humidity(%)" :: nil
  = available_numeric two_env_columns
  /\ (2 <= 3)%nat.
Proof.
  destruct (C5_correlation_columns two_env_columns) as (_ & _ & _ & H & _).
  apply H. reflexivity.
Defined.

(** On a table with Severity and two environmental columns the correlation
    is over three columns; Severity is among them and is not one of the
    five environmental columns. *)
Lemma C5_severity_enters_the_correlation :
  correlation_columns two_env_columns =
    Some ["Severity"; "Temperature(F)"; "Humidity(%)"]
  /\ available_env two_env_columns = ["Temperature(F)"; "Humidity(%)"]
  /\ ~ In "Severity" env_cols
  /\ ~ (forall c, In c ["Severity"; "Temperature(F)"; "Humidity(%)"] <->
                  In c (available_env two_env_columns)).
Proof.
  split; [reflexivity | split; [reflexivity | split]].
  - cbn. intuition discriminate.
  - intros H. specialize (H "Severity"). cbn in H.
    destruct H as [H _]. specialize (H (or_introl eq_refl)).
    intuition discriminate.
Qed.

(* ===================================================================== *)
(** ** C10: the enforcement window of the report *)

Lemma count_rows_pos_exists {A : Type} (eqb : A -> A -> bool)
  (eqb_spec : forall x y, reflect (x = y) (eqb x y))
  (field : Row -> option A) (v : A) (df : DataFrame) :
  0 < count_rows eqb field v df ->
  exists r, In r (rows df) /\ field r = Some v.
Proof.
  unfold count_rows.
  destruct (filter _ (rows df)) as [|r t] eqn:E; [cbn; lia|]. intros _.
  assert (I : In r (filter (fun r => match field r with
                                     | Some x => eqb x v
                                     | None => false
                                     end) (rows df)))
    by (rewrite E; now left).
  apply filter_In in I. destruct I as [I P]. exists r. split; [exact I|].
  destruct (field r) as [x|]; [|discriminate].
  destruct (eqb_spec x v) as [e|]; [now rewrite e | discriminate].
Qed.

Lemma hour_dtype_int64 (df : DataFrame) :
  hour_dtype df = int64 <-> unparsed_rows df = 0.
Proof.
  unfold hour_dtype, unparsed_rows.
  induction (rows df) as [|r t IH]; cbn [forallb filter].
  - tauto.
  - destruct (Start_Time r); cbn [andb List.length]; [exact IH|].
    split; [discriminate | lia].
Qed.

(** C10 (as the code has it).  Whenever the report is produced the peak
    hour is one of 0..23 and the first recommendation prints the window
    from peak_hour - 1 to peak_hour + 2, neither clamped nor wrapped modulo
    24.  When every timestamp parsed the hours are integers: a peak hour
    of 0 gives '-1:00-2:00' and a peak hour of 23 gives '22:00-25:00'.
    When some timestamp did not parse the Hour column is float64 and the
    same bounds are printed as floats: '-1.0:00-2.0:00' and
    '22.0:00-25.0:00', which do not contain the integer windows. *)
Theorem C10_enforcement_window (archive : option ZipFile) (a : Analysis) :
  outcome archive = inr a ->
  let r := report a in
  0 <= peak_hour r < 24
  /\ (hours_dtype r = int64 <-> unparsed_rows (table a) = 0)
  /\ officers_line r =
     "   • Deploy additional officers during peak hours ("
     ++ str_of_num (hours_dtype r) (peak_hour r - 1) ++ ":00-"
     ++ str_of_num (hours_dtype r) (peak_hour r + 2) ++ ":00)"
  /\ (hours_dtype r = int64 ->
      (peak_hour r = 0 -> contains "(-1:00-2:00)" (officers_line r) = true)
      /\ (peak_hour r = 23 -> contains "(22:00-25:00)" (officers_line r) = true))
  /\ (hours_dtype r = float64 ->
      (peak_hour r = 0 ->
       contains "(-1.0:00-2.0:00)" (officers_line r) = true
       /\ contains "-1:00-2:00" (officers_line r) = false)
      /\ (peak_hour r = 23 ->
          contains "(22.0:00-25.0:00)" (officers_line r) = true
          /\ contains "22:00-25:00" (officers_line r) = false)).
Proof.
  intros O r. apply outcome_inr in O. destruct O as (w1 & w' & S9).
  apply step9_inr in S9. cbn [agg_hour_counts] in S9. fold r in S9.
  destruct S9 as (PH & _ & _ & _ & _ & _ & _ & _ & _ & _ & _ & DT & _).
  split; [|split; [|split; [reflexivity|split]]].
  - apply idxmax_spec in PH. destruct PH as (v & I & _).
    apply hour_counts_In in I. destruct I as [-> P].
    apply (count_rows_pos_exists Z.eqb Z.eqb_spec) in P.
    destruct P as (row & _ & E). unfold Hour in E.
    destruct (Start_Time row) as [t|]; [|discriminate].
    injection E as <-. apply hour_range.
  - rewrite DT. apply hour_dtype_int64.
  - intros D. unfold officers_line. rewrite D.
    split; intros ->; reflexivity.
  - intros D. unfold officers_line. rewrite D.
    split; intros ->; split; reflexivity.
Qed.

Lemma C10_enforcement_window_witness :
  match outcome (archive_of one_monday), outcome (archive_of late_evening),
        outcome (archive_of with_unparsed) with
  | inr a0, inr a23, inr af =>
      contains "(-1:00-2:00)" (officers_line (report a0)) = true
      /\ contains "(22:00-25:00)" (officers_line (report a23)) = true
      /\ (contains "(-1.0:00-2.0:00)" (officers_line (report af)) = true
          /\ contains "-1:00-2:00" (officers_line (report af)) = false)
  | _, _, _ => False
  end.
Proof.
  run_concretely (archive_of one_monday). rewrite Hrun.
  destruct (C10_enforcement_window _ _ Hrun) as (_ & _ & _ & H0 & _).
  clear Hrun.
  run_concretely (archive_of late_evening). rewrite Hrun.
  destruct (C10_enforcement_window _ _ Hrun) as (_ & _ & _ & H23 & _).
  clear Hrun.
  run_concretely (archive_of with_unparsed). rewrite Hrun.
  destruct (C10_enforcement_window _ _ Hrun) as (_ & _ & _ & _ & Hf).
  split; [|split].
  - apply H0; reflexivity.
  - apply H23; reflexivity.
  - apply Hf; reflexivity.
Defined.

(** One accident at midnight and one row whose timestamp did not parse:
    the peak hour is 0, held as the float 0.0, and the line reads
    '(-1.0:00-2.0:00)'; the text '-1:00-2:00' does not occur in it. *)
Lemma C10_float_hours_print_a_float_window :
  match outcome (archive_of with_unparsed) with
  | inr a =>
      peak_hour (report a) = 0
      /\ hours_dtype (report a) = float64
      /\ officers_line (report a) =
         "   • Deploy additional officers during peak hours (-1.0:00-2.0:00)"
      /\ peak_hour_text (report a) = "Peak Hour: 0.0:00"
      /\ contains "-1:00-2:00" (officers_line (report a)) = false
  | inl _ => False
  end.
Proof. vm_compute. repeat split. Qed.

(* ===================================================================== *)
(** ** Further properties of the script *)

(* --------------------------------------------------------------------- *)
(** *** Step 1: the file name test and the bounded load *)

Lemma string_length_append (p s : string) :
  String.length (p ++ s) = (String.length p + String.length s)%nat.
Proof. induction p as [|a p IH]; cbn; [reflexivity | now rewrite IH]. Qed.

Lemma substring_whole (s : string) : substring 0 (String.length s) s = s.
Proof. induction s as [|a s IH]; cbn; [reflexivity | now rewrite IH]. Qed.

Lemma substring_after_prefix (p s : string) (n : nat) :
  substring (String.length p) n (p ++ s) = substring 0 n s.
Proof. induction p as [|a p IH]; cbn; [reflexivity | exact IH]. Qed.

Lemma substring_split (s : string) (k : nat) :
  (k <= String.length s)%nat ->
  s = substring 0 k s ++ substring k (String.length s - k) s.
Proof.
  revert k. induction s as [|a s IH]; intros k L.
  - cbn in L. assert (k = 0%nat) as -> by lia. reflexivity.
  - destruct k as [|k].
    + cbn [substring append String.length Nat.sub].
      now rewrite substring_whole.
    + cbn [substring append String.length Nat.sub]. f_equal.
      apply IH. cbn in L. lia.
Qed.

(** X1.  [s.endswith(suffix)] holds exactly when [s] is some string
    followed by [suffix]: the loader's test accepts the names that end in
    '.csv' and no others. *)
Theorem X1_endswith_iff_suffix (s suffix : string) :
  endswith s suffix = true <-> exists p, s = p ++ suffix.
Proof.
  unfold endswith. split.
  - intros E. apply andb_prop in E. destruct E as [L E].
    apply Nat.leb_le in L. apply String.eqb_eq in E.
    exists (substring 0 (String.length s - String.length suffix) s).
    pose proof (substring_split s (String.length s - String.length suffix)) as Sp.
    replace (String.length s - (String.length s - String.length suffix))%nat
      with (String.length suffix) in Sp by lia.
    rewrite E in Sp. apply Sp. lia.
  - intros [p ->]. rewrite string_length_append. apply andb_true_intro. split.
    + apply Nat.leb_le. lia.
    + replace (String.length p + String.length suffix - String.length suffix)%nat
        with (String.length p) by lia.
      rewrite substring_after_prefix, substring_whole. apply String.eqb_refl.
Qed.

Lemma X1_endswith_witness :
  endswith "data/US_Accidents.csv" ".csv" = true.
Proof.
  apply (proj2 (X1_endswith_iff_suffix "data/US_Accidents.csv" ".csv")).
  exists "data/US_Accidents". reflexivity.
Defined.

(** X2.  [read_csv(..., nrows=n)] keeps the columns and the first rows of
    the file: the table has min(rows of the file, n) rows, it is the whole
    file when the file has at most n rows, and otherwise the file's rows
    are the table's rows followed by the rows left unread. *)
Theorem X2_read_csv_is_a_prefix (file : DataFrame) (n : Z) :
  0 <= n ->
  columns (read_csv file n) = columns file
  /\ len (read_csv file n) = Z.min (len file) n
  /\ (len file <= n -> read_csv file n = file)
  /\ exists unread, rows file = (rows (read_csv file n) ++ unread)%list.
Proof.
  intros P. unfold read_csv, len; cbn [columns rows].
  split; [reflexivity | split; [|split]].
  - rewrite length_firstn. lia.
  - intros L. destruct file as [cs rs]; cbn [columns rows] in *.
    f_equal. apply firstn_all2. lia.
  - exists (skipn (Z.to_nat n) (rows file)). now rewrite firstn_skipn.
Qed.

Lemma X2_read_csv_witness :
  len (read_csv sample 2) = Z.min (len sample) 2
  /\ read_csv sample 50000 = sample.
Proof.
  split.
  - apply (X2_read_csv_is_a_prefix sample 2). lia.
  - apply (X2_read_csv_is_a_prefix sample 50000); vm_compute; discriminate.
Defined.

(** X3.  When [archive.zip] is missing, or its listing has no entry ending
    in '.csv', the script exits in Step 1: no table is loaded and no file
    has been written, not even an extracted member. *)
Theorem X3_step1_exits_without_csv (archive : option ZipFile) :
  (archive = None
   \/ exists zip_ref, archive = Some zip_ref
        /\ forall f, In f (namelist zip_ref) -> endswith f ".csv" = false) ->
  outcome archive = inl SystemExit /\ files_written archive = [].
Proof.
  intros H. unfold outcome, files_written.
  rewrite step1_exits; [now split|].
  destruct H as [->|(zip_ref & -> & N)]; [exact I|].
  unfold csv_files.
  destruct (filter _ (namelist zip_ref)) as [|f rest] eqn:E; [reflexivity|].
  assert (F : In f (filter (fun g => endswith g ".csv") (namelist zip_ref)))
    by (rewrite E; now left).
  apply filter_In in F. destruct F as [F T]. rewrite (N f F) in T. discriminate.
Qed.

Lemma X3_step1_exits_witness :
  (outcome None = inl SystemExit /\ files_written None = [])
  /\ (outcome (Some (mkZip ["README.txt"; "data.json"] (fun _ => sample)))
      = inl SystemExit
      /\ files_written (Some (mkZip ["README.txt"; "data.json"]
                                    (fun _ => sample))) = []).
Proof.
  split.
  - apply X3_step1_exits_without_csv. now left.
  - apply X3_step1_exits_without_csv. right. eexists. split; [reflexivity|].
    intros f [<-|[<-|[]]]; reflexivity.
Defined.

(* --------------------------------------------------------------------- *)
(** *** Step 2: the columns read and added *)

(** X4.  A loaded table without the Start_Time column ends the run in
    Step 2 with KeyError 'Start_Time': the extracted CSV is the only file
    written, no chart and no report. *)
Theorem X4_missing_start_time_stops_in_step2 (archive : option ZipFile)
  (csv_file : string) (df0 : DataFrame) (w : list string) :
  step1 archive [] = (inr (csv_file, df0), w) ->
  has_column df0 "Start_Time" = false ->
  outcome archive = inl (KeyError "Start_Time")
  /\ files_written archive = [csv_file]
  /\ charts_written archive = [].
Proof.
  intros L ST. unfold outcome, charts_written, files_written.
  rewrite (missing_start_time_raises _ _ _ _ L ST). cbn [fst snd filter].
  destruct (run_after_load _ _ _ _ L) as (_ & C & _).
  now rewrite (endswith_csv_not_png _ C).
Qed.

Lemma X4_missing_start_time_witness :
  outcome (archive_of no_start_time) = inl (KeyError "Start_Time")
  /\ files_written (archive_of no_start_time) = ["US_Accidents.csv"]
  /\ charts_written (archive_of no_start_time) = [].
Proof.
  apply (X4_missing_start_time_stops_in_step2 (archive_of no_start_time)
           "US_Accidents.csv" (read_csv no_start_time 50000)
           ["US_Accidents.csv"]); vm_compute; reflexivity.
Defined.

Lemma set_column_columns (c : string) (df : DataFrame) :
  columns (set_column c df) =
  if has_column df c then columns df else (columns df ++ [c])%list.
Proof. unfold set_column. now destruct (has_column df c). Qed.

Lemma fold_set_column (names : list string) (df : DataFrame) :
  let df' := fold_left (fun d c => set_column c d) names df in
  rows df' = rows df
  /\ (forall x, In x (columns df') <-> In x (columns df) \/ In x names)
  /\ (NoDup (columns df) -> NoDup (columns df'))
  /\ exists added, columns df' = (columns df ++ added)%list
                   /\ incl added names
                   /\ forall x, In x added -> ~ In x (columns df).
Proof.
  revert df. induction names as [|c names IH]; intros df; cbn [fold_left].
  - split; [reflexivity | split; [|split]].
    + intros x. cbn. tauto.
    + tauto.
    + exists []. split; [now rewrite app_nil_r | split; intros x []].
  - destruct (IH (set_column c df)) as (R & I & N & (added & E & S & F)).
    cbv zeta. rewrite R, set_column_rows.
    split; [reflexivity | split; [|split]].
    + intros x. rewrite I, <- !has_column_In, has_column_set_column.
      rewrite orb_true_iff, String.eqb_eq. cbn [In].
      split; [intros [[H|H]|H] | intros [H|[H|H]]]; auto.
    + intros ND. apply N. rewrite set_column_columns.
      destruct (has_column df c) eqn:H; [exact ND|].
      eapply Permutation_NoDup; [apply Permutation_cons_append|].
      constructor; [|exact ND].
      intros X. apply has_column_In in X. congruence.
    + rewrite E. rewrite set_column_columns in E, F |- *.
      destruct (has_column df c) eqn:H.
      * exists added. split; [reflexivity | split; [|exact F]].
        intros x X. right. now apply S.
      * exists (c :: added). split; [now rewrite <- app_assoc | split].
        -- intros x [<-|X]; [now left | right; now apply S].
        -- intros x [<-|X].
           ++ intros X. apply has_column_In in X. congruence.
           ++ intros Y. apply (F x X). apply in_or_app. now left.
Qed.

(** X5.  Step 2 leaves the rows and the loaded columns as they are, in
    their places, and makes the table have the seven derived columns Hour,
    Day_of_Week, Month, Month_Name, Year, Is_Weekend and Time_Period: a
    derived column is appended only when the table does not already have
    one of that name (then it is overwritten in place), so column names
    that were distinct stay distinct. *)
Theorem X5_step2_columns (df : DataFrame) :
  rows (with_time_features df) = rows df
  /\ (forall c, has_column (with_time_features df) c = true <->
                has_column df c = true \/ In c time_features)
  /\ (NoDup (columns df) -> NoDup (columns (with_time_features df)))
  /\ (exists added,
        columns (with_time_features df) = (columns df ++ added)%list
        /\ incl added time_features
        /\ forall c, In c added -> has_column df c = false).
Proof.
  destruct (fold_set_column time_features df)
    as (R & I & N & (added & E & S & F)).
  fold (with_time_features df) in R, I, N, E.
  split; [exact R | split; [|split; [exact N|]]].
  - intros c. rewrite !has_column_In. apply I.
  - exists added. split; [exact E | split; [exact S|]].
    intros c X. destruct (has_column df c) eqn:H; [|reflexivity].
    apply has_column_In in H. now elim (F c X).
Qed.

Lemma X5_step2_columns_witness :
  NoDup (columns (with_time_features with_hour_column))
  /\ has_column (with_time_features with_hour_column) "Time_Period" = true.
Proof.
  destruct (X5_step2_columns with_hour_column) as (_ & H & N & _).
  split.
  - apply N. vm_compute. repeat constructor; cbn; intuition discriminate.
  - apply H. right. cbn. tauto.
Defined.

(* --------------------------------------------------------------------- *)
(** *** get_time_period on float hours *)

(** X6.  On each of the hours 0..23 [get_time_period] gives the same label
    for the integer and for the float64 of that value, which is what the
    Hour column holds once a timestamp failed to parse. *)
Theorem X6_get_time_period_float_agrees (h : Z) :
  0 <= h < 24 ->
  get_time_period (float_of_Z h) = get_time_period h.
Proof.
  intros R. assert (E : h = Z.of_nat (Z.to_nat h)) by lia.
  assert (B : (Z.to_nat h < 24)%nat) by lia.
  rewrite E. generalize B. generalize (Z.to_nat h). clear. intros n B.
  do 24 (destruct n as [|n]; [vm_compute; reflexivity|]). lia.
Qed.

Lemma X6_get_time_period_float_witness :
  get_time_period (float_of_Z 17) = "Evening".
Proof.
  rewrite (X6_get_time_period_float_agrees 17); [reflexivity | lia].
Defined.

(* --------------------------------------------------------------------- *)
(** *** Step 3: what the count series add up to *)

Lemma sum_perm (l l' : list Z) : Permutation l l' -> sum l = sum l'.
Proof.
  unfold sum. induction 1 as [|x l l' _ IH|x y l|l l' l'' _ IH1 _ IH2];
    cbn [fold_right]; lia.
Qed.

Lemma total_perm {A : Type} (s s' : list (A * Z)) :
  Permutation s s' -> total s = total s'.
Proof. intros P. unfold total. now apply sum_perm, Permutation_map. Qed.

Section TotalFacts.
Context {A : Type} (eqb : A -> A -> bool).
Hypothesis eqb_spec : forall x y, reflect (x = y) (eqb x y).

Lemma total_incr (x : A) (tbl : list (A * Z)) :
  total (incr eqb x tbl) = total tbl + 1.
Proof.
  unfold total, sum.
  induction tbl as [|[k c] t IH]; cbn [incr map snd fold_right]; [lia|].
  destruct (eqb k x); cbn [map snd fold_right]; lia.
Qed.

Lemma total_tally (l : list A) : total (tally eqb l) = Z.of_nat (List.length l).
Proof.
  unfold tally.
  assert (G : forall tbl,
             total (fold_left (fun t x => incr eqb x t) l tbl)
             = total tbl + Z.of_nat (List.length l)).
  { induction l as [|x l IH]; intros tbl; cbn [fold_left List.length]; [lia|].
    rewrite IH, total_incr. lia. }
  rewrite G. reflexivity.
Qed.

Lemma total_value_counts (col : list (option A)) :
  total (value_counts eqb col) = Z.of_nat (List.length (dropna col)).
Proof.
  unfold value_counts. rewrite <- total_tally.
  apply total_perm, sort_by_perm.
Qed.

Lemma reindex_keys {V : Type} (order : list A) (s : list (A * V)) :
  NoDup order -> NoDup (map fst (skipna (reindex eqb order s))).
Proof.
  unfold reindex. induction 1 as [|k t NI ND IH]; cbn [map skipna].
  - constructor.
  - destruct (lookup eqb k s) as [v|]; [|exact IH].
    cbn [map fst]. constructor; [|exact IH].
    intros X. apply in_map_iff in X. destruct X as ([k' v'] & E & X).
    cbn in E. subst k'. apply skipna_In in X.
    apply in_map_iff in X. destruct X as (k'' & [= -> _] & X). contradiction.
Qed.

(** Reindexing over an order that has every label only reorders. *)
Lemma reindex_perm (order : list A) (s : list (A * Z)) :
  NoDup order -> NoDup (map fst s) ->
  (forall k, In k (map fst s) -> In k order) ->
  Permutation (skipna (reindex eqb order s)) s.
Proof.
  intros NO NS Sub. apply NoDup_Permutation.
  - eapply NoDup_map_inv, reindex_keys, NO.
  - eapply NoDup_map_inv, NS.
  - intros [k v]. rewrite skipna_In, reindex_In. split.
    + intros [_ E]. now apply (lookup_In eqb eqb_spec).
    + intros I. split.
      * apply Sub. change k with (fst (k, v)). now apply in_map.
      * symmetry. now apply (In_lookup eqb eqb_spec).
Qed.

Lemma value_counts_In (field : Row -> option A) (df : DataFrame) (k : A) (c : Z) :
  In (k, c) (value_counts eqb (map field (rows df))) <->
  c = count_rows eqb field k df /\ 0 < c.
Proof.
  pose proof (value_counts_rows eqb eqb_spec field df k) as L.
  assert (P : 0 <= count_rows eqb field k df) by (unfold count_rows; lia).
  split.
  - intros I. apply (In_lookup eqb eqb_spec) in I;
      [|apply (value_counts_NoDup eqb eqb_spec)].
    rewrite I in L. destruct (Z.eqb_spec (count_rows eqb field k df) 0);
      [discriminate|]. injection L as ->. lia.
  - intros [-> Pos]. apply (lookup_In eqb eqb_spec). rewrite L.
    destruct (Z.eqb_spec (count_rows eqb field k df) 0); [lia | reflexivity].
Qed.
End TotalFacts.

Lemma dropna_length_parsed {B : Type} (f : Timestamp -> B) (l : list Row) :
  List.length (dropna (map (fun r => option_map f (Start_Time r)) l)) =
  List.length (filter (fun r => match Start_Time r with
                                | Some _ => true
                                | None => false
                                end) l).
Proof.
  induction l as [|r t IH]; cbn [map dropna filter]; [reflexivity|].
  destruct (Start_Time r); cbn [option_map dropna List.length]; now rewrite IH.
Qed.

Lemma dropna_length_all {B : Type} (f : Row -> B) (l : list Row) :
  List.length (dropna (map (fun r => Some (f r)) l)) = List.length l.
Proof.
  induction l as [|r t IH]; cbn [map dropna List.length]; now rewrite ?IH.
Qed.

Lemma parsed_plus_unparsed (df : DataFrame) :
  parsed_rows df + unparsed_rows df = len df.
Proof.
  unfold parsed_rows, unparsed_rows, len.
  induction (rows df) as [|r t IH]; cbn [filter List.length]; [reflexivity|].
  destruct (Start_Time r); cbn [List.length]; lia.
Qed.

Lemma day_order_NoDup : NoDup day_order.
Proof. unfold day_order. repeat constructor; cbn; intuition discriminate. Qed.

Lemma period_order_NoDup : NoDup period_order.
Proof. unfold period_order. repeat constructor; cbn; intuition discriminate. Qed.

(** X7.  Every row with a parsed timestamp is counted once in the hourly
    counts and once in the daily counts, and every row, parsed or not, once
    in the period counts: the hourly and the daily counts add up to the
    number of parsed rows, the period counts to the number of rows. *)
Theorem X7_counts_add_up (df : DataFrame) :
  total (hour_counts df) = parsed_rows df
  /\ nansum (day_counts df) = parsed_rows df
  /\ nansum (period_counts df) = len df
  /\ parsed_rows df + unparsed_rows df = len df.
Proof.
  split; [|split; [|split; [|apply parsed_plus_unparsed]]].
  - unfold hour_counts, sort_index.
    rewrite (total_perm _ _ (sort_by_perm _ _)), total_value_counts.
    unfold col_Hour, Hour, parsed_rows. now rewrite dropna_length_parsed.
  - assert (Sub : forall k,
               In k (map fst (value_counts String.eqb (col_Day_of_Week df))) ->
               In k day_order).
    { intros k I. apply in_map_iff in I. destruct I as ([k' c] & E & I).
      cbn in E. subst k'. unfold col_Day_of_Week in I.
      apply (value_counts_In String.eqb String.eqb_spec) in I.
      destruct I as [-> Pos]. fold (rows_with_day df k) in Pos.
      destruct (in_dec_string k day_order) as [Y|N]; [exact Y|].
      rewrite (rows_with_day_outside df k N) in Pos. lia. }
    unfold nansum, day_counts.
    rewrite (total_perm _ _ (reindex_perm String.eqb String.eqb_spec _ _
               day_order_NoDup
               (value_counts_NoDup String.eqb String.eqb_spec _) Sub)).
    rewrite total_value_counts. unfold col_Day_of_Week, Day_of_Week, parsed_rows.
    now rewrite dropna_length_parsed.
  - assert (Sub : forall k,
               In k (map fst (value_counts String.eqb (col_Time_Period df))) ->
               In k period_order).
    { intros k I. apply in_map_iff in I. destruct I as ([k' c] & E & I).
      cbn in E. subst k'. unfold col_Time_Period in I.
      apply (value_counts_In String.eqb String.eqb_spec
               (fun r => Some (Time_Period r))) in I.
      destruct I as [-> Pos]. fold (rows_with_period df k) in Pos.
      destruct (in_dec_string k period_order) as [Y|N]; [exact Y|].
      rewrite (rows_with_period_outside df k N) in Pos. lia. }
    unfold nansum, period_counts.
    rewrite (total_perm _ _ (reindex_perm String.eqb String.eqb_spec _ _
               period_order_NoDup
               (value_counts_NoDup String.eqb String.eqb_spec _) Sub)).
    rewrite total_value_counts. unfold col_Time_Period, len.
    now rewrite dropna_length_all.
Qed.

(* --------------------------------------------------------------------- *)
(** *** Sorted series *)

Section SortedFacts.
Context {X : Type} (le : X -> X -> bool).
Hypothesis le_total : forall x y, le x y = true \/ le y x = true.
Hypothesis le_trans : forall x y z, le x y = true -> le y z = true -> le x z = true.

Lemma insert_sorted_sorted (x : X) (l : list X) :
  StronglySorted (fun a b => le a b = true) l ->
  StronglySorted (fun a b => le a b = true) (insert_sorted le x l).
Proof.
  induction 1 as [|y t St IH Fy]; cbn [insert_sorted].
  - constructor; constructor.
  - destruct (le x y) eqn:E.
    + constructor; [now constructor|].
      constructor; [exact E|].
      rewrite Forall_forall in Fy |- *. intros z Z. eapply le_trans; eauto.
    + constructor; [exact IH|].
      rewrite Forall_forall in Fy |- *. intros z Z.
      apply (Permutation_in _ (insert_sorted_perm le x t)) in Z.
      destruct Z as [<-|Z]; [|now apply Fy].
      destruct (le_total x y) as [T|T]; [congruence | exact T].
Qed.

Lemma sort_by_sorted (l : list X) :
  StronglySorted (fun a b => le a b = true) (sort_by le l).
Proof.
  induction l as [|x t IH]; cbn [sort_by fold_right].
  - constructor.
  - now apply insert_sorted_sorted.
Qed.
End SortedFacts.

Lemma StronglySorted_app_inv {X : Type} (R : X -> X -> Prop) (l1 l2 : list X) :
  StronglySorted R (l1 ++ l2) ->
  forall x y, In x l1 -> In y l2 -> R x y.
Proof.
  induction l1 as [|a l1 IH]; cbn [app]; intros St x y Ix Iy; [destruct Ix|].
  apply StronglySorted_inv in St. destruct St as [St F].
  destruct Ix as [<-|Ix]; [|now apply IH].
  rewrite Forall_forall in F. apply F, in_or_app. now right.
Qed.

Lemma StronglySorted_weaken {X : Type} (R R' : X -> X -> Prop) (l : list X) :
  (forall x y, In x l -> In y l -> R x y -> R' x y) ->
  StronglySorted R l -> StronglySorted R' l.
Proof.
  intros W St. induction St as [|a l St IH F]; constructor.
  - apply IH. intros x y Ix Iy. apply W; now right.
  - rewrite Forall_forall in F |- *. intros y Iy.
    apply W; [now left | now right | now apply F].
Qed.

(** A series sorted by label whose labels are distinct is strictly sorted. *)
Lemma sort_index_strict {V : Type} (s : list (Z * V)) :
  NoDup (map fst s) ->
  StronglySorted (fun a b => fst a < fst b) (sort_index Z.leb s).
Proof.
  intros ND. unfold sort_index.
  assert (ND' : NoDup (map fst (sort_by (fun a b : Z * V => fst a <=? fst b) s))).
  { eapply Permutation_NoDup;
      [apply Permutation_map, Permutation_sym, sort_by_perm | exact ND]. }
  pose proof (sort_by_sorted (fun a b : Z * V => fst a <=? fst b)) as St.
  specialize (St (fun x y => ltac:(destruct (Z.leb_spec (fst x) (fst y));
                                    destruct (Z.leb_spec (fst y) (fst x));
                                    auto; lia))).
  specialize (St (fun x y z H1 H2 =>
                    proj2 (Z.leb_le _ _)
                          (Z.le_trans _ _ _ (proj1 (Z.leb_le _ _) H1)
                                            (proj1 (Z.leb_le _ _) H2))) s).
  revert St ND'. generalize (sort_by (fun a b : Z * V => fst a <=? fst b) s).
  intros l St. induction St as [|a l St IH F]; intros N; [constructor|].
  cbn [map] in N. inversion N as [|? ? NI N']; subst.
  constructor; [now apply IH|].
  rewrite Forall_forall in F |- *. intros y Iy.
  specialize (F y Iy). apply Z.leb_le in F.
  assert (fst a <> fst y); [|lia].
  intros E. apply NI. rewrite E. now apply in_map.
Qed.

Lemma value_counts_sorted {A : Type} (eqb : A -> A -> bool)
  (col : list (option A)) :
  StronglySorted (fun a b => snd b <= snd a) (value_counts eqb col).
Proof.
  unfold value_counts.
  eapply StronglySorted_weaken;
    [|apply (sort_by_sorted (fun a b : A * Z => snd b <=? snd a))].
  - intros x y _ _ H. now apply Z.leb_le.
  - intros x y. destruct (Z.leb_spec (snd y) (snd x));
      destruct (Z.leb_spec (snd x) (snd y)); auto; lia.
  - intros x y z H1 H2. apply Z.leb_le in H1, H2. apply Z.leb_le. lia.
Qed.

Lemma count_rows_nonneg {A : Type} (eqb : A -> A -> bool)
  (field : Row -> option A) (v : A) (df : DataFrame) :
  0 <= count_rows eqb field v df.
Proof. unfold count_rows. lia. Qed.

(* --------------------------------------------------------------------- *)
(** *** Step 4: the most frequent weather conditions *)

(** X8.  [top_weather] holds at most ten weather conditions, most frequent
    first; each is listed with the number of rows that have it, which is
    positive; and a condition that is not listed has no more rows than any
    listed one. *)
Theorem X8_top_weather_is_the_top_ten (df : DataFrame) :
  (List.length (top_weather df) <= 10)%nat
  /\ StronglySorted (fun a b => snd b <= snd a) (top_weather df)
  /\ NoDup (map fst (top_weather df))
  /\ (forall w c, In (w, c) (top_weather df) ->
        c = rows_with_weather_count df w /\ 0 < c)
  /\ (forall w c w', In (w, c) (top_weather df) ->
        ~ In w' (map fst (top_weather df)) ->
        rows_with_weather_count df w' <= c).
Proof.
  unfold top_weather, head.
  set (vc := value_counts String.eqb (map Weather_Condition (rows df))).
  pose proof (value_counts_sorted String.eqb
                (map Weather_Condition (rows df))) as St. fold vc in St.
  pose proof (value_counts_NoDup String.eqb String.eqb_spec
                (map Weather_Condition (rows df))) as ND. fold vc in ND.
  rewrite <- (firstn_skipn 10 vc) in St, ND.
  assert (In10 : forall e, In e (firstn 10 vc) -> In e vc).
  { intros e I. rewrite <- (firstn_skipn 10 vc). apply in_or_app. now left. }
  split; [apply firstn_le_length | split; [|split; [|split]]].
  - revert St. generalize (firstn 10 vc) (skipn 10 vc).
    intros l1 l2. induction l1 as [|a l1 IH]; cbn [app]; intros St;
      [constructor|].
    apply StronglySorted_inv in St. destruct St as [St F].
    constructor; [now apply IH|].
    rewrite Forall_forall in F |- *. intros y Iy. apply F, in_or_app. now left.
  - rewrite map_app in ND. now apply NoDup_app_remove_r in ND.
  - intros w c I. apply In10 in I. unfold vc in I.
    now apply (value_counts_In String.eqb String.eqb_spec) in I.
  - intros w c w' I NI.
    pose proof (count_rows_nonneg String.eqb Weather_Condition w' df) as P.
    fold (rows_with_weather_count df w') in P.
    assert (Pc : 0 < c).
    { apply In10 in I. unfold vc in I.
      now apply (value_counts_In String.eqb String.eqb_spec) in I. }
    destruct (Z.eq_dec (rows_with_weather_count df w') 0) as [->|NZ]; [lia|].
    assert (I' : In (w', rows_with_weather_count df w') vc).
    { unfold vc. apply (value_counts_In String.eqb String.eqb_spec).
      split; [reflexivity | lia]. }
    rewrite <- (firstn_skipn 10 vc) in I'. apply in_app_or in I'.
    destruct I' as [I'|I'].
    + exfalso. apply NI. change w' with (fst (w', rows_with_weather_count df w')).
      now apply in_map.
    + apply (StronglySorted_app_inv _ _ _ St (w, c) _ I I').
Qed.

Lemma X8_top_weather_witness :
  3 = rows_with_weather_count sample "Rain" /\ 0 < 3.
Proof.
  destruct (X8_top_weather_is_the_top_ten sample) as (_ & _ & _ & H & _).
  apply (H "Rain" 3). vm_compute. tauto.
Defined.

(* --------------------------------------------------------------------- *)
(** *** Step 9: the most common weather condition *)

Lemma step9_weather (df : DataFrame) (agg : TimeAggregates) (w w' : list string)
  (r : Report) :
  step9 df agg w = (inr r, w') ->
  most_common_weather r =
  (if has_column df "Weather_Condition"
   then hd_error (value_counts String.eqb (map Weather_Condition (rows df)))
   else None)
  /\ (has_column df "Weather_Condition" = true ->
      value_counts String.eqb (map Weather_Condition (rows df)) <> []).
Proof.
  unfold step9. intros H.
  apply bind_inr in H. destruct H as (ph & w1 & H1 & H).
  apply bind_inr in H. destruct H as (lh & w2 & H2 & H).
  apply bind_inr in H. destruct H as (pd & w3 & H3 & H).
  apply bind_inr in H. destruct H as (sd & w4 & H4 & H).
  apply bind_inr in H. destruct H as (pp & w5 & H5 & H).
  apply bind_inr in H. destruct H as (we & w6 & H6 & H).
  apply bind_inr in H. destruct H as (u & w7 & H7 & H).
  unfold ret in H. injection H as <- _. cbn [most_common_weather].
  destruct (has_column df "Weather_Condition");
    [destruct (value_counts _ _); [discriminate|] |]; inversion H6;
    split; try reflexivity; intros; discriminate.
Qed.

(** X9.  In a completed run the report's most common weather condition is
    absent exactly when the table has no Weather_Condition column;
    otherwise it is a condition with the number of its rows, and no
    condition has more rows. *)
Theorem X9_most_common_weather (archive : option ZipFile) (a : Analysis) :
  outcome archive = inr a ->
  let df := table a in
  (has_column df "Weather_Condition" = false ->
   most_common_weather (report a) = None)
  /\ (has_column df "Weather_Condition" = true ->
      exists w c,
        most_common_weather (report a) = Some (w, c)
        /\ c = rows_with_weather_count df w /\ 0 < c
        /\ forall w', rows_with_weather_count df w' <= c).
Proof.
  intros O df. apply outcome_inr in O. destruct O as (w1 & w' & S9).
  fold df in S9. destruct (step9_weather _ _ _ _ _ S9) as [W NE].
  split; intros H; rewrite H in W; [exact W|]. specialize (NE H).
  pose proof (value_counts_sorted String.eqb
                (map Weather_Condition (rows df))) as St.
  destruct (value_counts String.eqb (map Weather_Condition (rows df)))
    as [|[w c] rest] eqn:E.
  - now elim NE.
  - exists w, c. split; [exact W|].
    assert (I : In (w, c) (value_counts String.eqb
                             (map Weather_Condition (rows df))))
      by (rewrite E; now left).
    apply (value_counts_In String.eqb String.eqb_spec) in I.
    destruct I as [Ec Pos]. split; [exact Ec | split; [exact Pos|]].
    intros w'0.
    pose proof (count_rows_nonneg String.eqb Weather_Condition w'0 df) as P.
    fold (rows_with_weather_count df w'0) in P.
    destruct (Z.eq_dec (rows_with_weather_count df w'0) 0) as [->|NZ]; [lia|].
    assert (I' : In (w'0, rows_with_weather_count df w'0)
                    (value_counts String.eqb
                       (map Weather_Condition (rows df)))).
    { apply (value_counts_In String.eqb String.eqb_spec).
      split; [reflexivity | lia]. }
    rewrite E in I'. destruct I' as [[= _ <-]|I']; [lia|].
    apply StronglySorted_inv in St. destruct St as [_ F].
    rewrite Forall_forall in F. apply (F _ I').
Qed.

Lemma X9_most_common_weather_witness :
  match outcome (archive_of sample), outcome (archive_of bare_table) with
  | inr a, inr b =>
      (exists w c,
         most_common_weather (report a) = Some (w, c)
         /\ c = rows_with_weather_count (table a) w /\ 0 < c
         /\ forall w', rows_with_weather_count (table a) w' <= c)
      /\ most_common_weather (report b) = None
  | _, _ => False
  end.
Proof.
  run_concretely (archive_of sample). rewrite Hrun.
  destruct (X9_most_common_weather _ _ Hrun) as [_ Ha]. clear Hrun.
  run_concretely (archive_of bare_table). rewrite Hrun.
  destruct (X9_most_common_weather _ _ Hrun) as [Hb _].
  split; [apply Ha | apply Hb]; reflexivity.
Defined.

(* --------------------------------------------------------------------- *)
(** *** Step 5 and Step 3: the severity and weekend counts *)

Lemma dropna_length_present {A : Type} (field : Row -> option A) (l : list Row) :
  List.length (dropna (map field l)) =
  List.length (filter (fun r => match field r with
                                | Some _ => true
                                | None => false
                                end) l).
Proof.
  induction l as [|r t IH]; cbn [map dropna filter]; [reflexivity|].
  destruct (field r); cbn [List.length]; now rewrite IH.
Qed.

(** X10.  [severity_counts] lists the severity levels that occur, in
    strictly ascending order, each with the number of rows of that level;
    rows without a Severity value are in no entry, so the counts add up to
    the number of rows that have one. *)
Theorem X10_severity_counts (df : DataFrame) :
  StronglySorted (fun a b => fst a < fst b) (severity_counts df)
  /\ (forall level c, In (level, c) (severity_counts df) <->
        c = rows_with_severity df level /\ 0 < c)
  /\ total (severity_counts df) = present_rows Severity df.
Proof.
  unfold severity_counts. split; [|split].
  - apply sort_index_strict, (value_counts_NoDup Z.eqb Z.eqb_spec).
  - intros level c. unfold sort_index. rewrite sort_by_In.
    apply (value_counts_In Z.eqb Z.eqb_spec).
  - unfold sort_index.
    rewrite (total_perm _ _ (sort_by_perm _ _)), total_value_counts.
    unfold present_rows. now rewrite dropna_length_present.
Qed.

Lemma weekend_count_eq (df : DataFrame) (k : Z) :
  count_rows Z.eqb (fun r => Some (Is_Weekend r)) k df = count_eq Is_Weekend k df.
Proof. reflexivity. Qed.

(** X11.  [weekend_counts] has an entry for 0 exactly when some row is a
    weekday row and an entry for 1 exactly when some row is a weekend row,
    each with its number of rows, 0 before 1, and nothing else.  So it has
    two entries, one per bar label of the 'Weekday vs Weekend' panel,
    exactly when the table has rows of both kinds. *)
Theorem X11_weekend_counts (df : DataFrame) :
  (forall k c, In (k, c) (weekend_counts df) <->
     c = count_eq Is_Weekend k df /\ 0 < c)
  /\ (forall k c, In (k, c) (weekend_counts df) -> k = 0 \/ k = 1)
  /\ StronglySorted (fun a b => fst a < fst b) (weekend_counts df)
  /\ (List.length (weekend_counts df) <= 2)%nat
  /\ (List.length (weekend_counts df) = 2%nat <->
      0 < count_eq Is_Weekend 0 df /\ 0 < count_eq Is_Weekend 1 df).
Proof.
  assert (In_iff : forall k c, In (k, c) (weekend_counts df) <->
                     c = count_eq Is_Weekend k df /\ 0 < c).
  { intros k c. unfold weekend_counts, sort_index, col_Is_Weekend.
    rewrite sort_by_In, <- weekend_count_eq.
    apply (value_counts_In Z.eqb Z.eqb_spec (fun r => Some (Is_Weekend r))). }
  assert (Keys : forall k c, In (k, c) (weekend_counts df) -> k = 0 \/ k = 1).
  { intros k c I. apply In_iff in I. destruct I as [-> Pos].
    rewrite <- weekend_count_eq in Pos.
    apply (count_rows_pos_exists Z.eqb Z.eqb_spec) in Pos.
    destruct Pos as (r & _ & [= <-]). apply Is_Weekend_spec. }
  assert (St : StronglySorted (fun a b => fst a < fst b) (weekend_counts df)).
  { unfold weekend_counts.
    apply sort_index_strict, (value_counts_NoDup Z.eqb Z.eqb_spec). }
  split; [exact In_iff | split; [exact Keys | split; [exact St|]]].
  destruct (weekend_counts df) as [|[k1 c1] [|[k2 c2] [|[k3 c3] rest]]] eqn:E.
  - split; [cbn; lia|]. split; [discriminate|].
    intros [P0 _]. assert (I : In (0, count_eq Is_Weekend 0 df) [])
      by (apply In_iff; now split). destruct I.
  - split; [cbn; lia|]. split; [discriminate|].
    intros [P0 P1].
    assert (I0 : In (0, count_eq Is_Weekend 0 df) [(k1, c1)])
      by (apply In_iff; now split).
    assert (I1 : In (1, count_eq Is_Weekend 1 df) [(k1, c1)])
      by (apply In_iff; now split).
    destruct I0 as [I0|[]], I1 as [I1|[]]. congruence.
  - split; [cbn; lia|]. split; [intros _ | reflexivity].
    apply StronglySorted_inv in St. destruct St as [_ F].
    rewrite Forall_forall in F. specialize (F (k2, c2) (or_introl eq_refl)).
    cbn in F.
    destruct (Keys k1 c1 (or_introl eq_refl)) as [-> | ->];
      destruct (Keys k2 c2 (or_intror (or_introl eq_refl))) as [-> | ->];
      try lia.
    destruct (proj1 (In_iff 0 c1) (or_introl eq_refl)) as [-> P0].
    destruct (proj1 (In_iff 1 c2) (or_intror (or_introl eq_refl))) as [-> P1].
    now split.
  - exfalso.
    apply StronglySorted_inv in St. destruct St as [St F1].
    apply StronglySorted_inv in St. destruct St as [_ F2].
    rewrite Forall_forall in F1, F2.
    pose proof (F1 (k2, c2) (or_introl eq_refl)) as A12.
    pose proof (F2 (k3, c3) (or_introl eq_refl)) as A23. cbn in A12, A23.
    destruct (Keys k1 c1 (or_introl eq_refl));
      destruct (Keys k2 c2 (or_intror (or_introl eq_refl)));
      destruct (Keys k3 c3 (or_intror (or_intror (or_introl eq_refl))));
      lia.
Qed.

Lemma X11_weekend_counts_witness :
  (List.length (weekend_counts sample) = 2%nat)
  /\ (0 = 0 \/ 0 = 1).
Proof.
  destruct (X11_weekend_counts sample) as (_ & K & _ & _ & L).
  split.
  - apply L. vm_compute. split; reflexivity.
  - apply (K 0 5). vm_compute. tauto.
Defined.

Lemma X10_severity_counts_witness :
  In (2, 3) (severity_counts sample).
Proof.
  apply (proj1 (proj2 (X10_severity_counts sample))). vm_compute.
  split; reflexivity.
Defined.

(* --------------------------------------------------------------------- *)
(** *** Step 9: how ties are broken *)

Section FirstFacts.
Context {A : Type}.

Lemma argmax_from_first (s : list (A * Z)) (best : A * Z) :
  exists pre post,
    best :: s = (pre ++ argmax_from best s :: post)%list
    /\ forall x, In x pre -> snd x < snd (argmax_from best s).
Proof.
  revert best. induction s as [|kv t IH]; intros best; cbn [argmax_from].
  - exists [], []. split; [reflexivity | intros x []].
  - destruct (Z.ltb_spec (snd best) (snd kv)) as [L|L].
    + destruct (IH kv) as (pre & post & E & F).
      exists (best :: pre), post. split; [cbn; now rewrite E|].
      intros x [<-|X]; [|now apply F].
      destruct (argmax_from_spec t kv) as (_ & M & _).
      specialize (M kv (or_introl eq_refl)). lia.
    + destruct (IH best) as (pre & post & E & F).
      destruct pre as [|b pre].
      * cbn in E. injection E as E1 E2.
        exists [], (kv :: post). split; [cbn; now rewrite <- E1, E2 | intros x []].
      * cbn in E. injection E as <- E2.
        exists (best :: kv :: pre), post.
        split; [cbn [app]; f_equal; f_equal; exact E2|].
        pose proof (F best (or_introl eq_refl)) as Fb.
        intros x [<-|[<-|X]]; [exact Fb | lia | apply F; now right].
Qed.

Lemma argmin_from_first (s : list (A * Z)) (best : A * Z) :
  exists pre post,
    best :: s = (pre ++ argmin_from best s :: post)%list
    /\ forall x, In x pre -> snd (argmin_from best s) < snd x.
Proof.
  revert best. induction s as [|kv t IH]; intros best; cbn [argmin_from].
  - exists [], []. split; [reflexivity | intros x []].
  - destruct (Z.ltb_spec (snd kv) (snd best)) as [L|L].
    + destruct (IH kv) as (pre & post & E & F).
      exists (best :: pre), post. split; [cbn; now rewrite E|].
      intros x [<-|X]; [|now apply F].
      destruct (argmin_from_spec t kv) as (_ & M & _).
      specialize (M kv (or_introl eq_refl)). lia.
    + destruct (IH best) as (pre & post & E & F).
      destruct pre as [|b pre].
      * cbn in E. injection E as E1 E2.
        exists [], (kv :: post). split; [cbn; now rewrite <- E1, E2 | intros x []].
      * cbn in E. injection E as <- E2.
        exists (best :: kv :: pre), post.
        split; [cbn [app]; f_equal; f_equal; exact E2|].
        pose proof (F best (or_introl eq_refl)) as Fb.
        intros x [<-|[<-|X]]; [exact Fb | lia | apply F; now right].
Qed.

(** [idxmax] picks the first entry that holds the maximum. *)
Lemma idxmax_first (s : list (A * Z)) (k : A) :
  idxmax s = Some k ->
  exists v pre post,
    s = (pre ++ (k, v) :: post)%list
    /\ forall x, In x pre -> snd x < v.
Proof.
  destruct s as [|kv t]; cbn [idxmax]; [discriminate|]. intros [= <-].
  destruct (argmax_from_first t kv) as (pre & post & E & F).
  exists (snd (argmax_from kv t)), pre, post.
  now rewrite <- surjective_pairing.
Qed.

Lemma idxmin_first (s : list (A * Z)) (k : A) :
  idxmin s = Some k ->
  exists v pre post,
    s = (pre ++ (k, v) :: post)%list
    /\ forall x, In x pre -> v < snd x.
Proof.
  destruct s as [|kv t]; cbn [idxmin]; [discriminate|]. intros [= <-].
  destruct (argmin_from_first t kv) as (pre & post & E & F).
  exists (snd (argmin_from kv t)), pre, post.
  now rewrite <- surjective_pairing.
Qed.

Lemma split_unique {V : Type} (l1 l2 l1' l2' : list (A * V)) (k : A) (v v' : V) :
  NoDup (map fst (l1 ++ (k, v) :: l2)) ->
  (l1 ++ (k, v) :: l2 = l1' ++ (k, v') :: l2')%list ->
  l1 = l1'.
Proof.
  revert l1'. induction l1 as [|a l1 IH]; intros l1' ND E.
  - destruct l1' as [|a' l1']; [reflexivity|].
    cbn [app map fst] in E, ND. injection E as _ E. exfalso.
    apply NoDup_cons_iff in ND. destruct ND as [NI _]. apply NI.
    rewrite E, map_app. apply in_or_app. right. now left.
  - destruct l1' as [|a' l1'].
    + cbn [app map] in E, ND. injection E as Ea E. exfalso.
      apply NoDup_cons_iff in ND. destruct ND as [NI _]. apply NI.
      rewrite Ea, map_app. apply in_or_app. right. now left.
    + cbn [app map] in E, ND. injection E as <- E. f_equal.
      apply NoDup_cons_iff in ND. destruct ND as [_ ND]. now apply IH.
Qed.
End FirstFacts.

Lemma StronglySorted_app_r {X : Type} (R : X -> X -> Prop) (l1 l2 : list X) :
  StronglySorted R (l1 ++ l2) -> StronglySorted R l2.
Proof.
  induction l1 as [|a l1 IH]; cbn [app]; [tauto|].
  intros St. apply StronglySorted_inv in St. now apply IH.
Qed.

Lemma skipna_app {A V : Type} (s1 s2 : list (A * option V)) :
  skipna (s1 ++ s2) = (skipna s1 ++ skipna s2)%list.
Proof.
  induction s1 as [|[k [v|]] t IH]; cbn [app skipna]; now rewrite ?IH.
Qed.

(** In a series reindexed over [order], the labels of [order] that come
    before the one picked by [idxmax] hold smaller values or none. *)
Lemma reindex_idxmax_first {A : Type} (eqb : A -> A -> bool)
  (eqb_spec : forall x y, reflect (x = y) (eqb x y))
  (order : list A) (s : list (A * Z)) (k : A) :
  NoDup order ->
  idxmax (skipna (reindex eqb order s)) = Some k ->
  exists v o1 o2,
    order = (o1 ++ k :: o2)%list /\ lookup eqb k s = Some v
    /\ forall d c, In d o1 -> lookup eqb d s = Some c -> c < v.
Proof.
  intros ND Im. apply idxmax_first in Im.
  destruct Im as (v & pre & post & E & F).
  assert (I : In (k, v) (skipna (reindex eqb order s)))
    by (rewrite E; apply in_or_app; right; now left).
  apply skipna_In in I. apply reindex_In in I. destruct I as [Io L].
  apply in_split in Io. destruct Io as (o1 & o2 & ->).
  exists v, o1, o2. split; [reflexivity | split; [now symmetry|]].
  intros d c Id Ld.
  pose proof (reindex_keys eqb (o1 ++ k :: o2) s ND) as NK.
  unfold reindex in E, NK. rewrite map_app, skipna_app in E, NK.
  cbn [map skipna] in E, NK. rewrite <- L in E, NK.
  apply split_unique in E; [|exact NK].
  apply (F (d, c)). rewrite <- E. apply skipna_In, in_map_iff.
  exists d. split; [now rewrite Ld | exact Id].
Qed.

Lemma reindex_idxmin_first {A : Type} (eqb : A -> A -> bool)
  (eqb_spec : forall x y, reflect (x = y) (eqb x y))
  (order : list A) (s : list (A * Z)) (k : A) :
  NoDup order ->
  idxmin (skipna (reindex eqb order s)) = Some k ->
  exists v o1 o2,
    order = (o1 ++ k :: o2)%list /\ lookup eqb k s = Some v
    /\ forall d c, In d o1 -> lookup eqb d s = Some c -> v < c.
Proof.
  intros ND Im. apply idxmin_first in Im.
  destruct Im as (v & pre & post & E & F).
  assert (I : In (k, v) (skipna (reindex eqb order s)))
    by (rewrite E; apply in_or_app; right; now left).
  apply skipna_In in I. apply reindex_In in I. destruct I as [Io L].
  apply in_split in Io. destruct Io as (o1 & o2 & ->).
  exists v, o1, o2. split; [reflexivity | split; [now symmetry|]].
  intros d c Id Ld.
  pose proof (reindex_keys eqb (o1 ++ k :: o2) s ND) as NK.
  unfold reindex in E, NK. rewrite map_app, skipna_app in E, NK.
  cbn [map skipna] in E, NK. rewrite <- L in E, NK.
  apply split_unique in E; [|exact NK].
  apply (F (d, c)). rewrite <- E. apply skipna_In, in_map_iff.
  exists d. split; [now rewrite Ld | exact Id].
Qed.

Lemma hour_counts_strict (df : DataFrame) :
  StronglySorted (fun a b => fst a < fst b) (hour_counts df).
Proof.
  unfold hour_counts.
  apply sort_index_strict, (value_counts_NoDup Z.eqb Z.eqb_spec).
Qed.

(** X12.  Ties are broken towards the start of the index.  In a completed
    run the peak hour is the smallest hour that has the maximal count and
    the lowest hour the smallest hour that has the minimal count; the most
    dangerous day, the safest day and the most dangerous period are the
    first in the order Monday..Sunday (Morning..Night) among those that
    reach the extreme count: every day before the most dangerous one has
    strictly fewer rows, and every day before the safest one has strictly
    more rows or none. *)
Theorem X12_ties_go_to_the_earliest (archive : option ZipFile) (a : Analysis) :
  outcome archive = inr a ->
  let df := table a in
  let r := report a in
  (forall h, rows_with_hour df h = rows_with_hour df (peak_hour r) ->
             peak_hour r <= h)
  /\ (forall h, rows_with_hour df h = rows_with_hour df (lowest_hour r) ->
                lowest_hour r <= h)
  /\ (exists o1 o2,
        day_order = (o1 ++ peak_day r :: o2)%list
        /\ forall d, In d o1 ->
             rows_with_day df d < rows_with_day df (peak_day r))
  /\ (exists o1 o2,
        day_order = (o1 ++ safest_day r :: o2)%list
        /\ forall d, In d o1 -> 0 < rows_with_day df d ->
             rows_with_day df (safest_day r) < rows_with_day df d)
  /\ (exists o1 o2,
        period_order = (o1 ++ peak_period r :: o2)%list
        /\ forall p, In p o1 ->
             rows_with_period df p < rows_with_period df (peak_period r)).
Proof.
  intros O df r. apply outcome_inr in O. destruct O as (w1 & w' & S9).
  apply step9_inr in S9.
  cbn [agg_hour_counts agg_day_counts agg_period_counts] in S9.
  fold df in S9. fold r in S9.
  destruct S9 as (PH & _ & LH & _ & PD & _ & SD & _ & PP & _).
  pose proof (hour_counts_strict df) as St.
  split; [|split; [|split; [|split]]].
  - apply idxmax_first in PH. destruct PH as (v & pre & post & E & F).
    assert (I : In (peak_hour r, v) (hour_counts df))
      by (rewrite E; apply in_or_app; right; now left).
    apply hour_counts_In in I. destruct I as [Ev Pv].
    intros h Eh. rewrite <- Ev in Eh.
    assert (Ih : In (h, v) (hour_counts df))
      by (apply hour_counts_In; split; [now symmetry | exact Pv]).
    rewrite E in Ih, St. apply in_app_or in Ih. destruct Ih as [Ih|[Ih|Ih]].
    + specialize (F _ Ih). cbn in F. lia.
    + injection Ih as ->. lia.
    + apply StronglySorted_app_r, StronglySorted_inv in St.
      destruct St as [_ Fa]. rewrite Forall_forall in Fa.
      specialize (Fa _ Ih). cbn in Fa. lia.
  - apply idxmin_first in LH. destruct LH as (v & pre & post & E & F).
    assert (I : In (lowest_hour r, v) (hour_counts df))
      by (rewrite E; apply in_or_app; right; now left).
    apply hour_counts_In in I. destruct I as [Ev Pv].
    intros h Eh. rewrite <- Ev in Eh.
    assert (Ih : In (h, v) (hour_counts df))
      by (apply hour_counts_In; split; [now symmetry | exact Pv]).
    rewrite E in Ih, St. apply in_app_or in Ih. destruct Ih as [Ih|[Ih|Ih]].
    + specialize (F _ Ih). cbn in F. lia.
    + injection Ih as ->. lia.
    + apply StronglySorted_app_r, StronglySorted_inv in St.
      destruct St as [_ Fa]. rewrite Forall_forall in Fa.
      specialize (Fa _ Ih). cbn in Fa. lia.
  - unfold day_counts in PD.
    apply (reindex_idxmax_first String.eqb String.eqb_spec) in PD;
      [|exact day_order_NoDup].
    destruct PD as (v & o1 & o2 & E & L & F). exists o1, o2.
    split; [exact E|]. intros d Id.
    unfold col_Day_of_Week in L, F.
    rewrite (value_counts_rows String.eqb String.eqb_spec) in L.
    fold (rows_with_day df (peak_day r)) in L.
    destruct (Z.eqb_spec (rows_with_day df (peak_day r)) 0); [discriminate|].
    injection L as <-.
    pose proof (count_rows_nonneg String.eqb Day_of_Week (peak_day r) df) as P1.
    pose proof (count_rows_nonneg String.eqb Day_of_Week d df) as P2.
    fold (rows_with_day df (peak_day r)) in P1. fold (rows_with_day df d) in P2.
    destruct (Z.eq_dec (rows_with_day df d) 0) as [Z0|NZ]; [lia|].
    apply (F d _ Id).
    rewrite (value_counts_rows String.eqb String.eqb_spec).
    fold (rows_with_day df d).
    now destruct (Z.eqb_spec (rows_with_day df d) 0).
  - unfold day_counts in SD.
    apply (reindex_idxmin_first String.eqb String.eqb_spec) in SD;
      [|exact day_order_NoDup].
    destruct SD as (v & o1 & o2 & E & L & F). exists o1, o2.
    split; [exact E|]. intros d Id Pd.
    unfold col_Day_of_Week in L, F.
    rewrite (value_counts_rows String.eqb String.eqb_spec) in L.
    fold (rows_with_day df (safest_day r)) in L.
    destruct (Z.eqb_spec (rows_with_day df (safest_day r)) 0); [discriminate|].
    injection L as <-.
    apply (F d _ Id).
    rewrite (value_counts_rows String.eqb String.eqb_spec).
    fold (rows_with_day df d).
    destruct (Z.eqb_spec (rows_with_day df d) 0); [lia | reflexivity].
  - unfold period_counts in PP.
    apply (reindex_idxmax_first String.eqb String.eqb_spec) in PP;
      [|exact period_order_NoDup].
    destruct PP as (v & o1 & o2 & E & L & F). exists o1, o2.
    split; [exact E|]. intros p Ip.
    unfold col_Time_Period in L, F.
    rewrite (value_counts_rows String.eqb String.eqb_spec
               (fun r => Some (Time_Period r))) in L.
    fold (rows_with_period df (peak_period r)) in L.
    destruct (Z.eqb_spec (rows_with_period df (peak_period r)) 0);
      [discriminate|].
    injection L as <-.
    pose proof (count_rows_nonneg String.eqb (fun r => Some (Time_Period r))
                  (peak_period r) df) as P1.
    pose proof (count_rows_nonneg String.eqb (fun r => Some (Time_Period r))
                  p df) as P2.
    fold (rows_with_period df (peak_period r)) in P1.
    fold (rows_with_period df p) in P2.
    destruct (Z.eq_dec (rows_with_period df p) 0) as [Z0|NZ]; [lia|].
    apply (F p _ Ip).
    rewrite (value_counts_rows String.eqb String.eqb_spec
               (fun r => Some (Time_Period r))).
    fold (rows_with_period df p).
    now destruct (Z.eqb_spec (rows_with_period df p) 0).
Qed.

Lemma X12_ties_witness :
  match outcome (archive_of bare_table) with
  | inr a => peak_hour (report a) <= 23 /\ lowest_hour (report a) <= 23
  | inl _ => False
  end.
Proof.
  run_concretely (archive_of bare_table). rewrite Hrun.
  destruct (X12_ties_go_to_the_earliest _ _ Hrun) as (Hp & Hl & _).
  split; [apply Hp | apply Hl]; vm_compute; reflexivity.
Defined.

(* --------------------------------------------------------------------- *)
(** *** Step 7: the histograms *)

(** X13.  When Step 7 runs it draws the histograms of the first four
    environmental columns present, in the order of [env_cols], and at
    least two of them; so Pressure(in), the last of the five, gets a
    histogram exactly when it is present and one of the other four is
    missing.  Step 7 is skipped exactly when fewer than two environmental
    columns are present. *)
Theorem X13_step7_histograms (df : DataFrame) (w : list string) :
  (forall cols w',
      step7 df w = (inr (Some cols), w') ->
      cols = firstn 4 (available_env df)
      /\ (2 <= List.length cols <= 4)%nat
      /\ (forall c, In c cols -> In c env_cols /\ has_column df c = true)
      /\ (In "Pressure(in)" cols <->
          has_column df "Pressure(in)" = true
          /\ (List.length (available_env df) <= 4)%nat)
      /\ w' = (w ++ ["environmental_factors.png"])%list)
  /\ (step7 df w = (inr None, w) <->
      (List.length (available_env df) < 2)%nat).
Proof.
  unfold step7. split.
  - intros cols w'.
    destruct (Nat.leb_spec 2 (Datatypes.length (available_env df))) as [L|L];
      [|discriminate].
    remember (firstn 4 (available_env df)) as cs eqn:Ecs.
    cbn [bind write_file ret]. intros [= <- <-]. rewrite Ecs. clear Ecs cs.
    split; [reflexivity | split; [|split; [|split; [|reflexivity]]]].
    + rewrite length_firstn. lia.
    + intros c I.
      assert (I' : In c (available_env df)).
      { rewrite <- (firstn_skipn 4 (available_env df)).
        apply in_or_app. now left. }
      unfold available_env in I'. now apply filter_In in I'.
    + revert L. unfold available_env, env_cols. cbn [filter].
      destruct (has_column df "Temperature(F)");
        destruct (has_column df "Humidity(%)");
        destruct (has_column df "Visibility(mi)");
        destruct (has_column df "Wind_Speed(mph)");
        destruct (has_column df "Pressure(in)");
        cbn [firstn List.length In]; intros L;
        (split; [intros H | intros [H1 H2]]);
        repeat match goal with
          | H : _ \/ _ |- _ => destruct H
          | H : False |- _ => destruct H
          end;
        try discriminate; try lia; auto 10.
  - destruct (Nat.leb_spec 2 (Datatypes.length (available_env df))) as [L|L].
    + cbn [bind write_file ret]. split; [discriminate | lia].
    + split; [intros _; exact L | reflexivity].
Qed.

Lemma X13_step7_witness :
  ~ In "Pressure(in)" (firstn 4 (available_env sample))
  /\ (List.length (available_env bare_table) < 2)%nat.
Proof.
  destruct (X13_step7_histograms sample []) as [H _].
  destruct (H (firstn 4 (available_env sample))
              ["environmental_factors.png"] eq_refl)
    as (_ & _ & _ & P & _).
  split.
  - intros I. apply P in I. destruct I as [_ L]. vm_compute in L. lia.
  - apply (X13_step7_histograms bare_table []). reflexivity.
Defined.

(* --------------------------------------------------------------------- *)
(** *** When the run reaches the end *)

Lemma count_rows_pos_of_row {A : Type} (eqb : A -> A -> bool)
  (eqb_spec : forall x y, reflect (x = y) (eqb x y))
  (field : Row -> option A) (v : A) (df : DataFrame) (r : Row) :
  In r (rows df) -> field r = Some v -> 0 < count_rows eqb field v df.
Proof.
  intros I E. unfold count_rows.
  assert (F : In r (filter (fun r => match field r with
                                     | Some x => eqb x v
                                     | None => false
                                     end) (rows df))).
  { apply filter_In. split; [exact I|]. rewrite E.
    now destruct (eqb_spec v v). }
  destruct (filter _ (rows df)); [destruct F | cbn [List.length]; lia].
Qed.

Lemma some_parsed_false (df : DataFrame) :
  some_parsed df = false -> hour_counts df = [].
Proof.
  intros N. destruct (hour_counts df) as [|[h v] t] eqn:E; [reflexivity|].
  assert (I : In (h, v) (hour_counts df)) by (rewrite E; now left).
  apply hour_counts_In in I. destruct I as [-> P].
  apply (count_rows_pos_exists Z.eqb Z.eqb_spec) in P.
  destruct P as (r & I & Er). unfold Hour in Er.
  destruct (Start_Time r) as [ts|] eqn:S; [|discriminate].
  assert (T : some_parsed df = true).
  { unfold some_parsed. apply existsb_exists. exists r. now rewrite S. }
  congruence.
Qed.

Lemma some_parsed_true (df : DataFrame) :
  some_parsed df = true ->
  hour_counts df <> []
  /\ skipna (day_counts df) <> []
  /\ skipna (period_counts df) <> [].
Proof.
  unfold some_parsed. intros T. apply existsb_exists in T.
  destruct T as (r & I & S). destruct (Start_Time r) as [ts|] eqn:E;
    [clear S | discriminate].
  split; [|split].
  - assert (X : In (ts_hour ts, rows_with_hour df (ts_hour ts)) (hour_counts df)).
    { apply hour_counts_In. split; [reflexivity|].
      apply (count_rows_pos_of_row Z.eqb Z.eqb_spec Hour _ df r I).
      unfold Hour. now rewrite E. }
    intros N. now rewrite N in X.
  - assert (X : In (ts_day_name ts, rows_with_day df (ts_day_name ts))
                   (skipna (day_counts df))).
    { apply day_counts_In. split; [apply day_name_in_order|].
      split; [reflexivity|].
      apply (count_rows_pos_of_row String.eqb String.eqb_spec Day_of_Week
               _ df r I).
      unfold Day_of_Week. now rewrite E. }
    intros N. now rewrite N in X.
  - assert (X : In (Time_Period r, rows_with_period df (Time_Period r))
                   (skipna (period_counts df))).
    { apply period_counts_In. split; [apply time_period_in_order|].
      split; [reflexivity|].
      now apply (count_rows_pos_of_row String.eqb String.eqb_spec
                   (fun r => Some (Time_Period r)) _ df r I). }
    intros N. now rewrite N in X.
Qed.

Lemma some_weather_iff (df : DataFrame) :
  some_weather df = true <->
  value_counts String.eqb (map Weather_Condition (rows df)) <> [].
Proof.
  split.
  - unfold some_weather. intros T. apply existsb_exists in T.
    destruct T as (r & I & S).
    destruct (Weather_Condition r) as [x|] eqn:E; [clear S | discriminate].
    assert (X : In (x, count_rows String.eqb Weather_Condition x df)
                   (value_counts String.eqb (map Weather_Condition (rows df)))).
    { apply (value_counts_In String.eqb String.eqb_spec). split; [reflexivity|].
      now apply (count_rows_pos_of_row String.eqb String.eqb_spec
                   Weather_Condition _ df r I). }
    intros N. now rewrite N in X.
  - intros NE.
    destruct (value_counts String.eqb (map Weather_Condition (rows df)))
      as [|[x c] t] eqn:E; [now elim NE|].
    assert (I : In (x, c) (value_counts String.eqb
                             (map Weather_Condition (rows df))))
      by (rewrite E; now left).
    apply (value_counts_In String.eqb String.eqb_spec) in I.
    destruct I as [-> P].
    apply (count_rows_pos_exists String.eqb String.eqb_spec) in P.
    destruct P as (r & I & Er).
    unfold some_weather. apply existsb_exists. exists r. now rewrite Er.
Qed.

Lemma idxmax_nonempty {A : Type} (s : list (A * Z)) :
  s <> [] -> exists k, idxmax s = Some k.
Proof. destruct s; [congruence | intros _; cbn; eauto]. Qed.

Lemma idxmin_nonempty {A : Type} (s : list (A * Z)) :
  s <> [] -> exists k, idxmin s = Some k.
Proof. destruct s; [congruence | intros _; cbn; eauto]. Qed.

(** The three ways Step 9 ends, on the aggregates of the table. *)
Lemma step9_cases (df : DataFrame) (w : list string) :
  let agg := mkTimeAgg (hour_counts df) (day_counts df) (period_counts df)
                       (weekend_counts df) in
  (some_parsed df = false -> step9 df agg w = (inl empty_argmax, w))
  /\ (some_parsed df = true ->
      has_column df "Weather_Condition" = true ->
      some_weather df = false ->
      step9 df agg w =
      (inl (IndexError "single positional indexer is out-of-bounds"), w))
  /\ (some_parsed df = true ->
      (has_column df "Weather_Condition" = true -> some_weather df = true) ->
      exists r, step9 df agg w =
                (inr r, (w ++ ["analysis_summary.txt"])%list)).
Proof.
  intros agg. unfold step9, agg. cbn [agg_hour_counts agg_day_counts
                                        agg_period_counts].
  split; [|split].
  - intros N. rewrite (some_parsed_false df N). reflexivity.
  - intros T WC NW. destruct (some_parsed_true df T) as (H & D & P).
    destruct (idxmax_nonempty _ H) as (ph & ->).
    destruct (idxmin_nonempty _ H) as (lh & ->).
    destruct (idxmax_nonempty _ D) as (pd & ->).
    destruct (idxmin_nonempty _ D) as (sd & ->).
    destruct (idxmax_nonempty _ P) as (pp & ->).
    cbn [bind from_option ret]. unfold bind. rewrite WC.
    destruct (value_counts String.eqb (map Weather_Condition (rows df)))
      eqn:E; [reflexivity|].
    assert (X : some_weather df = true)
      by (apply some_weather_iff; rewrite E; discriminate).
    congruence.
  - intros T W. destruct (some_parsed_true df T) as (H & D & P).
    destruct (idxmax_nonempty _ H) as (ph & ->).
    destruct (idxmin_nonempty _ H) as (lh & ->).
    destruct (idxmax_nonempty _ D) as (pd & ->).
    destruct (idxmin_nonempty _ D) as (sd & ->).
    destruct (idxmax_nonempty _ P) as (pp & ->).
    cbn [bind from_option ret]. unfold bind.
    destruct (has_column df "Weather_Condition").
    + specialize (W eq_refl). apply some_weather_iff in W.
      destruct (value_counts String.eqb (map Weather_Condition (rows df)));
        [now elim W|].
      cbn [ret write_file]. eexists. reflexivity.
    + cbn [ret write_file]. eexists. reflexivity.
Qed.

Lemma analyse_to_step9 (csv_file : string) (df0 : DataFrame) (w : list string) :
  has_column df0 "Start_Time" = true ->
  has_column df0 "Severity" = true ->
  let df := with_time_features df0 in
  let agg := mkTimeAgg (hour_counts df) (day_counts df) (period_counts df)
                       (weekend_counts df) in
  exists s4 s5 s6 s7 s8,
    analyse csv_file df0 w =
    bind (step9 df agg)
         (fun rep => ret (mkAnalysis csv_file df agg s4 s5 s6 s7 s8 rep))
         (w ++ guarded_charts df0)%list.
Proof.
  intros ST SV df agg. unfold analyse.
  erewrite bind_eq;
    [|unfold step2, require_column; rewrite ST; reflexivity].
  fold df.
  assert (SV' : has_column df "Severity" = true)
    by (unfold df; now rewrite has_column_kept).
  erewrite bind_eq;
    [|unfold step3, require_column; rewrite SV'; reflexivity].
  fold agg.
  rewrite <- (guarded_charts_kept df0). fold df. unfold guarded_charts.
  unfold step4, step5, step6, step7, step8, correlation_columns.
  rewrite SV'.
  destruct (has_column df "Weather_Condition");
    destruct (has_column df "Start_Lat" && has_column df "Start_Lng");
    destruct (2 <=? Datatypes.length (available_env df))%nat;
    destruct (2 <=? Datatypes.length (available_numeric df))%nat;
    repeat (erewrite bind_eq; [|reflexivity]);
    do 5 eexists; rewrite <- ?app_assoc; cbn [app]; reflexivity.
Qed.

Lemma some_parsed_kept (df : DataFrame) :
  some_parsed (with_time_features df) = some_parsed df.
Proof. unfold some_parsed. now rewrite with_time_features_rows. Qed.

Lemma some_weather_kept (df : DataFrame) :
  some_weather (with_time_features df) = some_weather df.
Proof. unfold some_weather. now rewrite with_time_features_rows. Qed.

(** How a run ends once a table with the Start_Time and Severity columns
    has been loaded. *)
Lemma run_cases (archive : option ZipFile) (csv_file : string)
  (df0 : DataFrame) (w : list string) :
  step1 archive [] = (inr (csv_file, df0), w) ->
  has_column df0 "Start_Time" = true ->
  has_column df0 "Severity" = true ->
  (some_parsed df0 = false ->
   run archive = (inl empty_argmax, csv_file :: guarded_charts df0))
  /\ (some_parsed df0 = true ->
      has_column df0 "Weather_Condition" = true ->
      some_weather df0 = false ->
      run archive =
      (inl (IndexError "single positional indexer is out-of-bounds"),
       csv_file :: guarded_charts df0))
  /\ (some_parsed df0 = true ->
      (has_column df0 "Weather_Condition" = true -> some_weather df0 = true) ->
      exists a,
        run archive =
        (inr a, (csv_file :: guarded_charts df0 ++ ["analysis_summary.txt"])%list)
        /\ table a = with_time_features df0
        /\ loaded_from a = csv_file).
Proof.
  intros L ST SV. destruct (run_after_load _ _ _ _ L) as (_ & _ & ->).
  destruct (analyse_to_step9 csv_file df0 [csv_file] ST SV)
    as (s4 & s5 & s6 & s7 & s8 & ->).
  cbn [app].
  destruct (step9_cases (with_time_features df0)
              (csv_file :: guarded_charts df0)) as (N & X & Y).
  rewrite some_parsed_kept in N, X, Y. rewrite some_weather_kept in X, Y.
  rewrite has_column_kept in X, Y by reflexivity.
  split; [|split].
  - intros P. unfold bind. now rewrite (N P).
  - intros P WC NW. unfold bind. now rewrite (X P WC NW).
  - intros P W. destruct (Y P W) as (r & E). unfold bind. rewrite E.
    eexists. cbn [ret app]. split; [reflexivity | split; reflexivity].
Qed.

Lemma summary_not_a_chart (df : DataFrame) :
  ~ In "analysis_summary.txt" (guarded_charts df).
Proof.
  intros I. rewrite <- guarded_charts_are_charts in I.
  apply filter_In in I. destruct I as [_ E]. discriminate E.
Qed.

Lemma summary_not_the_csv (csv_file : string) :
  endswith csv_file ".csv" = true -> "analysis_summary.txt" <> csv_file.
Proof. intros E <-. discriminate E. Qed.



Lemma step1_total (archive : option ZipFile) :
  step1 archive [] = (inl SystemExit, [])
  \/ exists csv_file df0,
       step1 archive [] = (inr (csv_file, df0), [csv_file]).
Proof.
  unfold step1. destruct archive as [zip_ref|]; [|now left].
  destruct (csv_files (namelist zip_ref)) as [|csv_file rest]; [now left|].
  right. eexists. eexists. reflexivity.
Qed.

(** X17.  The report file is written exactly by the runs that reach the
    end, and it is then the last file written: a run that stops with an
    exception, in whichever step, leaves no analysis_summary.txt. *)
Theorem X17_report_only_on_completion (archive : option ZipFile) :
  (In "analysis_summary.txt" (files_written archive) <->
   exists a, outcome archive = inr a)
  /\ (forall a, outcome archive = inr a ->
      exists before,
        files_written archive = (before ++ ["analysis_summary.txt"])%list
        /\ ~ In "analysis_summary.txt" before).
Proof.
  destruct (step1_total archive) as [E|(csv_file & df0 & L)].
  - assert (R : run archive = (inl SystemExit, []))
      by (unfold run, main; now apply bind_raise).
    unfold files_written, outcome. rewrite R. cbn [fst snd].
    split; [split; [intros [] | intros [a O]; discriminate O]
           | intros a O; discriminate O].
  - destruct (run_after_load _ _ _ _ L) as (_ & C & _).
    assert (NoS : forall tail e,
              run archive = (inl e, csv_file :: tail) ->
              ~ In "analysis_summary.txt" tail ->
              (In "analysis_summary.txt" (files_written archive) <->
               exists a, outcome archive = inr a)
              /\ (forall a, outcome archive = inr a ->
                  exists before,
                    files_written archive =
                    (before ++ ["analysis_summary.txt"])%list
                    /\ ~ In "analysis_summary.txt" before)).
    { intros tail e R NI. unfold files_written, outcome. rewrite R.
      cbn [fst snd]. split; [split|].
      - intros [X|X]; [now elim (summary_not_the_csv _ C) | contradiction].
      - intros [a O]. discriminate O.
      - intros a O. discriminate O. }
    destruct (has_column df0 "Start_Time") eqn:ST.
    2:{ apply (NoS [] _ (missing_start_time_raises _ _ _ _ L ST)).
        intros []. }
    destruct (has_column df0 "Severity") eqn:SV.
    2:{ apply (NoS [] _ (missing_severity_raises _ _ _ _ L ST SV)).
        intros []. }
    destruct (run_cases _ _ _ _ L ST SV) as (R1 & R2 & R3).
    destruct (some_parsed df0) eqn:P.
    2:{ apply (NoS _ _ (R1 eq_refl)), summary_not_a_chart. }
    destruct (has_column df0 "Weather_Condition") eqn:WC;
      [destruct (some_weather df0) eqn:SW|].
    + destruct (R3 eq_refl (fun _ => eq_refl)) as (a & R & _).
      unfold files_written, outcome. rewrite R. cbn [fst snd].
      split; [split|].
      * intros _. now exists a.
      * intros _. right. apply in_or_app. right. now left.
      * intros a' _. exists (csv_file :: guarded_charts df0).
        split; [reflexivity|].
        intros [X|X]; [now elim (summary_not_the_csv _ C)
                      | now elim (summary_not_a_chart df0)].
    + apply (NoS _ _ (R2 eq_refl eq_refl eq_refl)), summary_not_a_chart.
    + destruct (R3 eq_refl (fun H => ltac:(discriminate H))) as (a & R & _).
      unfold files_written, outcome. rewrite R. cbn [fst snd].
      split; [split|].
      * intros _. now exists a.
      * intros _. right. apply in_or_app. right. now left.
      * intros a' _. exists (csv_file :: guarded_charts df0).
        split; [reflexivity|].
        intros [X|X]; [now elim (summary_not_the_csv _ C)
                      | now elim (summary_not_a_chart df0)].
Qed.

Lemma X17_report_only_on_completion_witness :
  In "analysis_summary.txt" (files_written (archive_of sample))
  /\ ~ (exists a, outcome (archive_of no_severity) = inr a).
Proof.
  split.
  - apply (proj1 (X17_report_only_on_completion (archive_of sample))).
    run_concretely (archive_of sample). eexists. exact Hrun.
  - intros H.
    apply (proj1 (X17_report_only_on_completion (archive_of no_severity))) in H.
    vm_compute in H. intuition discriminate.
Defined.

(* --------------------------------------------------------------------- *)
(** *** Step 4: the grouped means *)

(** X18.  The grouped mean has exactly one entry per weather condition
    that occurs in the table, rows without a condition belonging to no
    group; a condition whose rows all lack a Severity value gets the mean
    NaN; and [weather_severity] keeps at most ten of the entries. *)
Theorem X18_weather_groups (df : DataFrame) :
  NoDup (map fst (weather_mean df))
  /\ (forall w, In w (map fst (weather_mean df)) <->
                rows_with_weather df w <> [])
  /\ (forall w, rows_with_weather df w <> [] ->
        (forall r, In r (rows_with_weather df w) -> Severity r = None) ->
        lookup String.eqb w (weather_mean df) = Some PrimFloat.nan)
  /\ (List.length (weather_severity df) <= 10)%nat
  /\ (forall e, In e (weather_severity df) -> In e (weather_mean df)).
Proof.
  split; [apply weather_mean_NoDup | split; [|split; [|split]]].
  - intros w. rewrite <- weather_has_key.
    pose proof (weather_mean_lookup df w) as L. split.
    + intros I. destruct (has_key _ _ _); [reflexivity|].
      apply (lookup_None String.eqb String.eqb_spec) in L. contradiction.
    + intros K. rewrite K in L.
      apply (lookup_In String.eqb String.eqb_spec) in L.
      change w with (fst (w, arithmetic_mean
                               (dropna (map Severity (rows_with_weather df w))))).
      now apply in_map.
  - intros w NE All. rewrite weather_mean_lookup.
    apply weather_has_key in NE. rewrite NE. f_equal.
    assert (E : dropna (map Severity (rows_with_weather df w)) = []).
    { induction (rows_with_weather df w) as [|r t IH]; [reflexivity|].
      cbn [map dropna]. rewrite (All r (or_introl eq_refl)).
      apply IH. intros r' I. apply All. now right. }
    rewrite E. reflexivity.
  - unfold weather_severity, head. apply firstn_le_length.
  - apply weather_severity_incl.
Qed.

Lemma X18_weather_groups_witness :
  lookup String.eqb "Fog" (weather_mean fog_without_severity)
  = Some PrimFloat.nan.
Proof.
  destruct (X18_weather_groups fog_without_severity) as (_ & _ & H & _).
  apply H.
  - vm_compute. discriminate.
  - vm_compute. intros r [<-|[<-|[]]]; reflexivity.
Defined.

(* --------------------------------------------------------------------- *)
(** *** Step 2 and Step 3: the range of the time features *)

Lemma strictly_sorted_bounded {V : Type} (l : list (Z * V)) (lo hi : Z) :
  StronglySorted (fun a b => fst a < fst b) l ->
  (forall e, In e l -> lo <= fst e < hi) ->
  Z.of_nat (List.length l) <= Z.max 0 (hi - lo).
Proof.
  intros St. revert lo. induction St as [|a l St IH F]; intros lo B.
  - cbn. lia.
  - pose proof (B a (or_introl eq_refl)) as Ba.
    assert (B' : forall e, In e l -> fst a + 1 <= fst e < hi).
    { intros e I. rewrite Forall_forall in F. specialize (F e I).
      specialize (B e (or_intror I)). lia. }
    specialize (IH _ B'). cbn [List.length]. lia.
Qed.

(** X19.  Hour and Day_of_Week are missing exactly when the timestamp did
    not parse; otherwise the hour is one of 0..23 and the day one of the
    seven names of [day_order].  So the hourly counts have at most 24
    entries, labelled by distinct hours 0..23 in ascending order. *)
Theorem X19_time_features_in_range (df : DataFrame) :
  (forall r : Row,
      (Hour r = None <-> Start_Time r = None)
      /\ (Day_of_Week r = None <-> Start_Time r = None)
      /\ (forall h, Hour r = Some h -> 0 <= h < 24)
      /\ (forall d, Day_of_Week r = Some d -> In d day_order))
  /\ (forall h c, In (h, c) (hour_counts df) -> 0 <= h < 24)
  /\ StronglySorted (fun a b => fst a < fst b) (hour_counts df)
  /\ (List.length (hour_counts df) <= 24)%nat.
Proof.
  assert (R : forall h c, In (h, c) (hour_counts df) -> 0 <= h < 24).
  { intros h c I. apply hour_counts_In in I. destruct I as [-> P].
    apply (count_rows_pos_exists Z.eqb Z.eqb_spec) in P.
    destruct P as (r & _ & E). unfold Hour in E.
    destruct (Start_Time r); [|discriminate]. injection E as <-.
    apply hour_range. }
  split; [|split; [exact R | split; [apply hour_counts_strict|]]].
  - intros r. unfold Hour, Day_of_Week.
    destruct (Start_Time r) as [t|]; cbn [option_map].
    + split; [split; discriminate | split; [split; discriminate | split]].
      * intros h0 [= <-]. apply hour_range.
      * intros d [= <-]. apply day_name_in_order.
    + split; [tauto | split; [tauto | split; discriminate]].
  - pose proof (strictly_sorted_bounded (hour_counts df) 0 24
                  (hour_counts_strict df)) as B.
    assert (B' : forall e, In e (hour_counts df) -> 0 <= fst e < 24)
      by (intros [h c] I; apply (R h c I)).
    specialize (B B'). lia.
Qed.

Lemma X19_time_features_witness :
  0 <= 23 < 24 /\ In "Tuesday" day_order.
Proof.
  destruct (X19_time_features_in_range sample) as (H & _).
  destruct (H tuesday_23h) as (_ & _ & Hh & Hd).
  split; [apply Hh | apply Hd]; reflexivity.
Defined.

(* --------------------------------------------------------------------- *)
(** *** Step 9: the range of the reported counts *)

Lemma loaded_table_bounded (archive : option ZipFile) (a : Analysis) :
  outcome archive = inr a -> len (table a) <= 50000.
Proof.
  unfold outcome, run. destruct (main archive []) as [o w'] eqn:M.
  cbn [fst]. intros ->. apply main_inr in M.
  destruct M as (z & csv_file & rest & _ & _ & An).
  apply analyse_inr in An. destruct An as (_ & _ & T & _).
  unfold len. rewrite T, with_time_features_rows. cbn [read_csv rows].
  pose proof (firstn_le_length (Z.to_nat 50000) (rows (member z csv_file))).
  lia.
Qed.

(** X20.  In a completed run the five counts of the time-pattern section
    are numbers (not missing), each at least 1 and at most the number of
    rows analysed, which is at most 50,000; the lowest hour's count is at
    most the peak hour's and the safest day's at most the most dangerous
    day's. *)
Theorem X20_reported_counts_in_range (archive : option ZipFile) (a : Analysis) :
  outcome archive = inr a ->
  let r := report a in
  exists ph lh pd sd pp,
    peak_hour_count r = Some ph /\ lowest_hour_count r = Some lh
    /\ peak_day_count r = Some pd /\ safest_day_count r = Some sd
    /\ peak_period_count r = Some pp
    /\ 1 <= lh <= ph /\ ph <= total_accidents r
    /\ 1 <= sd <= pd /\ pd <= total_accidents r
    /\ 1 <= pp <= total_accidents r
    /\ total_accidents r <= 50000.
Proof.
  intros O r. pose proof (loaded_table_bounded _ _ O) as B.
  apply outcome_inr in O. destruct O as (w1 & w' & S9).
  apply step9_inr in S9.
  cbn [agg_hour_counts agg_day_counts agg_period_counts] in S9. fold r in S9.
  set (df := table a) in *.
  destruct S9 as (PH & PHc & LH & LHc & PD & PDc & SD & SDc & PP & PPc & Tot & _).
  apply idxmax_spec in PH. destruct PH as (v1 & I1 & M1 & B1).
  apply idxmin_spec in LH. destruct LH as (v2 & I2 & M2 & B2).
  apply idxmax_spec in PD. destruct PD as (v3 & I3 & M3 & B3).
  apply idxmin_spec in SD. destruct SD as (v4 & I4 & M4 & B4).
  apply idxmax_spec in PP. destruct PP as (v5 & I5 & M5 & B5).
  pose proof (B2 _ _ I1) as L21. pose proof (B4 _ _ I3) as L43.
  apply hour_counts_In in I1, I2. apply day_counts_In in I3, I4.
  apply period_counts_In in I5.
  destruct I1 as [E1 P1], I2 as [E2 P2], I3 as (_ & E3 & P3),
    I4 as (_ & E4 & P4), I5 as (_ & E5 & P5).
  pose proof (count_rows_le_len Z.eqb Hour (peak_hour r) df) as C1.
  pose proof (count_rows_le_len String.eqb Day_of_Week (peak_day r) df) as C3.
  pose proof (count_rows_le_len String.eqb (fun x => Some (Time_Period x))
                (peak_period r) df) as C5.
  unfold rows_with_hour in E1. unfold rows_with_day in E3.
  unfold rows_with_period in E5.
  exists v1, v2, v3, v4, v5. rewrite PHc, LHc, PDc, SDc, PPc, Tot.
  repeat split; try assumption; lia.
Qed.

Lemma X20_reported_counts_witness :
  match outcome (archive_of sample) with
  | inr a => total_accidents (report a) <= 50000
  | inl _ => False
  end.
Proof.
  run_concretely (archive_of sample). rewrite Hrun.
  destruct (X20_reported_counts_in_range _ _ Hrun)
    as (ph & lh & pd & sd & pp & H).
  apply H.
Defined.
